(** * Nightly batch letter generation

    A shallow embedding of the request intake, the rate limiter, the JSON
    document store, the hourly batch scheduler and the background runner
    (async_storage_manager.py, async_rate_limiter.py,
    letter_request_manager.py, letter_user_manager.py, batch_scheduler.py,
    background_processor.py), and the properties of them that the
    specification states.

    Python objects are modelled as follows.
    - A JSON object whose keys may be absent is a record of [option]
      fields; a dict used as a map (users, requests per date, counters per
      date) is a [gmap string].
    - A coroutine is a computation in the monad [M]: it threads the
      [World] (file system, I/O fault script, clock, uuid source, the
      external letter generator and the event-loop schedule) and ends in a
      value, in a raised exception, or never ([Hang]).
    - [try: ... except ...:] is [catch]; an exception raised inside a
      handler propagates, as in Python.
    - User-visible text built by f-strings is a constructor of [Message]
      carrying the interpolated values. *)

From stdpp Require Import base option list strings gmap fin_maps pretty.
From Stdlib Require Import ZArith Lia Ascii.

Local Open Scope string_scope.
Local Open Scope Z_scope.

(** ** Exceptions and messages *)

Inductive Exn : Type :=
| JSONDecodeError
| UnicodeDecodeError
| OSError (what : string)
| KeyError (key : string)
| ValueError (what : string)
| TimeoutError
| GenerationError (what : string)
| StorageError (cause : Exn)
| RateLimitError (cause : Exn)
| UserError (cause : Exn).

Inductive Message : Type :=
| MsgThemeLength (lo hi : Z)
| MsgGenerationHour (valid : list Z)
| MsgDailyLimit (hours minutes : Z)
| MsgApiLimit (hours minutes : Z)
| MsgLimitCheckError (e : Exn)
| MsgRequestable
| MsgAlreadyRequested
| MsgAccepted (hour : Z)
| MsgSubmitError (e : Exn)
| MsgInvalidHour (hour : Z) (valid : list Z)
| MsgBatchError (e : Exn)
| MsgPendingError (e : Exn)
| MsgJobException (e : Exn)
| MsgGenTimeout (timeout : Z)
| MsgGenError (e : Exn)
| MsgUnknownError.

(** ** The persisted document *)

Record Metadata : Type := {
  md_generation_time : option Z;
  md_models : string
}.

Record Letter : Type := {
  let_theme : string;
  let_content : string;
  let_status : option string;
  let_generated_at : string;
  let_metadata : Metadata
}.

Record Request : Type := {
  req_theme : option string;
  req_status : option string;
  req_requested_at : option string;
  req_generation_hour : option Z;
  req_request_id : option string;
  req_affection : option (option Z);
  req_processed_at : option string;
  req_error_message : option Message
}.

Record Profile : Type := {
  pr_created_at : option string;
  pr_last_request : option string;
  pr_total_letters : option Z;
  pr_last_access : option string;
  pr_last_activity : option string
}.

Record RateLimits : Type := {
  daily_requests : option (gmap string Z);
  api_calls : option (gmap string Z)
}.

Record HistoryEntry : Type := {
  h_timestamp : string;
  h_type : string;
  h_action : string;
  h_session_id : string;
  h_entry_id : string
}.

(** A user record as it may stand in a file: every key optional. *)
Record RawUser : Type := {
  raw_profile : option Profile;
  raw_letters : option (gmap string Letter);
  raw_requests : option (gmap string Request);
  raw_rate_limits : option RateLimits;
  raw_history : option (list HistoryEntry)
}.

(** A user record after the repair pass: the four keys are there. *)
Record UserData : Type := {
  profile : Profile;
  letters : gmap string Letter;
  requests : gmap string Request;
  rate_limits : RateLimits;
  history : option (list HistoryEntry)
}.

Inductive BatchStatus : Type := BatchRunning | BatchCompleted | BatchFailed.

Record BatchRun : Type := {
  br_hour : Z;
  br_start_time : string;
  br_status : BatchStatus;
  br_end_time : option string;
  br_execution_time : option Z;
  br_processed_count : option Z;
  br_success_count : option Z;
  br_failed_count : option Z;
  br_error_count : option Z;
  br_error : option Message
}.

Record RawSystem : Type := {
  raw_last_backup : option (option string);
  raw_batch_runs : option (gmap string BatchRun);
  raw_created_at : option string
}.

Record SystemRecord : Type := {
  last_backup : option string;
  batch_runs : gmap string BatchRun;
  created_at : string
}.

Record RawDoc : Type := {
  raw_users : option (gmap string RawUser);
  raw_system : option RawSystem
}.

Record Doc : Type := {
  users : gmap string UserData;
  system : SystemRecord
}.

(** What [json.dump] writes for a repaired document. *)
Definition user_to_raw (u : UserData) : RawUser :=
  {| raw_profile := Some (profile u);
     raw_letters := Some (letters u);
     raw_requests := Some (requests u);
     raw_rate_limits := Some (rate_limits u);
     raw_history := history u |}.

Definition system_to_raw (s : SystemRecord) : RawSystem :=
  {| raw_last_backup := Some (last_backup s);
     raw_batch_runs := Some (batch_runs s);
     raw_created_at := Some (created_at s) |}.

Definition to_raw (d : Doc) : RawDoc :=
  {| raw_users := Some (user_to_raw <$> users d);
     raw_system := Some (system_to_raw (system d)) |}.

(** ** The world outside the program *)

(** [datetime.now()], in the formats the code asks for. *)
Record Clock : Type := {
  today : string;          (* strftime("%Y-%m-%d") *)
  isoformat : string;      (* isoformat() *)
  stamp : string;          (* strftime("%Y%m%d_%H%M%S") *)
  second_of_day : Z;
  next_midnight : string
}.

(** A file is empty (size 0), holds text that [json.load] rejects, holds
    bytes that are no UTF-8 text (a text cut inside a character), or holds
    a JSON object. *)
Inductive FileContent : Type :=
| Empty
| Malformed
| Undecodable
| Json (raw : RawDoc).

(** What a write that fails has left in the file: nothing, the text cut
    short, or the text cut inside a character. *)
Inductive Cut : Type := CutEmpty | CutText | CutBytes.

Definition cut_content (k : Cut) : FileContent :=
  match k with
  | CutEmpty => Empty
  | CutText => Malformed
  | CutBytes => Undecodable
  end.

(** What the environment does to the operation that meets this entry of
    the fault script: an open, a read, a write, a [copystat] or an unlink
    fails when [fails_io] is set, an [os.rename] when [fails_rename] is
    set; [cut] is what a write that fails leaves behind. *)
Record Fault : Type := {
  fails_io : bool;
  fails_rename : bool;
  cut : Cut
}.

Record DirEntry : Type := {
  de_name : string;
  de_mtime : Z;
  de_content : FileContent
}.

(** [file_path], [file_path.with_suffix('.tmp')] in the same directory, and
    the entries of [backup_dir] in the order [glob] lists them. *)
Record FileSystem : Type := {
  primary : option FileContent;
  temp : option FileContent;
  backup_dir : list DirEntry
}.

(** What the external pipeline answers to [generate_letter] under
    [asyncio.wait_for]. *)
Inductive GenOutcome : Type :=
| GenOk (content : string) (md : Metadata)
| GenTimeout
| GenRaise (e : Exn).

(** The profile handed to the generator as [user_history]. *)
Record ProfileView : Type := {
  pv_profile : Profile;
  pv_total_requests : Z;
  pv_completed_letters : Z;
  pv_pending_requests : Z
}.

(** An event-loop decision during a fan-out: job [i] enters the semaphore
    and runs up to its suspension in [wait_for], or job [i] is resumed with
    the outcome of its generation. *)
Inductive Event : Type :=
| EvStart (i : nat)
| EvFinish (i : nat).

Record World : Type := {
  fs : FileSystem;
  faults : list Fault;     (* one entry per open, read, write, rename, copystat or unlink *)
  now : Clock;
  uuid_counter : nat;
  generator : string → string → ProfileView → GenOutcome;
  schedule : list Event
}.

Definition set_fs (f : FileSystem) (w : World) : World :=
  {| fs := f; faults := faults w; now := now w; uuid_counter := uuid_counter w;
     generator := generator w; schedule := schedule w |}.

Definition set_faults (l : list Fault) (w : World) : World :=
  {| fs := fs w; faults := l; now := now w; uuid_counter := uuid_counter w;
     generator := generator w; schedule := schedule w |}.

Definition set_uuid_counter (n : nat) (w : World) : World :=
  {| fs := fs w; faults := faults w; now := now w; uuid_counter := n;
     generator := generator w; schedule := schedule w |}.

(** ** Computations *)

Inductive Outcome (A : Type) : Type :=
| Ok (a : A)
| Raise (e : Exn)
| Hang.
Arguments Ok {A} a.
Arguments Raise {A} e.
Arguments Hang {A}.

Definition M (A : Type) : Type := World → Outcome A * World.

Definition ret {A} (a : A) : M A := λ w, (Ok a, w).

Definition bind {A B} (m : M A) (k : A → M B) : M B :=
  λ w, match m w with
       | (Ok a, w') => k a w'
       | (Raise e, w') => (Raise e, w')
       | (Hang, w') => (Hang, w')
       end.

Definition raise {A} (e : Exn) : M A := λ w, (Raise e, w).
Definition hang {A} : M A := λ w, (Hang, w).

(** [try: m except Exception as e: h e] *)
Definition catch {A} (m : M A) (h : Exn → M A) : M A :=
  λ w, match m w with
       | (Raise e, w') => h e w'
       | r => r
       end.

Definition get_world : M World := λ w, (Ok w, w).
Definition put_fs (f : FileSystem) : M unit := λ w, (Ok tt, set_fs f w).

Notation "'let!' x ':=' m 'in' k" := (bind m (λ x, k))
  (at level 10, x pattern, m at level 100, k at level 200).
Notation "m ';;' k" := (bind m (λ _, k))
  (at level 100, k at level 200, right associativity, only parsing).

Definition datetime_now : M Clock := λ w, (Ok (now w), w).

Definition uuid4 : M string :=
  λ w, (Ok (pretty (uuid_counter w)), set_uuid_counter (S (uuid_counter w)) w).

(** The next entry of the fault script; an exhausted script means that
    nothing fails any more. *)
Definition io_fault : M bool :=
  λ w, match faults w with
       | [] => (Ok false, w)
       | f :: l => (Ok (fails_io f), set_faults l w)
       end.

(** The same for an [os.rename]. *)
Definition rename_fault : M bool :=
  λ w, match faults w with
       | [] => (Ok false, w)
       | f :: l => (Ok (fails_rename f), set_faults l w)
       end.

(** The same for a write: what it leaves behind when it fails. *)
Definition write_fault : M (option Cut) :=
  λ w, match faults w with
       | [] => (Ok None, w)
       | f :: l => (Ok (if fails_io f then Some (cut f) else None), set_faults l w)
       end.

(** ** AsyncStorageManager *)

Record Config : Type := {
  default_data : Doc;
  max_daily_requests : Z;
  max_api_calls_per_day : Z;
  debug_mode : bool;
  max_theme_length : Z;
  min_theme_length : Z;
  max_concurrent_generations : Z;
  generation_timeout : Z;
  max_history_entries : Z
}.

(** [backup_dir.glob("letters_backup_*.json")] *)
Definition glob_letters_backup (name : string) : bool :=
  let n := String.length name in
  String.prefix "letters_backup_" name
  && (Nat.leb 20 n)
  && String.eqb (String.substring (n - 5)%nat 5 name) ".json".

(** [max(l, key=...)]: the first element whose key is maximal *)
Fixpoint py_max_from {A K} (lt : K → K → bool) (key : A → K) (best : A) (l : list A) : A :=
  match l with
  | [] => best
  | x :: l' => py_max_from lt key (if lt (key best) (key x) then x else best) l'
  end.

Definition py_max {A K} (lt : K → K → bool) (key : A → K) (l : list A) : option A :=
  match l with
  | [] => None
  | x :: l' => Some (py_max_from lt key x l')
  end.

(** [<] on [str] *)
Definition str_lt (a b : string) : bool :=
  match String.compare a b with Lt => true | _ => false end.

Definition default_profile (c : Clock) : Profile :=
  {| pr_created_at := Some (isoformat c);
     pr_last_request := None;
     pr_total_letters := Some 0;
     pr_last_access := None;
     pr_last_activity := None |}.

Definition empty_rate_limits : RateLimits :=
  {| daily_requests := Some ∅; api_calls := Some ∅ |}.

Definition new_user_data (c : Clock) : UserData :=
  {| profile := default_profile c;
     letters := ∅;
     requests := ∅;
     rate_limits := empty_rate_limits;
     history := None |}.

Definition repair_user (c : Clock) (u : RawUser) : UserData :=
  {| profile := default (default_profile c) (raw_profile u);
     letters := default ∅ (raw_letters u);
     requests := default ∅ (raw_requests u);
     rate_limits := default empty_rate_limits (raw_rate_limits u);
     history := raw_history u |}.

Definition repair_system (c : Clock) (s : RawSystem) : SystemRecord :=
  {| last_backup := default None (raw_last_backup s);
     batch_runs := default ∅ (raw_batch_runs s);
     created_at := default (isoformat c) (raw_created_at s) |}.

Section Storage.
Variable cfg : Config.

(** The keys [users] and [system], the three keys of [system] and the
    four keys of every user are filled in where they are missing. *)
Definition _validate_and_repair_data (c : Clock) (data : RawDoc) : Doc :=
  {| users := repair_user c <$> default ∅ (raw_users data);
     system := repair_system c
                 (default (system_to_raw (system (default_data cfg)))
                          (raw_system data)) |}.

(** [open(temp_path, 'w')] *)
Definition open_temp_w : M unit :=
  let! failed := io_fault in
  if failed then raise (OSError "open")
  else let! w := get_world in
       put_fs {| primary := primary (fs w); temp := Some Empty;
                 backup_dir := backup_dir (fs w) |}.

(** [json.dump(validated_data, f)]: a failing write leaves a truncated
    temporary file. *)
Definition json_dump_temp (d : Doc) : M unit :=
  let! failed := write_fault in
  let! w := get_world in
  match failed with
  | Some k =>
      put_fs {| primary := primary (fs w); temp := Some (cut_content k);
                backup_dir := backup_dir (fs w) |};;
      raise (OSError "write")
  | None =>
      put_fs {| primary := primary (fs w); temp := Some (Json (to_raw d));
                backup_dir := backup_dir (fs w) |}
  end.

(** [os.rename(temp_path, file_path)]: replaces the destination at once,
    or fails and leaves both files as they are. *)
Definition os_rename_temp : M unit :=
  let! failed := rename_fault in
  if failed then raise (OSError "rename")
  else let! w := get_world in
       match temp (fs w) with
       | None => raise (OSError "no such file")
       | Some c => put_fs {| primary := Some c; temp := None;
                             backup_dir := backup_dir (fs w) |}
       end.

(** [copy2(temp_path, file_path)] of the standard library:
    [open(src, 'rb')], [open(dst, 'wb')], which empties the destination,
    the copy of the bytes, which a failure cuts short, and [copystat]. *)
Definition copy2_temp : M unit :=
  let! failed := io_fault in
  if failed then raise (OSError "open")
  else
    let! w := get_world in
    match temp (fs w) with
    | None => raise (OSError "no such file")
    | Some c =>
        let! failed := io_fault in
        if failed then raise (OSError "open")
        else
          put_fs {| primary := Some Empty; temp := Some c;
                    backup_dir := backup_dir (fs w) |};;
          let! failed := write_fault in
          match failed with
          | Some k =>
              put_fs {| primary := Some (cut_content k); temp := Some c;
                        backup_dir := backup_dir (fs w) |};;
              raise (OSError "write")
          | None =>
              put_fs {| primary := Some c; temp := Some c;
                        backup_dir := backup_dir (fs w) |};;
              let! failed := io_fault in
              if failed then raise (OSError "copystat") else ret tt
          end
    end.

(** [os.unlink(temp_path)] *)
Definition os_unlink_temp : M unit :=
  let! failed := io_fault in
  if failed then raise (OSError "unlink")
  else let! w := get_world in
       put_fs {| primary := primary (fs w); temp := None;
                 backup_dir := backup_dir (fs w) |}.

(** [shutil.move(temp_path, file_path)] of the standard library:
    [os.rename], and when that raises [OSError] the file is copied over
    the destination and the source removed. *)
Definition shutil_move_temp : M unit :=
  catch os_rename_temp (λ _, copy2_temp;; os_unlink_temp).

(** [if temp_path.exists(): temp_path.unlink()] *)
Definition unlink_temp : M unit :=
  let! w := get_world in
  match temp (fs w) with
  | None => ret tt
  | Some _ => os_unlink_temp
  end.

(** [with open(path, encoding='utf-8') as f: json.load(f)] *)
Definition json_load (c : FileContent) : M RawDoc :=
  let! failed := io_fault in
  if failed then raise (OSError "read")
  else match c with
       | Json raw => ret raw
       | Empty | Malformed => raise JSONDecodeError
       | Undecodable => raise UnicodeDecodeError
       end.

(** Returns the validated document, which in Python is [data] itself,
    repaired in place. An exception of the cleanup in the handler leaves
    the handler in the place of the [StorageError]. *)
Definition _save_data_unsafe (data : RawDoc) : M Doc :=
  catch
    (let! c := datetime_now in
     let validated_data := _validate_and_repair_data c data in
     open_temp_w;;
     json_dump_temp validated_data;;
     shutil_move_temp;;
     ret validated_data)
    (λ e, unlink_temp;; raise (StorageError e)).

Definition save_data (data : Doc) : M unit :=
  _save_data_unsafe (to_raw data);; ret tt.

Definition _restore_from_backup : M Doc :=
  catch
    (let! w := get_world in
     let backup_files := filter (λ e, glob_letters_backup (de_name e) = true)
                                (backup_dir (fs w)) in
     match py_max Z.ltb de_mtime backup_files with
     | None =>
         _save_data_unsafe (to_raw (default_data cfg));;
         ret (default_data cfg)
     | Some latest_backup =>
         let! data := json_load (de_content latest_backup) in
         _save_data_unsafe data
     end)
    (λ _, _save_data_unsafe (to_raw (default_data cfg));;
          ret (default_data cfg)).

Definition load_data : M Doc :=
  catch
    (let! w := get_world in
     match primary (fs w) with
     | None | Some Empty =>
         _save_data_unsafe (to_raw (default_data cfg));;
         ret (default_data cfg)
     | Some content =>
         let! data := json_load content in
         let! c := datetime_now in
         ret (_validate_and_repair_data c data)
     end)
    (λ e, match e with
          | JSONDecodeError => _restore_from_backup
          | _ => raise (StorageError e)
          end).

Definition set_users (us : gmap string UserData) (d : Doc) : Doc :=
  {| users := us; system := system d |}.

Definition set_system (s : SystemRecord) (d : Doc) : Doc :=
  {| users := users d; system := s |}.

Definition get_user_data (user_id : string) : M UserData :=
  let! data := load_data in
  match users data !! user_id with
  | Some user_data => ret user_data
  | None =>
      let! c := datetime_now in
      let user_data := new_user_data c in
      save_data (set_users (<[user_id := user_data]> (users data)) data);;
      ret user_data
  end.

Definition update_user_data (user_id : string) (user_data : UserData) : M unit :=
  let! data := load_data in
  save_data (set_users (<[user_id := user_data]> (users data)) data).

Definition get_all_users : M (list string) :=
  let! data := load_data in
  ret ((map_to_list (users data)).*1).

Definition get_system_info : M SystemRecord :=
  let! data := load_data in
  ret (system data).

Definition update_system_info (system_info : SystemRecord) : M unit :=
  let! data := load_data in
  save_data (set_system system_info data).

End Storage.

(** ** AsyncRateLimitManager *)

Inductive LimitInfo : Type :=
| LimitCounts (today_count max_count remaining : Z) (reset_time : string) (debug : bool)
| LimitError (e : Exn).

Section RateLimiter.
Variable cfg : Config.

Definition check_daily_request_limit (user_id : string) : M (bool * LimitInfo) :=
  catch
    (let! user_data := get_user_data cfg user_id in
     let! c := datetime_now in
     match daily_requests (rate_limits user_data) with
     | None => raise (KeyError "daily_requests")
     | Some counters =>
         let today_requests := default 0 (counters !! today c) in
         let is_allowed := bool_decide (today_requests < max_daily_requests cfg) in
         ret (is_allowed,
              LimitCounts today_requests (max_daily_requests cfg)
                (Z.max 0 (max_daily_requests cfg - today_requests))
                (next_midnight c) (debug_mode cfg))
     end)
    (λ e, ret (false, LimitError e)).

Definition check_api_call_limit (user_id : string) : M (bool * LimitInfo) :=
  catch
    (let! user_data := get_user_data cfg user_id in
     let! c := datetime_now in
     match api_calls (rate_limits user_data) with
     | None => raise (KeyError "api_calls")
     | Some counters =>
         let today_calls := default 0 (counters !! today c) in
         let is_allowed := bool_decide (today_calls < max_api_calls_per_day cfg) in
         ret (is_allowed,
              LimitCounts today_calls (max_api_calls_per_day cfg)
                (Z.max 0 (max_api_calls_per_day cfg - today_calls))
                (next_midnight c) (debug_mode cfg))
     end)
    (λ e, ret (false, LimitError e)).

Definition set_last_request (d : string) (p : Profile) : Profile :=
  {| pr_created_at := pr_created_at p;
     pr_last_request := Some d;
     pr_total_letters := pr_total_letters p;
     pr_last_access := pr_last_access p;
     pr_last_activity := pr_last_activity p |}.

Definition record_request (user_id : string) : M unit :=
  catch
    (let! user_data := get_user_data cfg user_id in
     let! c := datetime_now in
     let counters := default ∅ (daily_requests (rate_limits user_data)) in
     let counters' := <[today c := default 0 (counters !! today c) + 1]> counters in
     update_user_data cfg user_id
       {| profile := set_last_request (today c) (profile user_data);
          letters := letters user_data;
          requests := requests user_data;
          rate_limits := {| daily_requests := Some counters';
                            api_calls := api_calls (rate_limits user_data) |};
          history := history user_data |})
    (λ e, raise (RateLimitError e)).

(** Hours and minutes until midnight; [timedelta.seconds] of a whole day
    is 0. *)
Definition _calculate_remaining_time : M (Z * Z) :=
  let! c := datetime_now in
  let remaining := (86400 - second_of_day c) `mod` 86400 in
  ret (remaining `div` 3600, (remaining `mod` 3600) `div` 60).

Definition is_request_allowed (user_id : string) : M (bool * Message) :=
  catch
    (let! (request_allowed, request_info) := check_daily_request_limit user_id in
     if negb request_allowed
     then let! (hours, minutes) := _calculate_remaining_time in
          ret (false, MsgDailyLimit hours minutes)
     else
       let! (api_allowed, api_info) := check_api_call_limit user_id in
       if negb api_allowed
       then let! (hours, minutes) := _calculate_remaining_time in
            ret (false, MsgApiLimit hours minutes)
       else ret (true, MsgRequestable))
    (λ e, ret (false, MsgLimitCheckError e)).

End RateLimiter.

(** ** RequestManager *)

Definition valid_generation_hours : list Z := [2; 3; 4].

(** [str.isspace] on the code points below 256 *)
Definition py_isspace (a : ascii) : bool :=
  let n := nat_of_ascii a in
  (Nat.leb 9 n && Nat.leb n 13) || (Nat.leb 28 n && Nat.leb n 32)
  || Nat.eqb n 133 || Nat.eqb n 160.

Fixpoint lstrip (s : string) : string :=
  match s with
  | String a s' => if py_isspace a then lstrip s' else s
  | EmptyString => EmptyString
  end.

Fixpoint rstrip (s : string) : string :=
  match s with
  | String a s' =>
      match rstrip s' with
      | EmptyString => if py_isspace a then EmptyString else String a EmptyString
      | t => String a t
      end
  | EmptyString => EmptyString
  end.

Definition strip (s : string) : string := rstrip (lstrip s).

Fixpoint py_any (p : ascii → bool) (s : string) : bool :=
  match s with
  | String a s' => p a || py_any p s'
  | EmptyString => false
  end.

(** [ord(char) < 32 and char not in ['\n', '\r', '\t']] *)
Definition bad_control (a : ascii) : bool :=
  let n := nat_of_ascii a in
  Nat.ltb n 32 && negb (Nat.eqb n 10 || Nat.eqb n 13 || Nat.eqb n 9).

(** A pending request as [get_pending_requests_by_hour] reports it. *)
Record PendingRequest : Type := {
  p_user_id : string;
  p_theme : string;
  p_requested_at : string;
  p_generation_hour : Z;
  p_request_id : string;
  p_date : string
}.

(** Truth value of a request dict: false only for the empty dict. *)
Definition request_truthy (r : Request) : bool :=
  bool_decide (is_Some (req_theme r)) || bool_decide (is_Some (req_status r))
  || bool_decide (is_Some (req_requested_at r))
  || bool_decide (is_Some (req_generation_hour r))
  || bool_decide (is_Some (req_request_id r))
  || bool_decide (is_Some (req_affection r))
  || bool_decide (is_Some (req_processed_at r))
  || bool_decide (is_Some (req_error_message r)).

Definition set_requests (rs : gmap string Request) (u : UserData) : UserData :=
  {| profile := profile u; letters := letters u; requests := rs;
     rate_limits := rate_limits u; history := history u |}.

Definition mark_status (status : string) (at_ : string) (err : option Message)
    (r : Request) : Request :=
  {| req_theme := req_theme r;
     req_status := Some status;
     req_requested_at := req_requested_at r;
     req_generation_hour := req_generation_hour r;
     req_request_id := req_request_id r;
     req_affection := req_affection r;
     req_processed_at := Some at_;
     req_error_message := match err with Some m => Some m | None => req_error_message r end |}.

(** [for x in l: acc = body(acc, x)] with effects *)
Fixpoint for_each {A B} (l : list A) (acc : B) (body : B → A → M B) : M B :=
  match l with
  | [] => ret acc
  | x :: l' => let! acc' := body acc x in for_each l' acc' body
  end.

Section RequestManager.
Variable cfg : Config.

Definition validate_theme (theme : string) : bool :=
  match theme with
  | EmptyString => false
  | _ =>
      let theme := strip theme in
      let n := Z.of_nat (String.length theme) in
      if bool_decide (n < min_theme_length cfg) || bool_decide (max_theme_length cfg < n)
      then false
      else negb (py_any bad_control theme)
  end.

Definition validate_generation_hour (hour : Z) : bool :=
  bool_decide (hour ∈ valid_generation_hours).

Definition _get_user_request_for_date (user_id date : string) : M (option Request) :=
  catch
    (let! user_data := get_user_data cfg user_id in
     ret (requests user_data !! date))
    (λ _, ret None).

Definition submit_request (user_id theme : string) (generation_hour : Z)
    (affection : option Z) : M (bool * Message) :=
  catch
    (if negb (validate_theme theme)
     then ret (false, MsgThemeLength (min_theme_length cfg) (max_theme_length cfg))
     else if negb (validate_generation_hour generation_hour)
     then ret (false, MsgGenerationHour valid_generation_hours)
     else
       let! (allowed, limit_message) := is_request_allowed cfg user_id in
       if negb allowed then ret (false, limit_message)
       else
         let! c := datetime_now in
         let today_ := today c in
         let! existing_request := _get_user_request_for_date user_id today_ in
         if from_option request_truthy false existing_request
         then ret (false, MsgAlreadyRequested)
         else
           let! c' := datetime_now in
           let! rid := uuid4 in
           let request_data :=
             {| req_theme := Some (strip theme);
                req_status := Some "pending";
                req_requested_at := Some (isoformat c');
                req_generation_hour := Some generation_hour;
                req_request_id := Some rid;
                req_affection := Some affection;
                req_processed_at := None;
                req_error_message := None |} in
           let! user_data := get_user_data cfg user_id in
           update_user_data cfg user_id
             (set_requests (<[today_ := request_data]> (requests user_data)) user_data);;
           record_request cfg user_id;;
           ret (true, MsgAccepted generation_hour))
    (λ e, ret (false, MsgSubmitError e)).

Definition get_pending_requests_by_hour (hour : Z) : M (list PendingRequest) :=
  catch
    (if negb (bool_decide (hour ∈ valid_generation_hours)) then ret []
     else
       let! all_users := get_all_users cfg in
       let! c := datetime_now in
       let today_ := today c in
       for_each all_users [] (λ pending_requests user_id,
         let! user_data := get_user_data cfg user_id in
         match requests user_data !! today_ with
         | None => ret pending_requests
         | Some request =>
             if bool_decide (req_generation_hour request = Some hour)
                && bool_decide (req_status request = Some "pending")
             then
               match req_theme request, req_requested_at request with
               | None, _ => raise (KeyError "theme")
               | Some _, None => raise (KeyError "requested_at")
               | Some theme, Some requested_at =>
                   ret (pending_requests ++
                        [{| p_user_id := user_id;
                            p_theme := theme;
                            p_requested_at := requested_at;
                            p_generation_hour := hour;
                            p_request_id := default "" (req_request_id request);
                            p_date := today_ |}])%list
               end
             else ret pending_requests
         end))
    (λ _, ret []).

Definition mark_request_processed (user_id date status : string) : M bool :=
  catch
    (let! user_data := get_user_data cfg user_id in
     match requests user_data !! date with
     | None => ret false
     | Some request =>
         let! c := datetime_now in
         update_user_data cfg user_id
           (set_requests
              (<[date := mark_status status (isoformat c) None request]>
                 (requests user_data)) user_data);;
         ret true
     end)
    (λ _, ret false).

Definition mark_request_failed (user_id date : string) (error_message : Message) : M bool :=
  catch
    (let! user_data := get_user_data cfg user_id in
     match requests user_data !! date with
     | None => ret false
     | Some request =>
         let! c := datetime_now in
         update_user_data cfg user_id
           (set_requests
              (<[date := mark_status "failed" (isoformat c) (Some error_message) request]>
                 (requests user_data)) user_data);;
         ret true
     end)
    (λ _, ret false).

End RequestManager.

(** ** UserManager *)

Record Interaction : Type := {
  int_type : option string;
  int_action : option string;
  int_session_id : option string;
  int_date : option string;
  int_theme : option string;
  int_status : option string;
  int_generated_at : option string
}.

(** [l[k:]] *)
Definition py_slice_from {A} (k : Z) (l : list A) : list A :=
  if (k <? 0)%Z then drop (Z.to_nat (Z.max 0 (Z.of_nat (length l) + k))) l
  else drop (Z.to_nat k) l.

Definition set_last_activity (t : string) (p : Profile) : Profile :=
  {| pr_created_at := pr_created_at p;
     pr_last_request := pr_last_request p;
     pr_total_letters := pr_total_letters p;
     pr_last_access := pr_last_access p;
     pr_last_activity := Some t |}.

(** [None] also stands for the exception that the function swallows. *)
Definition _calculate_last_activity (user_data : UserData) : option string :=
  let t1 := match pr_last_access (profile user_data) with
            | Some t => [t] | None => [] end in
  let t2 := match py_max str_lt h_timestamp (default [] (history user_data)) with
            | Some latest_history => [h_timestamp latest_history]
            | None => [] end in
  match py_max str_lt (λ x, default "" (req_requested_at x))
               ((map_to_list (requests user_data)).*2) with
  | Some latest_request =>
      match req_requested_at latest_request with
      | Some t3 => py_max str_lt id (t1 ++ t2 ++ [t3])%list
      | None => None
      end
  | None => py_max str_lt id (t1 ++ t2)%list
  end.

Definition _update_profile_stats (c : Clock) (interaction : Interaction) (p : Profile) : Profile :=
  let interaction_type := default "" (int_type interaction) in
  let p1 :=
    if String.eqb interaction_type "letter_request"
    then {| pr_created_at := pr_created_at p;
            pr_last_request := pr_last_request p;
            pr_total_letters := Some (default 0 (pr_total_letters p) + 1);
            pr_last_access := pr_last_access p;
            pr_last_activity := pr_last_activity p |}
    else if String.eqb interaction_type "app_access"
    then {| pr_created_at := pr_created_at p;
            pr_last_request := pr_last_request p;
            pr_total_letters := pr_total_letters p;
            pr_last_access := Some (isoformat c);
            pr_last_activity := pr_last_activity p |}
    else p in
  set_last_activity (isoformat c) p1.

Section UserManager.
Variable cfg : Config.

Definition get_user_profile (user_id : string) : M ProfileView :=
  catch
    (let! user_data := get_user_data cfg user_id in
     let p := profile user_data in
     let total_requests := Z.of_nat (size (requests user_data)) in
     let completed_letters :=
       Z.of_nat (length (filter (λ l, let_status l = Some "completed")
                                ((map_to_list (letters user_data)).*2))) in
     let pending_requests :=
       Z.of_nat (length (filter (λ r, req_status r = Some "pending")
                                ((map_to_list (requests user_data)).*2))) in
     let p' := match _calculate_last_activity user_data with
               | Some t => if String.eqb t "" then p else set_last_activity t p
               | None => p
               end in
     ret {| pv_profile := p';
            pv_total_requests := total_requests;
            pv_completed_letters := completed_letters;
            pv_pending_requests := pending_requests |})
    (λ e, raise (UserError e)).

Definition update_user_history (user_id : string) (interaction : Interaction) : M bool :=
  catch
    (let! user_data := get_user_data cfg user_id in
     let! c := datetime_now in
     let! eid := uuid4 in
     let history_entry :=
       {| h_timestamp := isoformat c;
          h_type := default "unknown" (int_type interaction);
          h_action := default "" (int_action interaction);
          h_session_id := default "" (int_session_id interaction);
          h_entry_id := eid |} in
     let hist := (default [] (history user_data) ++ [history_entry])%list in
     let hist' := if bool_decide (max_history_entries cfg < Z.of_nat (length hist))
                  then py_slice_from (- max_history_entries cfg) hist
                  else hist in
     let! c' := datetime_now in
     update_user_data cfg user_id
       {| profile := _update_profile_stats c' interaction (profile user_data);
          letters := letters user_data;
          requests := requests user_data;
          rate_limits := rate_limits user_data;
          history := Some hist' |};;
     ret true)
    (λ _, ret false).

End UserManager.

(** ** BatchScheduler *)

Definition available_hours : list Z := [2; 3; 4].

(** What one job hands to [asyncio.gather] with [return_exceptions=True]:
    one of its two result dicts, or the exception that escaped it. *)
Inductive JobResult : Type :=
| JobOk (user_id theme : string) (generation_time : Z)
| JobFail (user_id : string) (error : Message)
| JobExc (e : Exn).

Inductive JobState : Type :=
| NotStarted
| Started (user_history : ProfileView)
| Done (r : JobResult).

Record ErrorEntry : Type := {
  ee_request_index : option nat;
  ee_user_id : option string;
  ee_error : Message
}.

Record BatchCounts : Type := {
  processed_count : Z;
  success_count : Z;
  failed_count : Z;
  errors : list ErrorEntry
}.

Inductive Value : Type :=
| VBool (b : bool)
| VStr (s : string)
| VInt (z : Z)
| VMsg (m : Message)
| VErrors (l : list ErrorEntry).

Definition is_started (s : JobState) : bool :=
  match s with Started _ => true | _ => false end.

(** The jobs that hold the semaphore. *)
Definition in_flight (js : list JobState) : nat :=
  length (filter (λ s, is_started s = true) js).

Definition job_result (s : JobState) : JobResult :=
  match s with
  | Done r => r
  | NotStarted | Started _ => JobExc (ValueError "unfinished")
  end.

(** The loop over [enumerate(results)] *)
Fixpoint aggregate (i : nat) (pending_requests : list PendingRequest)
    (results : list JobResult) (acc : BatchCounts) : BatchCounts :=
  match results with
  | [] => acc
  | result :: rest =>
      let user := Some (default "unknown" (p_user_id <$> pending_requests !! i)) in
      let acc' :=
        match result with
        | JobExc e =>
            {| processed_count := processed_count acc;
               success_count := success_count acc;
               failed_count := failed_count acc + 1;
               errors := errors acc ++
                 [{| ee_request_index := Some i; ee_user_id := user;
                     ee_error := MsgJobException e |}] |}
        | JobOk _ _ _ =>
            {| processed_count := processed_count acc;
               success_count := success_count acc + 1;
               failed_count := failed_count acc;
               errors := errors acc |}
        | JobFail _ error =>
            {| processed_count := processed_count acc;
               success_count := success_count acc;
               failed_count := failed_count acc + 1;
               errors := errors acc ++
                 [{| ee_request_index := Some i; ee_user_id := user;
                     ee_error := error |}] |}
        end in
      aggregate (S i) pending_requests rest acc'
  end.

Section BatchScheduler.
Variable cfg : Config.

Definition _save_generated_letter (user_id date theme content : string)
    (md : Metadata) : M unit :=
  catch
    (let! user_data := get_user_data cfg user_id in
     let! c := datetime_now in
     let letter_data :=
       {| let_theme := theme; let_content := content;
          let_status := Some "completed";
          let_generated_at := isoformat c; let_metadata := md |} in
     let p := profile user_data in
     update_user_data cfg user_id
       {| profile :=
            {| pr_created_at := pr_created_at p;
               pr_last_request := Some date;
               pr_total_letters := Some (default 0 (pr_total_letters p) + 1);
               pr_last_access := pr_last_access p;
               pr_last_activity := pr_last_activity p |};
          letters := <[date := letter_data]> (letters user_data);
          requests := requests user_data;
          rate_limits := rate_limits user_data;
          history := history user_data |})
    (λ e, raise e).

(** The two [except] clauses of [_process_single_request] *)
Definition job_failed (request : PendingRequest) (e : Exn) : M JobResult :=
  let error_msg := match e with
                   | TimeoutError => MsgGenTimeout (generation_timeout cfg)
                   | _ => MsgGenError e
                   end in
  mark_request_failed cfg (p_user_id request) (p_date request) error_msg;;
  ret (JobFail (p_user_id request) error_msg).

(** [_process_single_request] from the semaphore to the suspension in
    [asyncio.wait_for]: [inl] the history it waits with, [inr] its result
    when it ended before. *)
Definition job_start (request : PendingRequest) : M (ProfileView + JobResult) :=
  catch
    (let! user_history := get_user_profile cfg (p_user_id request) in
     ret (inl user_history))
    (λ e, let! r := job_failed request e in ret (inr r)).

(** [_process_single_request] from the outcome of the generation on. *)
Definition job_finish (request : PendingRequest) (user_history : ProfileView)
    : M JobResult :=
  catch
    (let! w := get_world in
     let user_id := p_user_id request in
     let theme := p_theme request in
     let date := p_date request in
     match generator w user_id theme user_history with
     | GenTimeout => raise TimeoutError
     | GenRaise e => raise e
     | GenOk content md =>
         _save_generated_letter user_id date theme content md;;
         mark_request_processed cfg user_id date "completed";;
         let! c := datetime_now in
         update_user_history cfg user_id
           {| int_type := None; int_action := None; int_session_id := None;
              int_date := Some date; int_theme := Some theme;
              int_status := Some "completed";
              int_generated_at := Some (isoformat c) |};;
         ret (JobOk user_id theme (default 0 (md_generation_time md)))
     end)
    (job_failed request).

Definition _process_single_request (request : PendingRequest) : M JobResult :=
  let! s := job_start request in
  match s with
  | inl user_history => job_finish request user_history
  | inr r => ret r
  end.

(** A task turns an escaping exception into its result. *)
Definition task_start (request : PendingRequest) : M JobState :=
  catch
    (let! s := job_start request in
     ret (match s with inl h => Started h | inr r => Done r end))
    (λ e, ret (Done (JobExc e))).

Definition task_finish (request : PendingRequest) (h : ProfileView) : M JobState :=
  catch
    (let! r := job_finish request h in ret (Done r))
    (λ e, ret (Done (JobExc e))).

(** One decision of the event loop. A job starts only while fewer than
    [max_concurrent_generations] jobs hold the semaphore; a decision that
    is not possible in the current state is skipped. *)
Definition apply_event (requests_ : list PendingRequest) (js : list JobState)
    (ev : Event) : M (list JobState) :=
  match ev with
  | EvStart i =>
      match js !! i, requests_ !! i with
      | Some NotStarted, Some request =>
          if bool_decide (Z.of_nat (in_flight js) < max_concurrent_generations cfg)
          then let! s := task_start request in ret (<[i := s]> js)
          else ret js
      | _, _ => ret js
      end
  | EvFinish i =>
      match js !! i, requests_ !! i with
      | Some (Started h), Some request =>
          let! s := task_finish request h in ret (<[i := s]> js)
      | _, _ => ret js
      end
  end.

(** The jobs still waiting in [wait_for] are resumed. *)
Definition finish_started (requests_ : list PendingRequest) (js : list JobState)
    : M (list JobState) :=
  for_each (seq 0 (length js)) js
    (λ js i, apply_event requests_ js (EvFinish i)).

(** The jobs still waiting for the semaphore run one after the other; with
    a semaphore of 0 they wait for ever. *)
Definition start_rest (requests_ : list PendingRequest) (js : list JobState)
    : M (list JobState) :=
  for_each (seq 0 (length js)) js
    (λ js i,
       match js !! i with
       | Some NotStarted =>
           if bool_decide (max_concurrent_generations cfg ≤ 0) then hang
           else let! js' := apply_event requests_ js (EvStart i) in
                apply_event requests_ js' (EvFinish i)
       | _ => ret js
       end).

(** [asyncio.gather] with [return_exceptions=True]: the event loop
    interleaves the jobs as [schedule] says, then runs what is left to
    completion; the results come in the order of the tasks. *)
Definition gather (requests_ : list PendingRequest) : M (list JobResult) :=
  let! w := get_world in
  let! js := for_each (schedule w) (replicate (length requests_) NotStarted)
               (apply_event requests_) in
  let! js := finish_started requests_ js in
  let! js := start_rest requests_ js in
  ret (job_result <$> js).

Definition process_pending_requests_for_hour (hour : Z) : M BatchCounts :=
  catch
    (let! pending_requests := get_pending_requests_by_hour cfg hour in
     match pending_requests with
     | [] => ret {| processed_count := 0; success_count := 0;
                    failed_count := 0; errors := [] |}
     | _ =>
         if bool_decide (max_concurrent_generations cfg < 0)
         then raise (ValueError "Semaphore initial value must be >= 0")
         else
           let! results := gather pending_requests in
           ret (aggregate 0 pending_requests results
                  {| processed_count := Z.of_nat (length pending_requests);
                     success_count := 0; failed_count := 0; errors := [] |})
     end)
    (λ e, ret {| processed_count := 0; success_count := 0; failed_count := 0;
                 errors := [{| ee_request_index := None; ee_user_id := None;
                               ee_error := MsgPendingError e |}] |}).

Definition set_batch_runs (rs : gmap string BatchRun) (s : SystemRecord) : SystemRecord :=
  {| last_backup := last_backup s; batch_runs := rs; created_at := created_at s |}.

Definition _record_batch_start (batch_id : string) (hour : Z) (start_time : Clock)
    : M unit :=
  catch
    (let! system_info := get_system_info cfg in
     update_system_info cfg
       (set_batch_runs
          (<[batch_id :=
               {| br_hour := hour; br_start_time := isoformat start_time;
                  br_status := BatchRunning; br_end_time := None;
                  br_execution_time := None; br_processed_count := None;
                  br_success_count := None; br_failed_count := None;
                  br_error_count := None; br_error := None |}]>
             (batch_runs system_info)) system_info))
    (λ _, ret tt).

Definition _record_batch_completion (batch_id : string) (hour : Z)
    (start_time end_time : Clock) (result : BatchCounts) : M unit :=
  catch
    (let! system_info := get_system_info cfg in
     match batch_runs system_info !! batch_id with
     | Some run =>
         update_system_info cfg
           (set_batch_runs
              (<[batch_id :=
                   {| br_hour := br_hour run; br_start_time := br_start_time run;
                      br_status := BatchCompleted;
                      br_end_time := Some (isoformat end_time);
                      br_execution_time :=
                        Some (second_of_day end_time - second_of_day start_time);
                      br_processed_count := Some (processed_count result);
                      br_success_count := Some (success_count result);
                      br_failed_count := Some (failed_count result);
                      br_error_count := Some (Z.of_nat (length (errors result)));
                      br_error := br_error run |}]>
                 (batch_runs system_info)) system_info)
     | None => ret tt
     end)
    (λ _, ret tt).

Definition _record_batch_error (batch_id : string) (hour : Z)
    (start_time end_time : Clock) (error_msg : Message) : M unit :=
  catch
    (let! system_info := get_system_info cfg in
     match batch_runs system_info !! batch_id with
     | Some run =>
         update_system_info cfg
           (set_batch_runs
              (<[batch_id :=
                   {| br_hour := br_hour run; br_start_time := br_start_time run;
                      br_status := BatchFailed;
                      br_end_time := Some (isoformat end_time);
                      br_execution_time :=
                        Some (second_of_day end_time - second_of_day start_time);
                      br_processed_count := br_processed_count run;
                      br_success_count := br_success_count run;
                      br_failed_count := br_failed_count run;
                      br_error_count := br_error_count run;
                      br_error := Some error_msg |}]>
                 (batch_runs system_info)) system_info)
     | None => ret tt
     end)
    (λ _, ret tt).

Definition run_hourly_batch (hour : Z) : M (gmap string Value) :=
  let! start_time := datetime_now in
  let batch_id := stamp start_time +:+ "_" +:+ pretty hour in
  if negb (bool_decide (hour ∈ available_hours))
  then
    let! end_time := datetime_now in
    ret (<["success" := VBool false]>
         (<["error" := VMsg (MsgInvalidHour hour available_hours)]>
         (<["batch_id" := VStr batch_id]>
         (<["hour" := VInt hour]>
         (<["start_time" := VStr (isoformat start_time)]>
         (<["end_time" := VStr (isoformat end_time)]> ∅))))))
  else
    catch
      (_record_batch_start batch_id hour start_time;;
       let! result := process_pending_requests_for_hour hour in
       let! end_time := datetime_now in
       _record_batch_completion batch_id hour start_time end_time result;;
       let execution_time := second_of_day end_time - second_of_day start_time in
       ret (<["success" := VBool true]>
            (<["batch_id" := VStr batch_id]>
            (<["hour" := VInt hour]>
            (<["start_time" := VStr (isoformat start_time)]>
            (<["end_time" := VStr (isoformat end_time)]>
            (<["execution_time" := VInt execution_time]>
            (<["processed_count" := VInt (processed_count result)]>
            (<["success_count" := VInt (success_count result)]>
            (<["failed_count" := VInt (failed_count result)]>
            (<["errors" := VErrors (errors result)]> ∅)))))))))))
      (λ e,
         let! end_time := datetime_now in
         let execution_time := second_of_day end_time - second_of_day start_time in
         let error_msg := MsgBatchError e in
         _record_batch_error batch_id hour start_time end_time error_msg;;
         ret (<["success" := VBool false]>
              (<["error" := VMsg error_msg]>
              (<["batch_id" := VStr batch_id]>
              (<["hour" := VInt hour]>
              (<["start_time" := VStr (isoformat start_time)]>
              (<["end_time" := VStr (isoformat end_time)]>
              (<["execution_time" := VInt execution_time]> ∅)))))))).

End BatchScheduler.

(** ** Notions used by the statements *)

(** The file system after a successful save of [d]. *)
Definition commit (d : Doc) (w : World) : World :=
  set_fs {| primary := Some (Json (to_raw d)); temp := None;
            backup_dir := backup_dir (fs w) |} w.


(** The document that [load_data] reads from the primary file. *)
Definition persisted (cfg : Config) (w : World) : option Doc :=
  match primary (fs w) with
  | Some (Json raw) => Some (_validate_and_repair_data cfg (now w) raw)
  | _ => None
  end.

(** No [os.rename] fails, whatever else does: [shutil.move] never falls
    back to copying over the primary file. *)
Definition renames_ok (w : World) : Prop :=
  Forall (λ f, fails_rename f = false) (faults w).

(** No I/O operation fails and the primary file holds document [d]. *)
Definition healthy (cfg : Config) (w : World) (d : Doc) : Prop :=
  faults w = [] ∧ persisted cfg w = Some d.

(** The part of the world that the store does not touch. *)
Definition env_of (w : World) : Clock * (string → string → ProfileView → GenOutcome) * list Event :=
  (now w, generator w, schedule w).

Definition request_at (d : Doc) (user_id date : string) : option Request :=
  users d !! user_id ≫= λ u, requests u !! date.

Definition letter_at (d : Doc) (user_id date : string) : option Letter :=
  users d !! user_id ≫= λ u, letters u !! date.

Definition stored_request (cfg : Config) (w : World) (user_id date : string)
    : option Request :=
  persisted cfg w ≫= λ d, request_at d user_id date.

Definition stored_letter (cfg : Config) (w : World) (user_id date : string)
    : option Letter :=
  persisted cfg w ≫= λ d, letter_at d user_id date.

(** The submission was accepted. *)
Definition accepted (r : Outcome (bool * Message) * World) : bool :=
  match r.1 with Ok (true, _) => true | _ => false end.

(** A call of one of the two marking operations. *)
Inductive MarkOp : Type :=
| MarkProcessed (user_id date status : string)
| MarkFailed (user_id date : string) (error_message : Message).

Definition run_mark (cfg : Config) (op : MarkOp) : M bool :=
  match op with
  | MarkProcessed user_id date status => mark_request_processed cfg user_id date status
  | MarkFailed user_id date error_message =>
      mark_request_failed cfg user_id date error_message
  end.

(** The calls of a list, one after the other. *)
Definition run_marks (cfg : Config) (ops : list MarkOp) : M (list bool) :=
  for_each ops [] (λ acc op, let! b := run_mark cfg op in ret (acc ++ [b])%list).


(** The generation for request [p] succeeds, or fails, whatever history it
    is given. *)
Definition generation_ok (w : World) (p : PendingRequest) : Prop :=
  ∀ h, ∃ content md, generator w (p_user_id p) (p_theme p) h = GenOk content md.

Definition generation_fails (w : World) (p : PendingRequest) : Prop :=
  ∀ h content md, generator w (p_user_id p) (p_theme p) h ≠ GenOk content md.

(** The request of [p] is in document [d]. *)
Definition job_pre (d : Doc) (p : PendingRequest) : Prop :=
  is_Some (request_at d (p_user_id p) (p_date p)).

(** What the job for [p] leaves in the user record when it ends with [res]:
    after a generation that succeeded, the letter and the request marked
    completed; after one that failed, the request marked failed. *)
Definition job_post_user (gen : string → string → ProfileView → GenOutcome)
    (u : UserData) (p : PendingRequest) (res : JobResult) : Prop :=
  ∃ r h,
    requests u !! p_date p = Some r
    ∧ match gen (p_user_id p) (p_theme p) h with
      | GenOk content md =>
          res = JobOk (p_user_id p) (p_theme p) (default 0 (md_generation_time md))
          ∧ req_status r = Some "completed"
          ∧ ∃ l, letters u !! p_date p = Some l
                 ∧ let_theme l = p_theme p ∧ let_content l = content
                 ∧ let_status l = Some "completed" ∧ let_metadata l = md
      | _ => (∃ msg, res = JobFail (p_user_id p) msg)
             ∧ req_status r = Some "failed"
      end.

Definition job_post (gen : string → string → ProfileView → GenOutcome)
    (d : Doc) (p : PendingRequest) (res : JobResult) : Prop :=
  ∃ u, users d !! p_user_id p = Some u ∧ job_post_user gen u p res.

(** The state of a fan-out over [reqs], against the document [d]: a job
    that is done has left its result in the store, and the request of a job
    that is not done is still there. *)
Definition gather_inv (gen : string → string → ProfileView → GenOutcome)
    (reqs : list PendingRequest) (d : Doc) (js : list JobState) : Prop :=
  length js = length reqs
  ∧ ∀ i p, reqs !! i = Some p →
      match js !! i with
      | Some (Done res) => job_post gen d p res
      | Some _ => job_pre d p
      | None => False
      end.

(** Document [d] differs from [d0] in the records of the users [us] at
    most, and has the same users. *)
Definition touches_only (us : list string) (d0 d : Doc) : Prop :=
  ∀ u, (u ∉ us → users d !! u = users d0 !! u)
       ∧ (is_Some (users d !! u) ↔ is_Some (users d0 !! u)).

Definition not_started (s : option JobState) : Prop :=
  ∀ h, s ≠ Some (Started h).

(** The state of a fan-out over [reqs] in a world: the store is healthy,
    the environment is the one of [w0], the jobs agree with the store, and
    only the users of the requests have been touched since [d0]. *)
Definition fan_inv (cfg : Config) (reqs : list PendingRequest) (w0 : World) (d0 : Doc)
    (js : list JobState) (w : World) : Prop :=
  ∃ d, healthy cfg w d ∧ env_of w = env_of w0
       ∧ gather_inv (generator w0) reqs d js
       ∧ touches_only (p_user_id <$> reqs) d0 d.

(** What the loop of [get_pending_requests_by_hour] does with one user
    record: nothing, one more pending request, or a [KeyError]. *)
Definition pending_entry (today_ : string) (hour : Z) (user_id : string)
    (user_data : UserData) : Exn + option PendingRequest :=
  match requests user_data !! today_ with
  | None => inr None
  | Some request =>
      if bool_decide (req_generation_hour request = Some hour)
         && bool_decide (req_status request = Some "pending")
      then
        match req_theme request, req_requested_at request with
        | None, _ => inl (KeyError "theme")
        | Some _, None => inl (KeyError "requested_at")
        | Some theme, Some requested_at =>
            inr (Some {| p_user_id := user_id;
                         p_theme := theme;
                         p_requested_at := requested_at;
                         p_generation_hour := hour;
                         p_request_id := default "" (req_request_id request);
                         p_date := today_ |})
        end
      else inr None
  end.

(** The loop over the users [l], as a function of the user records. *)
Fixpoint scan_pending (us : gmap string UserData) (today_ : string) (hour : Z)
    (l : list string) (acc : list PendingRequest) : Exn + list PendingRequest :=
  match l with
  | [] => inr acc
  | u :: l' =>
      match us !! u with
      | None => scan_pending us today_ hour l' acc
      | Some user_data =>
          match pending_entry today_ hour u user_data with
          | inl e => inl e
          | inr None => scan_pending us today_ hour l' acc
          | inr (Some p) => scan_pending us today_ hour l' (acc ++ [p])
          end
      end
  end.

(** The requests that [get_pending_requests_by_hour] reports on a healthy
    store with document [d]. *)
Definition discovered (d : Doc) (today_ : string) (hour : Z) : list PendingRequest :=
  if bool_decide (hour ∈ valid_generation_hours)
  then match scan_pending (users d) today_ hour ((map_to_list (users d)).*1) [] with
       | inr r => r
       | inl _ => []
       end
  else [].

(** Request [r] waits for the batch of [hour]. *)
Definition pending_at (hour : Z) (r : Request) : Prop :=
  req_generation_hour r = Some hour ∧ req_status r = Some "pending".

Definition is_job_ok (r : JobResult) : bool :=
  match r with JobOk _ _ _ => true | _ => false end.

(** A computation that ends in no exception. *)
Definition no_raise {A} (m : M A) : Prop := ∀ w e w', m w ≠ (Raise e, w').

(** The keys of the batch result object. *)
Definition result_keys : list string :=
  ["success"; "batch_id"; "hour"; "start_time"; "end_time"; "execution_time";
   "processed_count"; "success_count"; "failed_count"; "errors"].

Definition has_keys (ks : list string) (m : gmap string Value) : Prop :=
  Forall (λ k, is_Some (m !! k)) ks.

Definition lacks_keys (ks : list string) (m : gmap string Value) : Prop :=
  Forall (λ k, m !! k = None) ks.

(** The computation returned a value. *)
Definition returns {A} (r : Outcome A * World) : bool :=
  match r.1 with Ok _ => true | _ => false end.

(** The batch returned a result with [success = True]. *)
Definition succeeded (r : Outcome (gmap string Value) * World) : bool :=
  match r.1 with
  | Ok res => match res !! "success" with Some (VBool true) => true | _ => false end
  | _ => false
  end.

(** ** Sample data for the concrete instances *)

Definition ex_clock : Clock :=
  {| today := "2025-01-01"; isoformat := "2025-01-01T02:00:00";
     stamp := "20250101_020000"; second_of_day := 7200;
     next_midnight := "2025-01-02T00:00:00" |}.

Definition ex_default : Doc :=
  {| users := ∅;
     system := {| last_backup := None; batch_runs := ∅;
                  created_at := "2024-12-31T00:00:00" |} |}.

Definition ex_cfg : Config :=
  {| default_data := ex_default; max_daily_requests := 1;
     max_api_calls_per_day := 10; debug_mode := false;
     max_theme_length := 200; min_theme_length := 1;
     max_concurrent_generations := 3; generation_timeout := 300;
     max_history_entries := 100 |}.

(** The generator fails for user [u2] and succeeds for everybody else. *)
Definition ex_generator (user_id theme : string) (h : ProfileView) : GenOutcome :=
  if String.eqb user_id "u2" then GenTimeout
  else GenOk ("Dear " +:+ user_id) {| md_generation_time := Some 3; md_models := "m" |}.

(** Entries of a fault script: nothing fails, the operation fails, the
    operation fails unless it is a rename, only a rename fails. *)
Definition ex_ok : Fault :=
  {| fails_io := false; fails_rename := false; cut := CutText |}.

Definition ex_fails : Fault :=
  {| fails_io := true; fails_rename := true; cut := CutText |}.

Definition ex_io_fails : Fault :=
  {| fails_io := true; fails_rename := false; cut := CutText |}.

Definition ex_rename_fails : Fault :=
  {| fails_io := false; fails_rename := true; cut := CutText |}.

Definition ex_world (f : FileSystem) (fl : list Fault) (sched : list Event) : World :=
  {| fs := f; faults := fl; now := ex_clock; uuid_counter := 0;
     generator := ex_generator; schedule := sched |}.

Definition ex_no_files : FileSystem :=
  {| primary := None; temp := None; backup_dir := [] |}.

Definition ex_request (status : string) (hour : Z) : Request :=
  {| req_theme := Some "spring memories"; req_status := Some status;
     req_requested_at := Some "2025-01-01T00:10:00";
     req_generation_hour := Some hour; req_request_id := Some "r";
     req_affection := Some None; req_processed_at := None;
     req_error_message := None |}.

Definition ex_user (r : Request) : UserData :=
  {| profile := default_profile ex_clock; letters := ∅;
     requests := {[ "2025-01-01" := r ]};
     rate_limits := empty_rate_limits; history := None |}.

Definition ex_doc (us : gmap string UserData) : Doc :=
  {| users := us; system := system ex_default |}.

Definition ex_stored (d : Doc) : FileSystem :=
  {| primary := Some (Json (to_raw d)); temp := None; backup_dir := [] |}.

Definition ex_backup_old : DirEntry :=
  {| de_name := "letters_backup_20241230_010000.json"; de_mtime := 10;
     de_content := Json (to_raw (ex_doc {[ "u1" := ex_user (ex_request "pending" 2) ]})) |}.

Definition ex_backup_new : DirEntry :=
  {| de_name := "letters_backup_20241231_010000.json"; de_mtime := 20;
     de_content := Json (to_raw (ex_doc {[ "u1" := ex_user (ex_request "completed" 2) ]})) |}.

Definition ex_corrupt : FileSystem :=
  {| primary := Some Malformed; temp := None;
     backup_dir :=
       [ ex_backup_old;
         {| de_name := "notes.txt"; de_mtime := 99; de_content := Malformed |};
         ex_backup_new ] |}.

(** A corrupt primary file whose newest backup is corrupt too, beside an
    older backup that holds a document. *)
Definition ex_corrupt_newest_bad : FileSystem :=
  {| primary := Some Malformed; temp := None;
     backup_dir :=
       [ ex_backup_old;
         {| de_name := "letters_backup_20241231_230000.json"; de_mtime := 30;
            de_content := Malformed |} ] |}.

(** A primary file cut inside a character, beside two backups that hold
    documents. *)
Definition ex_undecodable : FileSystem :=
  {| primary := Some Undecodable; temp := None;
     backup_dir := [ ex_backup_old; ex_backup_new ] |}.

(** ** BackgroundProcessor *)

Record Thread : Type := {
  th_started : bool
}.

Record BackgroundProcessor : Type := {
  enable_background_processing : bool;
  is_running : bool;
  stop_event : bool;
  background_thread : option Thread
}.

(** What the platform does during [start_background_processing]. *)
Record StartEnv : Type := {
  thread_start_raises : bool;
  signal_raises : bool
}.

(** What the thread does during [stop_background_processing]. *)
Record StopEnv : Type := {
  alive_before_join : bool;
  join_raises : bool;
  alive_after_join : bool
}.

Definition set_is_running (b : bool) (bp : BackgroundProcessor) : BackgroundProcessor :=
  {| enable_background_processing := enable_background_processing bp;
     is_running := b; stop_event := stop_event bp;
     background_thread := background_thread bp |}.

Definition set_stop_event (b : bool) (bp : BackgroundProcessor) : BackgroundProcessor :=
  {| enable_background_processing := enable_background_processing bp;
     is_running := is_running bp; stop_event := b;
     background_thread := background_thread bp |}.

Definition set_background_thread (t : Thread) (bp : BackgroundProcessor)
    : BackgroundProcessor :=
  {| enable_background_processing := enable_background_processing bp;
     is_running := is_running bp; stop_event := stop_event bp;
     background_thread := Some t |}.

Definition start_background_processing (env : StartEnv) (bp : BackgroundProcessor)
    : bool * BackgroundProcessor :=
  if negb (enable_background_processing bp) then (false, bp)
  else if is_running bp then (false, bp)
  else
    let bp := set_stop_event false (set_is_running true bp) in
    if thread_start_raises env
    then (false, set_is_running false
                   (set_background_thread {| th_started := false |} bp))
    else
      let bp := set_background_thread {| th_started := true |} bp in
      if signal_raises env then (false, set_is_running false bp)
      else (true, bp).

Definition stop_background_processing (env : StopEnv) (bp : BackgroundProcessor)
    : bool * BackgroundProcessor :=
  if negb (is_running bp) then (true, bp)
  else
    let bp := set_stop_event true bp in
    match background_thread bp with
    | Some t =>
        if th_started t && alive_before_join env
        then if join_raises env then (false, bp)
             else if alive_after_join env then (false, bp)
             else (true, set_is_running false bp)
        else (true, set_is_running false bp)
    | None => (true, set_is_running false bp)
    end.

Definition ex_runner (running : bool) : BackgroundProcessor :=
  {| enable_background_processing := true; is_running := running;
     stop_event := negb running;
     background_thread := if running then Some {| th_started := true |} else None |}.

(** Three users with a request for today: [u1] and [u2] at 2, [u3] at 3. *)
Definition ex_three_users : Doc :=
  ex_doc (<["u1" := ex_user (ex_request "pending" 2)]>
          (<["u2" := ex_user (ex_request "pending" 2)]>
          (<["u3" := ex_user (ex_request "pending" 3)]> ∅))).

(** User [u1] with a request for today that is already completed. *)
Definition ex_completed : World :=
  ex_world (ex_stored (ex_doc {[ "u1" := ex_user (ex_request "completed" 2) ]})) [] [].


Definition ex_pending_request (user_id : string) : PendingRequest :=
  {| p_user_id := user_id; p_theme := "spring memories";
     p_requested_at := "2025-01-01T00:10:00"; p_generation_hour := 2;
     p_request_id := "r"; p_date := "2025-01-01" |}.

(** The store of [ex_three_users] under a schedule that starts the second
    job first and resumes it while the first one waits. *)
Definition ex_batch_world : World :=
  ex_world (ex_stored ex_three_users) [] [EvStart 1; EvStart 0; EvFinish 1].

(** ** Further operations of the same classes *)

(** What is left of a dict keyed by date after [del d[date_str]] for every
    key with [date_str < cutoff_str]. *)
Definition delete_before {A} (cutoff_str : string) (m : gmap string A) : gmap string A :=
  filter (λ kv, str_lt kv.1 cutoff_str = false) m.

(** The number of keys with [date_str < cutoff_str]. *)
Definition count_before {A} (cutoff_str : string) (m : gmap string A) : Z :=
  Z.of_nat (size (filter (λ kv, str_lt kv.1 cutoff_str = true) m)).

(** [sum(l)] *)
Definition py_sum (l : list Z) : Z := foldr Z.add 0 l.

(** The in-place deletions of [AsyncStorageManager.cleanup_old_data] in one
    user record. *)
Definition cleanup_user (cutoff_str : string) (user_data : UserData) : UserData :=
  {| profile := profile user_data;
     letters := delete_before cutoff_str (letters user_data);
     requests := delete_before cutoff_str (requests user_data);
     rate_limits :=
       {| daily_requests :=
            delete_before cutoff_str <$> daily_requests (rate_limits user_data);
          api_calls :=
            delete_before cutoff_str <$> api_calls (rate_limits user_data) |};
     history := history user_data |}.

Definition set_rate_limits (rl : RateLimits) (u : UserData) : UserData :=
  {| profile := profile u; letters := letters u; requests := requests u;
     rate_limits := rl; history := history u |}.

Section Housekeeping.
Variable cfg : Config.
(** [(datetime.now() - timedelta(days=days)).strftime("%Y-%m-%d")] *)
Variable days_ago : Clock → Z → string.

(** [AsyncStorageManager.cleanup_old_data]: only deleted letters count, and
    the document is saved only when the count is positive. *)
Definition cleanup_old_data (days : Z) : M Z :=
  catch
    (let! c := datetime_now in
     let cutoff_str := days_ago c days in
     let! data := load_data cfg in
     let deleted_count :=
       py_sum ((λ kv, count_before cutoff_str (letters kv.2))
                 <$> map_to_list (users data)) in
     if bool_decide (0 < deleted_count)
     then save_data cfg (set_users (cleanup_user cutoff_str <$> users data) data);;
          ret deleted_count
     else ret deleted_count)
    (λ _, ret 0).

(** [AsyncRateLimitManager.reset_daily_counters]: [reset_count] runs over
    all users, so every user after the first deletion is written back. *)
Definition reset_daily_counters : M Z :=
  catch
    (let! c := datetime_now in
     let cutoff_str := days_ago c 7 in
     let! all_users := get_all_users cfg in
     for_each all_users 0 (λ reset_count user_id,
       let! user_data := get_user_data cfg user_id in
       match daily_requests (rate_limits user_data) with
       | None => raise (KeyError "daily_requests")
       | Some daily =>
           let reset_count := reset_count + count_before cutoff_str daily in
           match api_calls (rate_limits user_data) with
           | None => raise (KeyError "api_calls")
           | Some calls =>
               let reset_count := reset_count + count_before cutoff_str calls in
               if bool_decide (0 < reset_count)
               then
                 update_user_data cfg user_id
                   (set_rate_limits
                      {| daily_requests := Some (delete_before cutoff_str daily);
                         api_calls := Some (delete_before cutoff_str calls) |}
                      user_data);;
                 ret reset_count
               else ret reset_count
           end
       end))
    (λ _, ret 0).

(** [RequestManager.cleanup_old_requests] *)
Definition cleanup_old_requests (days : Z) : M Z :=
  catch
    (let! c := datetime_now in
     let cutoff_str := days_ago c days in
     let! all_users := get_all_users cfg in
     for_each all_users 0 (λ deleted_count user_id,
       let! user_data := get_user_data cfg user_id in
       let n := count_before cutoff_str (requests user_data) in
       if bool_decide (0 < n)
       then
         update_user_data cfg user_id
           (set_requests (delete_before cutoff_str (requests user_data)) user_data);;
         ret (deleted_count + n)
       else ret deleted_count))
    (λ _, ret 0).

End Housekeeping.

Section MoreRateLimiter.
Variable cfg : Config.

(** [api_type] only goes to the log. *)
Definition record_api_call (user_id api_type : string) : M unit :=
  catch
    (let! user_data := get_user_data cfg user_id in
     let! c := datetime_now in
     let counters := default ∅ (api_calls (rate_limits user_data)) in
     let counters' := <[today c := default 0 (counters !! today c) + 1]> counters in
     update_user_data cfg user_id
       (set_rate_limits
          {| daily_requests := daily_requests (rate_limits user_data);
             api_calls := Some counters' |}
          user_data))
    (λ e, raise (RateLimitError e)).

(** Outside debug mode the [RateLimitError] is raised before the [try], with
    a message only; the message stands in the place of the cause. *)
Definition force_reset_user_limits (user_id : string) : M unit :=
  if negb (debug_mode cfg)
  then raise (RateLimitError (ValueError "debug mode only"))
  else
    catch
      (let! user_data := get_user_data cfg user_id in
       let! c := datetime_now in
       match daily_requests (rate_limits user_data) with
       | None => raise (KeyError "daily_requests")
       | Some daily =>
           match api_calls (rate_limits user_data) with
           | None => raise (KeyError "api_calls")
           | Some calls =>
               update_user_data cfg user_id
                 (set_rate_limits
                    {| daily_requests := Some (<[today c := 0]> daily);
                       api_calls := Some (<[today c := 0]> calls) |}
                    user_data)
           end
       end)
      (λ e, raise (RateLimitError e)).

End MoreRateLimiter.

(** The dict that [get_user_request_status] returns: a key that is absent
    is [None]; [processed_at] and [error_message] come from [.get] and may
    hold [None]. *)
Record RequestStatus : Type := {
  has_request : bool;
  st_date : string;
  st_theme : option string;
  st_status : option string;
  st_generation_hour : option Z;
  st_requested_at : option string;
  st_processed_at : option (option string);
  st_error_message : option (option Message);
  can_request : bool
}.

(** The dict that [get_request_statistics] returns. *)
Record RequestStatistics : Type := {
  total_users : Z;
  today_requests : Z;
  pending_requests : Z;
  completed_requests : Z;
  failed_requests : Z;
  requests_by_hour : gmap Z Z;
  stats_date : string
}.

(** The body of the loop of [get_request_statistics] for a user with a
    request for today. *)
Definition count_request (request : Request) (stats : RequestStatistics)
    : RequestStatistics :=
  let status := default "unknown" (req_status request) in
  {| total_users := total_users stats;
     today_requests := today_requests stats + 1;
     pending_requests :=
       if String.eqb status "pending" then pending_requests stats + 1
       else pending_requests stats;
     completed_requests :=
       if String.eqb status "pending" then completed_requests stats
       else if String.eqb status "completed" then completed_requests stats + 1
       else completed_requests stats;
     failed_requests :=
       if String.eqb status "pending" then failed_requests stats
       else if String.eqb status "completed" then failed_requests stats
       else if String.eqb status "failed" then failed_requests stats + 1
       else failed_requests stats;
     requests_by_hour :=
       match req_generation_hour request with
       | Some hour =>
           match requests_by_hour stats !! hour with
           | Some n => <[hour := n + 1]> (requests_by_hour stats)
           | None => requests_by_hour stats
           end
       | None => requests_by_hour stats
       end;
     stats_date := stats_date stats |}.

Section MoreRequestManager.
Variable cfg : Config.

(** The error dict is [inl]. *)
Definition get_user_request_status (user_id : string) (date : option string)
    : M (Exn + RequestStatus) :=
  catch
    (let! date := match date with
                  | Some d => ret d
                  | None => let! c := datetime_now in ret (today c)
                  end in
     let! user_data := get_user_data cfg user_id in
     match requests user_data !! date with
     | None =>
         ret (inr {| has_request := false; st_date := date; st_theme := None;
                     st_status := None; st_generation_hour := None;
                     st_requested_at := None; st_processed_at := None;
                     st_error_message := None; can_request := true |})
     | Some request =>
         match req_theme request, req_status request,
               req_generation_hour request, req_requested_at request with
         | None, _, _, _ => raise (KeyError "theme")
         | Some _, None, _, _ => raise (KeyError "status")
         | Some _, Some _, None, _ => raise (KeyError "generation_hour")
         | Some _, Some _, Some _, None => raise (KeyError "requested_at")
         | Some theme, Some status, Some generation_hour, Some requested_at =>
             ret (inr {| has_request := true; st_date := date;
                         st_theme := Some theme; st_status := Some status;
                         st_generation_hour := Some generation_hour;
                         st_requested_at := Some requested_at;
                         st_processed_at := Some (req_processed_at request);
                         st_error_message := Some (req_error_message request);
                         can_request := false |})
         end
     end)
    (λ e, ret (inl e)).

Definition get_all_pending_requests : M (gmap Z (list PendingRequest)) :=
  catch
    (for_each valid_generation_hours ∅ (λ all_pending hour,
       let! pending_requests := get_pending_requests_by_hour cfg hour in
       ret (<[hour := pending_requests]> all_pending)))
    (λ _, ret ∅).

Definition get_request_statistics : M (Exn + RequestStatistics) :=
  catch
    (let! all_users := get_all_users cfg in
     let! c := datetime_now in
     let today_ := today c in
     let stats :=
       {| total_users := Z.of_nat (length all_users);
          today_requests := 0; pending_requests := 0;
          completed_requests := 0; failed_requests := 0;
          requests_by_hour := list_to_map ((λ hour, (hour, 0)) <$> valid_generation_hours);
          stats_date := today_ |} in
     let! stats := for_each all_users stats (λ stats user_id,
       let! user_data := get_user_data cfg user_id in
       match requests user_data !! today_ with
       | Some request => ret (count_request request stats)
       | None => ret stats
       end) in
     ret (inr stats))
    (λ e, ret (inl e)).

End MoreRequestManager.

(** ** BackgroundProcessor: the hourly check *)

Definition target_hours : list Z := [2; 3; 4].

(** The callbacks are code of the caller: computations that may do
    anything. The error message handed to [on_error] is given by the hour
    and the exception it is built from. *)
Record Callbacks : Type := {
  on_batch_complete : option (Z → gmap string Value → M unit);
  on_error : option (Z → Exn → M unit)
}.

(** [if cb: try: cb(...) except Exception: log] *)
Definition call_guarded (cb : option (M unit)) : M unit :=
  match cb with
  | Some f => catch f (λ _, ret tt)
  | None => ret tt
  end.

(** What [force_run_batch] returns: the dict for an hour that is no target
    hour, the result of the batch, or the dict of the [except] clause. *)
Inductive ForcedRun : Type :=
| ForcedInvalidHour (hour : Z) (valid : list Z)
| ForcedResult (result : gmap string Value)
| ForcedError (e : Exn).

Section HourlyCheck.
Variable cfg : Config.
Variable cb : Callbacks.

(** [last_execution and last_execution == date] *)
Definition executed_on (last_execution_times : gmap Z (option string))
    (hour : Z) (date : string) : bool :=
  match last_execution_times !! hour with
  | Some (Some last_execution) =>
      negb (String.eqb last_execution "") && String.eqb last_execution date
  | _ => false
  end.

(** The attribute [last_execution_times] is passed in and handed back. *)
Definition _check_and_run_batch (last_execution_times : gmap Z (option string))
    (hour : Z) (date : string) : M (gmap Z (option string)) :=
  catch
    (if executed_on last_execution_times hour date then ret last_execution_times
     else
       let! result := run_hourly_batch cfg hour in
       let last_execution_times := <[hour := Some date]> last_execution_times in
       call_guarded ((λ f, f hour result) <$> on_batch_complete cb);;
       ret last_execution_times)
    (λ e, call_guarded ((λ f, f hour e) <$> on_error cb);;
          ret last_execution_times).

Definition force_run_batch (last_execution_times : gmap Z (option string))
    (hour : Z) : M (ForcedRun * gmap Z (option string)) :=
  catch
    (if negb (bool_decide (hour ∈ target_hours))
     then ret (ForcedInvalidHour hour target_hours, last_execution_times)
     else
       let! result := run_hourly_batch cfg hour in
       let! c := datetime_now in
       ret (ForcedResult result, <[hour := Some (today c)]> last_execution_times))
    (λ e, ret (ForcedError e, last_execution_times)).

End HourlyCheck.

(** ** StreamlitBackgroundIntegration *)

Record StreamlitBackgroundIntegration : Type := {
  background_processor : option BackgroundProcessor;
  is_initialized : bool
}.

(** What happens during [initialize]: whether building the processor
    raises, the value of ENABLE_BACKGROUND_PROCESSING, and the platform. *)
Record InitEnv : Type := {
  init_raises : bool;
  init_enable : bool;
  init_start : StartEnv
}.

Definition initialize (env : InitEnv) (s : StreamlitBackgroundIntegration)
    : bool * StreamlitBackgroundIntegration :=
  if is_initialized s then (true, s)
  else if init_raises env then (false, s)
  else
    let bp := {| enable_background_processing := init_enable env;
                 is_running := false; stop_event := false;
                 background_thread := None |} in
    let '(success, bp) := start_background_processing (init_start env) bp in
    (success, {| background_processor := Some bp;
                 is_initialized := if success then true else is_initialized s |}).

Definition shutdown (env : StopEnv) (s : StreamlitBackgroundIntegration)
    : bool * StreamlitBackgroundIntegration :=
  if negb (is_initialized s) then (true, s)
  else
    match background_processor s with
    | None => (true, s)
    | Some bp =>
        let '(success, bp) := stop_background_processing env bp in
        (success, {| background_processor := Some bp;
                     is_initialized := if success then false else is_initialized s |})
    end.

(** ** Notions used by the further statements *)

(** Today's counter of a dict of counters: [.get(today, 0)]. *)
Definition count_on (date : string) (counters : option (gmap string Z)) : Z :=
  default 0 (default ∅ counters !! date).

(** The user record stored for [user_id]. *)
Definition stored_user (cfg : Config) (w : World) (user_id : string) : option UserData :=
  persisted cfg w ≫= λ d, users d !! user_id.

(** No key of the dict is below [cutoff_str]. *)
Definition none_before {A} (cutoff_str : string) (m : gmap string A) : Prop :=
  ∀ k, is_Some (m !! k) → str_lt k cutoff_str = false.

(** The integration object is never marked initialized without a running
    processor. *)
Definition initialized_runs (s : StreamlitBackgroundIntegration) : Prop :=
  is_initialized s = true →
  ∃ bp, background_processor s = Some bp ∧ is_running bp = true
        ∧ enable_background_processing bp = true.

(** Whatever the computation [m] does and however it ends, it takes a
    world with property [Q] to a world with property [Q]. *)
Definition keeps {A} (Q : World → Prop) (m : M A) : Prop :=
  ∀ w o w', Q w → m w = (o, w') → Q w'.

(** The primary file holds a document whose system record is [s]. *)
Definition system_is (cfg : Config) (s : SystemRecord) (w : World) : Prop :=
  ∃ d, persisted cfg w = Some d ∧ system d = s.

(** The same on a platform where no rename fails, whatever else does. *)
Definition system_safe (cfg : Config) (s : SystemRecord) (w : World) : Prop :=
  renames_ok w ∧ system_is cfg s w.

(** The user records while a loop over the users rewrites them one by one:
    the record of a user in [visited] is [f] of what it was. *)
Definition swept (f : UserData → UserData) (visited : list string)
    (us : gmap string UserData) : gmap string UserData :=
  map_imap (λ u user_data,
              Some (if bool_decide (u ∈ visited) then f user_data else user_data)) us.

(** What [cleanup_old_requests] and [reset_daily_counters] leave of one
    user record. *)
Definition drop_old_requests (cutoff_str : string) (user_data : UserData) : UserData :=
  set_requests (delete_before cutoff_str (requests user_data)) user_data.

Definition drop_old_counters (cutoff_str : string) (user_data : UserData) : UserData :=
  set_rate_limits
    {| daily_requests :=
         delete_before cutoff_str <$> daily_requests (rate_limits user_data);
       api_calls := delete_before cutoff_str <$> api_calls (rate_limits user_data) |}
    user_data.

(** Both dicts of counters are in the user record. *)
Definition has_counters (user_data : UserData) : Prop :=
  is_Some (daily_requests (rate_limits user_data))
  ∧ is_Some (api_calls (rate_limits user_data)).

(** The counters of [stats] fit together when at most [n] users have been
    counted: none is negative, the three statuses together and the three
    hours together each stay within [today_requests], which stays within
    [n], and [requests_by_hour] has the keys 2, 3 and 4 and no other. *)
Definition consistent_statistics (n : Z) (stats : RequestStatistics) : Prop :=
  0 ≤ pending_requests stats ∧ 0 ≤ completed_requests stats
  ∧ 0 ≤ failed_requests stats
  ∧ pending_requests stats + completed_requests stats + failed_requests stats
    ≤ today_requests stats
  ∧ today_requests stats ≤ n
  ∧ ∃ h2 h3 h4 : Z,
      requests_by_hour stats = <[2 := h2]> (<[3 := h3]> (<[4 := h4]> ∅))
      ∧ 0 ≤ h2 ∧ 0 ≤ h3 ∧ 0 ≤ h4 ∧ h2 + h3 + h4 ≤ today_requests stats.

(** The entries of [m'] are those of [m] that are not dated before
    [cutoff_str]. *)
Definition kept_from {A} (cutoff_str : string) (m' m : gmap string A) : Prop :=
  ∀ k, m' !! k = if str_lt k cutoff_str then None else m !! k.

(** ** Further sample data *)

(** The store of [ex_three_users], nothing failing, no schedule. *)
Definition ex_store : World := ex_world (ex_stored ex_three_users) [] [].

(** The configuration of debug mode. *)
Definition ex_cfg_debug : Config :=
  {| default_data := ex_default; max_daily_requests := 10;
     max_api_calls_per_day := 100; debug_mode := true;
     max_theme_length := 200; min_theme_length := 1;
     max_concurrent_generations := 3; generation_timeout := 300;
     max_history_entries := 100 |}.

(** A pending request for hour 2 that lacks the key [theme]. *)
Definition ex_request_no_theme : Request :=
  {| req_theme := None; req_status := Some "pending";
     req_requested_at := Some "2025-01-01T00:20:00";
     req_generation_hour := Some 2; req_request_id := Some "r";
     req_affection := Some None; req_processed_at := None;
     req_error_message := None |}.

(** User [u1] with a well-formed pending request, [u2] with the malformed
    one. *)
Definition ex_malformed_users : Doc :=
  ex_doc (<["u1" := ex_user (ex_request "pending" 2)]>
          (<["u2" := ex_user ex_request_no_theme]> ∅)).

Definition ex_malformed_store : World :=
  ex_world (ex_stored ex_malformed_users) [] [].

(** A processor that has not run any batch yet, with a completion callback
    that raises and no error callback. *)
Definition ex_never_run : gmap Z (option string) :=
  list_to_map ((λ hour, (hour, None)) <$> target_hours).

Definition ex_callbacks : Callbacks :=
  {| on_batch_complete := Some (λ _ _, raise (ValueError "callback"));
     on_error := None |}.

(** 90 days before the day of [ex_clock]. *)
Definition ex_days_ago (c : Clock) (days : Z) : string := "2024-10-03".

Definition ex_letter : Letter :=
  {| let_theme := "spring memories"; let_content := "Dear u1";
     let_status := Some "completed"; let_generated_at := "2024-06-01T02:00:05";
     let_metadata := {| md_generation_time := Some 3; md_models := "m" |} |}.

(** User [u1] with a request of last June and no letter. *)
Definition ex_old_request_doc : Doc :=
  ex_doc {[ "u1" := {| profile := default_profile ex_clock; letters := ∅;
                       requests := {[ "2024-06-01" := ex_request "completed" 2 ]};
                       rate_limits := empty_rate_limits; history := None |} ]}.

Definition ex_old_request_store : World :=
  ex_world (ex_stored ex_old_request_doc) [] [].

(** User [u1] with a letter of last June and one of December. *)
Definition ex_user_letters : UserData :=
  {| profile := default_profile ex_clock;
     letters := <["2024-06-01" := ex_letter]> {[ "2024-12-01" := ex_letter ]};
     requests := {[ "2024-06-01" := ex_request "completed" 2 ]};
     rate_limits := empty_rate_limits; history := None |}.

Definition ex_letters_doc : Doc := ex_doc {[ "u1" := ex_user_letters ]}.

Definition ex_letters_store : World := ex_world (ex_stored ex_letters_doc) [] [].
(** * Properties *)

(** ** The monad *)

Lemma bind_ok {A B} (m : M A) (k : A → M B) w a w' :
  m w = (Ok a, w') → bind m k w = k a w'.
Proof. unfold bind. by intros ->. Qed.

Lemma bind_raise {A B} (m : M A) (k : A → M B) w e w' :
  m w = (Raise e, w') → bind m k w = (Raise e, w').
Proof. unfold bind. by intros ->. Qed.

Lemma catch_ok {A} (m : M A) h w a w' :
  m w = (Ok a, w') → catch m h w = (Ok a, w').
Proof. unfold catch. by intros ->. Qed.

Lemma catch_raise {A} (m : M A) h w e w' :
  m w = (Raise e, w') → catch m h w = h e w'.
Proof. unfold catch. by intros ->. Qed.

Lemma bind_Ok_inv {A B} (m : M A) (k : A → M B) w b w' :
  bind m k w = (Ok b, w') → ∃ a w1, m w = (Ok a, w1) ∧ k a w1 = (Ok b, w').
Proof.
  unfold bind. destruct (m w) as [[a|e|] w1]; [|done..]. intros Hk. by exists a, w1.
Qed.

Lemma catch_Ok_inv {A} (m : M A) h w a w' :
  catch m h w = (Ok a, w') →
  m w = (Ok a, w') ∨ ∃ e w1, m w = (Raise e, w1) ∧ h e w1 = (Ok a, w').
Proof.
  unfold catch. destruct (m w) as [[a1|e|] w1]; [by left| |done].
  intros Hh. right. by exists e, w1.
Qed.

Lemma no_raise_ret {A} (a : A) : no_raise (ret a).
Proof. by intros w e w'. Qed.

Lemma no_raise_bind {A B} (m : M A) (k : A → M B) :
  no_raise m → (∀ a, no_raise (k a)) → no_raise (bind m k).
Proof.
  intros Hm Hk w e w'. unfold bind.
  destruct (m w) as [[a|e1|] w1] eqn:Hmw; [apply Hk | by apply Hm in Hmw | done].
Qed.

Lemma no_raise_catch {A} (m : M A) h :
  (∀ e, no_raise (h e)) → no_raise (catch m h).
Proof.
  intros Hh w e w'. unfold catch.
  destruct (m w) as [[a|e1|] w1]; [done | apply Hh | done].
Qed.

Lemma for_each_inv {A B} (P : B → Prop) (body : B → A → M B) l acc w r w' :
  (∀ acc x w r w', P acc → body acc x w = (Ok r, w') → P r) →
  P acc → for_each l acc body w = (Ok r, w') → P r.
Proof.
  intros Hbody. revert acc w. induction l as [|x l IH]; intros acc w Hacc; simpl.
  - by intros [= <- <-].
  - intros (acc' & w1 & Hx & Hrest)%bind_Ok_inv. eapply IH; [|done]. eauto.
Qed.

Lemma returns_inv {A} (r : Outcome A * World) :
  returns r = true → ∃ a w', r = (Ok a, w').
Proof. destruct r as [[a|e|] w']; [|done..]. intros _. by exists a, w'. Qed.

(** ** The store *)

Section StorageFacts.
Variable cfg : Config.

Lemma repair_user_to_raw c u : repair_user c (user_to_raw u) = u.
Proof. by destruct u. Qed.

Lemma repair_to_raw c d : _validate_and_repair_data cfg c (to_raw d) = d.
Proof.
  destruct d as [us [lb br ca]]. unfold _validate_and_repair_data, to_raw. simpl.
  f_equal. rewrite <- map_fmap_compose.
  rewrite <- (map_fmap_id us) at 2. apply map_fmap_ext.
  intros ? u _. apply repair_user_to_raw.
Qed.

Lemma save_unsafe_ok raw w :
  faults w = [] →
  _save_data_unsafe cfg raw w
  = (Ok (_validate_and_repair_data cfg (now w) raw),
     commit (_validate_and_repair_data cfg (now w) raw) w).
Proof.
  intros Hf. destruct w as [f fl c n g s]. simpl in Hf. subst fl.
  reflexivity.
Qed.


(** Case analysis along the fault script of a computation on the files. *)
Ltac save_unfold :=
  cbv [_save_data_unsafe save_data catch bind datetime_now open_temp_w json_dump_temp
       shutil_move_temp os_rename_temp copy2_temp os_unlink_temp unlink_temp
       io_fault rename_fault write_fault get_world put_fs raise ret].

Ltac next_fault :=
  match goal with
  | H : Forall _ (_ :: _) |- _ =>
      let Hr := fresh "Hr" in
      apply Forall_cons in H as [Hr H]; simpl in Hr; subst
  | |- context [match ?x with _ => _ end] =>
      is_var x;
      lazymatch type of x with
      | list Fault => destruct x as [|[? ? ?] ?]
      | option FileContent => destruct x
      | bool => destruct x
      end
  end; simpl.

(** A save that returns has written the validated document to the primary
    file and removed the temporary file, whatever failed on the way. *)
Lemma save_unsafe_returns raw w d w' :
  _save_data_unsafe cfg raw w = (Ok d, w') →
  d = _validate_and_repair_data cfg (now w) raw
  ∧ ∃ l, w' = set_faults l (commit d w).
Proof.
  destruct w as [[p t b] fl c n g s]. save_unfold. simpl.
  repeat next_fault; try discriminate;
    intros H; inversion H; subst; (split; [done|]); by eexists.
Qed.

(** A save never hangs. *)
Lemma save_unsafe_ends raw w w' : _save_data_unsafe cfg raw w ≠ (Hang, w').
Proof.
  destruct w as [[p t b] fl c n g s]. save_unfold. simpl.
  repeat next_fault; discriminate.
Qed.

(** As long as no rename fails, a save ends in one of two ways, whatever
    else fails: the new document is the primary file, or an exception is
    raised and the primary file is the one from before. *)
Lemma save_unsafe_cases raw w :
  renames_ok w →
  let d := _validate_and_repair_data cfg (now w) raw in
  ∃ l,
    Forall (λ f, fails_rename f = false) l
    ∧ (_save_data_unsafe cfg raw w = (Ok d, set_faults l (commit d w))
       ∨ ∃ e t, _save_data_unsafe cfg raw w
              = (Raise e,
                 set_faults l (set_fs {| primary := primary (fs w); temp := t;
                                         backup_dir := backup_dir (fs w) |} w))).
Proof.
  unfold renames_ok. destruct w as [[p t b] fl c n g s]. simpl. intros Hr.
  save_unfold. simpl.
  repeat next_fault;
    eexists; (split; [eassumption || constructor|]);
    first [left; reflexivity | right; eexists _, _; reflexivity].
Qed.

(** The steps before the move write to the temporary file only. *)
Lemma write_temp_keeps_primary d w :
  primary (fs (snd ((open_temp_w;; json_dump_temp d) w))) = primary (fs w).
Proof.
  destruct w as [[p t b] fl c n g s]. save_unfold. simpl.
  repeat next_fault; reflexivity.
Qed.

Lemma commit_faults d w : faults (commit d w) = faults w.
Proof. done. Qed.

Lemma commit_env d w : env_of (commit d w) = env_of w.
Proof. done. Qed.

Lemma commit_uuid d w : uuid_counter (commit d w) = uuid_counter w.
Proof. done. Qed.

Lemma commit_now d w : now (commit d w) = now w.
Proof. done. Qed.

Lemma persisted_commit d w : persisted cfg (commit d w) = Some d.
Proof. unfold persisted. simpl. by rewrite repair_to_raw. Qed.

Lemma healthy_commit d w : faults w = [] → healthy cfg (commit d w) d.
Proof. intros Hf. split; [done | apply persisted_commit]. Qed.

Lemma save_data_ok d w :
  faults w = [] → save_data cfg d w = (Ok tt, commit d w).
Proof.
  intros Hf. unfold save_data, bind. rewrite save_unsafe_ok by done.
  by rewrite repair_to_raw.
Qed.

Lemma json_load_ok raw w : faults w = [] → json_load (Json raw) w = (Ok raw, w).
Proof. intros Hf. unfold json_load, bind, io_fault. by rewrite Hf. Qed.

Lemma json_load_bad c w :
  faults w = [] → (c = Empty ∨ c = Malformed) →
  json_load c w = (Raise JSONDecodeError, w).
Proof. intros Hf Hc. unfold json_load, bind, io_fault. rewrite Hf. by destruct Hc as [-> | ->]. Qed.

Lemma json_load_undecodable w :
  faults w = [] → json_load Undecodable w = (Raise UnicodeDecodeError, w).
Proof. intros Hf. unfold json_load, bind, io_fault. by rewrite Hf. Qed.

Lemma load_data_healthy w d : healthy cfg w d → load_data cfg w = (Ok d, w).
Proof.
  intros [Hf Hp]. unfold persisted in Hp.
  destruct (primary (fs w)) as [[| | |raw]|] eqn:Hprim; try done.
  injection Hp as <-.
  unfold load_data, catch, bind, get_world. rewrite Hprim.
  by rewrite json_load_ok.
Qed.

Lemma restore_from_backup_nofault w :
  faults w = [] → ∃ d, _restore_from_backup cfg w = (Ok d, commit d w).
Proof.
  intros Hf. unfold _restore_from_backup, catch, bind, get_world.
  destruct (py_max _ _ _) as [latest|].
  - destruct (de_content latest) as [| | |raw] eqn:Hc.
    + rewrite json_load_bad by auto.
      rewrite save_unsafe_ok by done. rewrite repair_to_raw. by eexists.
    + rewrite json_load_bad by auto.
      rewrite save_unsafe_ok by done. rewrite repair_to_raw. by eexists.
    + rewrite json_load_undecodable by done.
      rewrite save_unsafe_ok by done. rewrite repair_to_raw. by eexists.
    + rewrite json_load_ok by done.
      rewrite save_unsafe_ok by done. by eexists.
  - rewrite save_unsafe_ok by done. rewrite repair_to_raw. by eexists.
Qed.

(** A primary file that is no UTF-8 text is not recovered: the load raises
    [StorageError] and leaves the file as it is. *)
Lemma load_data_undecodable w :
  faults w = [] → primary (fs w) = Some Undecodable →
  load_data cfg w = (Raise (StorageError UnicodeDecodeError), w).
Proof.
  intros Hf Hprim. unfold load_data, catch, bind, get_world. rewrite Hprim.
  by rewrite json_load_undecodable.
Qed.

(** Without I/O faults a load returns and leaves a healthy store, unless
    the primary file is no UTF-8 text: then it raises and leaves the file
    as it is. *)
Lemma load_data_nofault w :
  faults w = [] →
  (∃ d w', load_data cfg w = (Ok d, w') ∧ healthy cfg w' d
           ∧ env_of w' = env_of w ∧ uuid_counter w' = uuid_counter w)
  ∨ (primary (fs w) = Some Undecodable
     ∧ load_data cfg w = (Raise (StorageError UnicodeDecodeError), w)).
Proof.
  intros Hf.
  destruct (primary (fs w)) as [[| | |raw]|] eqn:Hprim.
  4,5: left.
  3: { right. split; [done|]. by apply load_data_undecodable. }
  1,2: left.
  - exists (default_data cfg), (commit (default_data cfg) w).
    split; [|by auto using healthy_commit].
    unfold load_data, catch, bind, get_world. rewrite Hprim.
    rewrite save_unsafe_ok by done. by rewrite repair_to_raw.
  - destruct (restore_from_backup_nofault w Hf) as [d Hd].
    exists d, (commit d w). split; [|by auto using healthy_commit].
    unfold load_data, catch, bind, get_world. rewrite Hprim.
    by rewrite json_load_bad by auto.
  - assert (Hh : healthy cfg w (_validate_and_repair_data cfg (now w) raw)).
    { split; [done|]. unfold persisted. by rewrite Hprim. }
    exists (_validate_and_repair_data cfg (now w) raw), w.
    by split; [apply load_data_healthy|].
  - exists (default_data cfg), (commit (default_data cfg) w).
    split; [|by auto using healthy_commit].
    unfold load_data, catch, bind, get_world. rewrite Hprim.
    rewrite save_unsafe_ok by done. by rewrite repair_to_raw.
Qed.

Lemma get_user_data_healthy w d user_id user_data :
  healthy cfg w d → users d !! user_id = Some user_data →
  get_user_data cfg user_id w = (Ok user_data, w).
Proof.
  intros Hh Hu. unfold get_user_data, bind.
  rewrite (load_data_healthy _ _ Hh). by rewrite Hu.
Qed.

Lemma get_user_data_fresh w d user_id :
  healthy cfg w d → users d !! user_id = None →
  get_user_data cfg user_id w
  = (Ok (new_user_data (now w)),
     commit (set_users (<[user_id := new_user_data (now w)]> (users d)) d) w).
Proof.
  intros Hh Hu. unfold get_user_data, bind at 1.
  rewrite (load_data_healthy _ _ Hh). rewrite Hu.
  unfold bind, datetime_now. rewrite save_data_ok by apply Hh. done.
Qed.

Lemma update_user_data_healthy w d user_id user_data :
  healthy cfg w d →
  update_user_data cfg user_id user_data w
  = (Ok tt, commit (set_users (<[user_id := user_data]> (users d)) d) w).
Proof.
  intros Hh. unfold update_user_data, bind.
  rewrite (load_data_healthy _ _ Hh). by rewrite save_data_ok by apply Hh.
Qed.

Lemma get_all_users_healthy w d :
  healthy cfg w d → get_all_users cfg w = (Ok ((map_to_list (users d)).*1), w).
Proof. intros Hh. unfold get_all_users, bind. by rewrite (load_data_healthy _ _ Hh). Qed.

Lemma get_system_info_healthy w d :
  healthy cfg w d → get_system_info cfg w = (Ok (system d), w).
Proof. intros Hh. unfold get_system_info, bind. by rewrite (load_data_healthy _ _ Hh). Qed.

Lemma update_system_info_healthy w d s :
  healthy cfg w d →
  update_system_info cfg s w = (Ok tt, commit (set_system s d) w).
Proof.
  intros Hh. unfold update_system_info, bind.
  rewrite (load_data_healthy _ _ Hh). by rewrite save_data_ok by apply Hh.
Qed.

(** Without I/O faults [get_user_data] returns the user's record, which is
    in the store afterwards, unless the primary file is no UTF-8 text. *)
Lemma get_user_data_nofault w user_id :
  faults w = [] →
  (∃ d user_data w',
     get_user_data cfg user_id w = (Ok user_data, w') ∧ healthy cfg w' d
     ∧ users d !! user_id = Some user_data
     ∧ env_of w' = env_of w ∧ uuid_counter w' = uuid_counter w)
  ∨ (primary (fs w) = Some Undecodable
     ∧ get_user_data cfg user_id w = (Raise (StorageError UnicodeDecodeError), w)).
Proof.
  intros Hf.
  destruct (load_data_nofault w Hf)
    as [(d & w1 & Hload & Hh & Henv & Hid) | [Hprim Hload]].
  2:{ right. split; [done|]. unfold get_user_data, bind. by rewrite Hload. }
  left. unfold get_user_data, bind at 1. rewrite Hload.
  destruct (users d !! user_id) as [ud|] eqn:Hu.
  - by exists d, ud, w1.
  - unfold bind, datetime_now. rewrite save_data_ok by apply Hh.
    eexists _, _, _. split; [done|]. split; [apply healthy_commit, Hh|].
    split; [simpl; apply lookup_insert_eq|]. by rewrite commit_env, commit_uuid.
Qed.

End StorageFacts.

(** C6. [save_data] is not all or nothing. The move of the temporary file
    is [shutil.move], which copies over the primary file when [os.rename]
    fails: with a rename that fails and a copy that fails while writing,
    the save raises [StorageError] and leaves the primary file, which held
    a document, cut short. And when the removal of the temporary file in
    the handler fails, the [OSError] of the removal is raised in the place
    of the [StorageError] and the temporary file stays. *)
Theorem save_data_not_atomic :
  let w := ex_world (ex_stored ex_three_users)
             [ex_ok; ex_ok; ex_rename_fails; ex_ok; ex_ok; ex_fails] [] in
  let w2 := ex_world (ex_stored ex_three_users) [ex_ok; ex_fails; ex_fails] [] in
  persisted ex_cfg w = Some ex_three_users
  ∧ (∃ w', save_data ex_cfg ex_default w = (Raise (StorageError (OSError "write")), w')
           ∧ primary (fs w') = Some Malformed
           ∧ persisted ex_cfg w' = None)
  ∧ (∃ w', save_data ex_cfg ex_default w2 = (Raise (OSError "unlink"), w')
           ∧ temp (fs w') = Some Malformed
           ∧ persisted ex_cfg w' = Some ex_three_users).
Proof.
  split; [vm_compute; reflexivity|].
  split; eexists; (split; [vm_compute; reflexivity|]); split; vm_compute; reflexivity.
Qed.

Lemma py_max_from_spec {A} (key : A → Z) (l : list A) (best : A) :
  let r := py_max_from Z.ltb key best l in
  (r = best ∨ r ∈ l) ∧ key best ≤ key r ∧ ∀ x, x ∈ l → key x ≤ key r.
Proof.
  revert best. induction l as [|x l IH]; intros best; simpl.
  - split; [by left|]. split; [lia|]. intros x Hx. by apply elem_of_nil in Hx.
  - destruct (IH (if key best <? key x then x else best)) as (Hin & Hle & Hall).
    destruct (Z.ltb_spec (key best) (key x)) as [Hlt|Hge].
    + split; [destruct Hin as [->|Hin]; right; [left | by right]|].
      split; [lia|]. intros y [->|Hy]%elem_of_cons; [done | by apply Hall].
    + split; [destruct Hin as [->|Hin]; [by left | right; by right]|].
      split; [done|]. intros y [->|Hy]%elem_of_cons; [lia | by apply Hall].
Qed.

Lemma py_max_spec {A} (key : A → Z) (l : list A) (b : A) :
  py_max Z.ltb key l = Some b → b ∈ l ∧ ∀ x, x ∈ l → key x ≤ key b.
Proof.
  destruct l as [|x l]; [done|]. simpl. intros [= <-].
  destruct (py_max_from_spec key l x) as (Hin & Hle & Hall).
  split; [destruct Hin as [->|Hin]; [left | by right]|].
  intros y [->|Hy]%elem_of_cons; [done | by apply Hall].
Qed.

Lemma json_load_returns c w raw w' :
  json_load c w = (Ok raw, w') → c = Json raw ∧ fs w' = fs w ∧ now w' = now w.
Proof.
  unfold json_load, bind, io_fault.
  destruct (faults w) as [|[[] rn k] l]; simpl; [|done|];
    destruct c; try done; by intros [= <- <-].
Qed.

Lemma json_load_raises c w e w' :
  json_load c w = (Raise e, w') → fs w' = fs w ∧ now w' = now w.
Proof.
  unfold json_load, bind, io_fault.
  destruct (faults w) as [|[[] rn k] l]; simpl;
    destruct c; try done; by intros [= <- <-].
Qed.

(** What a [_restore_from_backup] that returns has done, whatever failed
    on the way: the document it returns is in the primary file, and it is
    the newest backup after the repair pass or the default document. *)
Lemma restore_from_backup_returns cfg w d w' :
  _restore_from_backup cfg w = (Ok d, w') →
  let backup_files :=
    filter (λ e, glob_letters_backup (de_name e) = true) (backup_dir (fs w)) in
  primary (fs w') = Some (Json (to_raw d))
  ∧ (d = default_data cfg
     ∨ ∃ latest raw,
         latest ∈ backup_files
         ∧ (∀ b, b ∈ backup_files → de_mtime b ≤ de_mtime latest)
         ∧ de_content latest = Json raw
         ∧ d = _validate_and_repair_data cfg (now w) raw).
Proof.
  intros Hrun. cbv zeta. unfold _restore_from_backup in Hrun.
  apply catch_Ok_inv in Hrun as [Hbody | (e & w2 & _ & Hh)].
  - unfold bind at 1, get_world in Hbody.
    destruct (py_max Z.ltb de_mtime _) as [latest|] eqn:Hmax.
    + apply bind_Ok_inv in Hbody as (raw & w2 & Hload & Hsave).
      apply json_load_returns in Hload as (Hc & Hfs & Hnow).
      apply save_unsafe_returns in Hsave as (-> & l & ->).
      split; [done|]. right. exists latest, raw.
      apply py_max_spec in Hmax as [Hin Hall]. by rewrite Hnow.
    + apply bind_Ok_inv in Hbody as (d0 & w2 & Hsave & [= <- <-]).
      apply save_unsafe_returns in Hsave as (-> & l & ->).
      rewrite repair_to_raw. split; [done|]. by left.
  - apply bind_Ok_inv in Hh as (d0 & w3 & Hsave & [= <- <-]).
    apply save_unsafe_returns in Hsave as (-> & l & ->).
    rewrite repair_to_raw. split; [done|]. by left.
Qed.

(** C7 (as the code has it). A primary file that holds text that is no JSON
    is recovered from the backup with the latest modification time among
    the files named [letters_backup_*.json]. Whatever fails, a [load_data]
    that returns has written what it returns as the new primary file, and
    that is the newest backup after the repair pass or the default
    document. When nothing fails, [load_data] returns: the document of the
    newest backup when that backup holds one, and the default document
    when there is no backup or when the newest backup holds none, whatever
    the older backups hold. *)
Theorem load_data_recovers_corrupt_primary cfg w :
  primary (fs w) = Some Malformed →
  let backup_files :=
    filter (λ e, glob_letters_backup (de_name e) = true) (backup_dir (fs w)) in
  (∀ d w', load_data cfg w = (Ok d, w') →
     primary (fs w') = Some (Json (to_raw d))
     ∧ (d = default_data cfg
        ∨ ∃ latest raw,
            latest ∈ backup_files
            ∧ (∀ b, b ∈ backup_files → de_mtime b ≤ de_mtime latest)
            ∧ de_content latest = Json raw
            ∧ d = _validate_and_repair_data cfg (now w) raw))
  ∧ (faults w = [] →
     match backup_files with
     | [] =>
         ∃ w', load_data cfg w = (Ok (default_data cfg), w')
               ∧ primary (fs w') = Some (Json (to_raw (default_data cfg)))
     | _ :: _ =>
         ∃ latest, latest ∈ backup_files
           ∧ (∀ b, b ∈ backup_files → de_mtime b ≤ de_mtime latest)
           ∧ ∃ d w',
               load_data cfg w = (Ok d, w')
               ∧ primary (fs w') = Some (Json (to_raw d))
               ∧ d = match de_content latest with
                     | Json raw => _validate_and_repair_data cfg (now w) raw
                     | _ => default_data cfg
                     end
     end).
Proof.
  intros Hp. cbv zeta. split.
  - intros d w' Hload. unfold load_data in Hload.
    apply catch_Ok_inv in Hload as [Hbody | (e & w1 & Hbody & Hh)].
    + unfold bind at 1, get_world in Hbody. rewrite Hp in Hbody.
      apply bind_Ok_inv in Hbody as (raw & w1 & Hj & _).
      by apply json_load_returns in Hj as [? _].
    + unfold bind at 1, get_world in Hbody. rewrite Hp in Hbody.
      unfold bind at 1 in Hbody.
      destruct (json_load Malformed w) as [[raw|e1|] w2] eqn:Hj; [| |done].
      { by apply json_load_returns in Hj as [? _]. }
      injection Hbody as -> ->.
      apply json_load_raises in Hj as [Hfs Hnow].
      destruct e; try done.
      apply restore_from_backup_returns in Hh. by rewrite Hfs, Hnow in Hh.
  - intros Hf.
    assert (Hload : load_data cfg w = _restore_from_backup cfg w).
    { unfold load_data, catch, bind, get_world. rewrite Hp.
      unfold json_load, bind, io_fault. rewrite Hf. done. }
    rewrite Hload. unfold _restore_from_backup, catch, bind, get_world.
    generalize (filter (λ e, glob_letters_backup (de_name e) = true)
                       (backup_dir (fs w))).
    intros backup_files.
    destruct (py_max Z.ltb de_mtime backup_files) as [latest|] eqn:Hmax.
    + apply py_max_spec in Hmax as [Hin Hall].
      destruct backup_files as [|b0 bs]; [by apply elem_of_nil in Hin|].
      exists latest. split; [done|]. split; [done|].
      destruct (de_content latest) as [| | |raw] eqn:Hraw.
      * rewrite json_load_bad by auto. rewrite save_unsafe_ok by done.
        rewrite repair_to_raw. by eexists _, _.
      * rewrite json_load_bad by auto. rewrite save_unsafe_ok by done.
        rewrite repair_to_raw. by eexists _, _.
      * rewrite json_load_undecodable by done. rewrite save_unsafe_ok by done.
        rewrite repair_to_raw. by eexists _, _.
      * rewrite json_load_ok by done. rewrite save_unsafe_ok by done.
        by eexists _, _.
    + destruct backup_files as [|b0 bs]; [|done].
      rewrite save_unsafe_ok by done. rewrite repair_to_raw. by eexists.
Qed.

Lemma load_data_recovers_corrupt_primary_witness :
  primary (fs (ex_world ex_corrupt [] [])) = Some Malformed
  ∧ ∃ latest, latest ∈ [ex_backup_old; ex_backup_new]
      ∧ (∀ b, b ∈ [ex_backup_old; ex_backup_new] → de_mtime b ≤ de_mtime latest)
      ∧ ∃ d w',
          load_data ex_cfg (ex_world ex_corrupt [] []) = (Ok d, w')
          ∧ primary (fs w') = Some (Json (to_raw d))
          ∧ d = match de_content latest with
                | Json raw => _validate_and_repair_data ex_cfg ex_clock raw
                | _ => default_data ex_cfg
                end.
Proof.
  split; [reflexivity|].
  exact (proj2 (load_data_recovers_corrupt_primary ex_cfg (ex_world ex_corrupt [] [])
                  eq_refl) eq_refl).
Defined.

(** The claim C7 as the specification states it fails. A corrupt primary
    file is not recovered from a backup when the newest backup is corrupt
    too: the default document is written, although an older backup holds
    a document. And a primary file that is no UTF-8 text makes [load_data]
    raise [StorageError]; the backups are not looked at and the file stays
    as it is. *)
Lemma load_data_not_always_from_backup :
  de_content ex_backup_old
  = Json (to_raw (ex_doc {[ "u1" := ex_user (ex_request "pending" 2) ]}))
  ∧ (∃ w', load_data ex_cfg (ex_world ex_corrupt_newest_bad [] []) = (Ok ex_default, w')
           ∧ persisted ex_cfg w' = Some ex_default)
  ∧ load_data ex_cfg (ex_world ex_undecodable [] [])
    = (Raise (StorageError UnicodeDecodeError), ex_world ex_undecodable [] []).
Proof.
  split; [reflexivity|]. split.
  - eexists. split; vm_compute; reflexivity.
  - vm_compute. reflexivity.
Qed.

(** ** The rate limiter *)

(** C2. When the storage raises while the daily counter is read, or, after
    a daily check that allowed the request, while the API counter is read,
    [is_request_allowed] returns [(false, message)]. *)
Theorem is_request_allowed_fail_closed cfg user_id w :
  (∃ e w', get_user_data cfg user_id w = (Raise e, w'))
  ∨ (∃ info w1 e w',
       check_daily_request_limit cfg user_id w = (Ok (true, info), w1)
       ∧ get_user_data cfg user_id w1 = (Raise e, w')) →
  ∃ message w'', is_request_allowed cfg user_id w = (Ok (false, message), w'').
Proof.
  intros [(e & w' & Hget) | (info & w1 & e & w' & Hdaily & Hget)].
  - unfold is_request_allowed, catch at 1, bind at 1.
    unfold check_daily_request_limit, catch at 1, bind at 1. rewrite Hget.
    simpl. by eexists _, _.
  - unfold is_request_allowed, catch at 1, bind at 1. rewrite Hdaily. simpl.
    unfold bind at 1, check_api_call_limit, catch at 1, bind at 1. rewrite Hget.
    simpl. by eexists _, _.
Qed.

Lemma is_request_allowed_fail_closed_witness :
  ((∃ e w', get_user_data ex_cfg "u1" (ex_world (ex_stored ex_default) [ex_fails] [])
            = (Raise e, w'))
   ∨ (∃ info w1 e w',
        check_daily_request_limit ex_cfg "u1" (ex_world (ex_stored ex_default) [ex_fails] [])
        = (Ok (true, info), w1)
        ∧ get_user_data ex_cfg "u1" w1 = (Raise e, w')))
  ∧ ∃ message w'',
      is_request_allowed ex_cfg "u1" (ex_world (ex_stored ex_default) [ex_fails] [])
      = (Ok (false, message), w'').
Proof.
  assert (H : (∃ e w', get_user_data ex_cfg "u1" (ex_world (ex_stored ex_default) [ex_fails] [])
                       = (Raise e, w'))
              ∨ (∃ info w1 e w',
                   check_daily_request_limit ex_cfg "u1"
                     (ex_world (ex_stored ex_default) [ex_fails] [])
                   = (Ok (true, info), w1)
                   ∧ get_user_data ex_cfg "u1" w1 = (Raise e, w'))).
  { left. eexists _, _. vm_compute. reflexivity. }
  split; [exact H|].
  exact (is_request_allowed_fail_closed ex_cfg "u1" _ H).
Defined.

(** ** The background runner *)

(** C9. With background processing enabled: a start while running returns
    false and changes nothing; a stop while not running returns true and
    changes nothing; a start changes [is_running] only from false to true
    and a stop only from true to false. *)
Theorem runner_start_stop_idempotent bp :
  enable_background_processing bp = true →
  (is_running bp = true →
     ∀ env, start_background_processing env bp = (false, bp))
  ∧ (is_running bp = false →
     ∀ env, stop_background_processing env bp = (true, bp))
  ∧ (∀ env b bp', start_background_processing env bp = (b, bp') →
       is_running bp' ≠ is_running bp →
       is_running bp = false ∧ is_running bp' = true ∧ b = true)
  ∧ (∀ env b bp', stop_background_processing env bp = (b, bp') →
       is_running bp' ≠ is_running bp →
       is_running bp = true ∧ is_running bp' = false ∧ b = true).
Proof.
  intros Hen. repeat split.
  - intros Hrun env. unfold start_background_processing. by rewrite Hen, Hrun.
  - intros Hrun env. unfold stop_background_processing. by rewrite Hrun.
  - unfold start_background_processing in H. rewrite Hen in H. simpl in H.
    destruct (is_running bp) eqn:Hrun; [|done].
    injection H as <- <-. by rewrite Hrun in H0.
  - unfold start_background_processing in H. rewrite Hen in H. simpl in H.
    destruct (is_running bp) eqn:Hrun.
    { injection H as <- <-. by rewrite Hrun in H0. }
    destruct (thread_start_raises env); [by injection H as <- <-|].
    destruct (signal_raises env); by injection H as <- <-.
  - unfold start_background_processing in H. rewrite Hen in H. simpl in H.
    destruct (is_running bp) eqn:Hrun.
    { injection H as <- <-. by rewrite Hrun in H0. }
    destruct (thread_start_raises env); [by injection H as <- <-|].
    destruct (signal_raises env); by injection H as <- <-.
  - unfold stop_background_processing in H.
    destruct (is_running bp) eqn:Hrun; [done|].
    injection H as <- <-. by rewrite Hrun in H0.
  - unfold stop_background_processing in H.
    destruct (is_running bp) eqn:Hrun; simpl in H.
    2:{ injection H as <- <-. by rewrite Hrun in H0. }
    destruct (background_thread bp) as [t|]; [|by injection H as <- <-].
    destruct (th_started t && alive_before_join env); [|by injection H as <- <-].
    destruct (join_raises env); [injection H as <- <-; simpl in H0; congruence|].
    destruct (alive_after_join env); injection H as <- <-;
      [simpl in H0; congruence | done].
  - unfold stop_background_processing in H.
    destruct (is_running bp) eqn:Hrun; simpl in H.
    2:{ injection H as <- <-. by rewrite Hrun in H0. }
    destruct (background_thread bp) as [t|]; [|by injection H as <- <-].
    destruct (th_started t && alive_before_join env); [|by injection H as <- <-].
    destruct (join_raises env); [injection H as <- <-; simpl in H0; congruence|].
    destruct (alive_after_join env); injection H as <- <-;
      [simpl in H0; congruence | done].
Qed.

Lemma runner_start_stop_idempotent_witness :
  enable_background_processing (ex_runner true) = true
  ∧ (is_running (ex_runner true) = true →
       ∀ env, start_background_processing env (ex_runner true)
              = (false, ex_runner true))
  ∧ (is_running (ex_runner false) = false →
       ∀ env, stop_background_processing env (ex_runner false)
              = (true, ex_runner false)).
Proof.
  split; [reflexivity|]. split.
  - exact (proj1 (runner_start_stop_idempotent (ex_runner true) eq_refl)).
  - exact (proj1 (proj2 (runner_start_stop_idempotent (ex_runner false) eq_refl))).
Defined.

(** ** The batch *)

Lemma aggregate_counts pending results : ∀ i acc,
  let r := aggregate i pending results acc in
  processed_count r = processed_count acc
  ∧ success_count r + failed_count r
    = success_count acc + failed_count acc + Z.of_nat (length results).
Proof.
  induction results as [|res results IH]; intros i acc; simpl; [lia|].
  destruct (IH (S i)
    match res with
    | JobOk _ _ _ =>
        {| processed_count := processed_count acc;
           success_count := success_count acc + 1;
           failed_count := failed_count acc; errors := errors acc |}
    | JobFail _ error =>
        {| processed_count := processed_count acc;
           success_count := success_count acc;
           failed_count := failed_count acc + 1;
           errors := errors acc ++
             [{| ee_request_index := Some i;
                 ee_user_id := Some (default "unknown" (p_user_id <$> pending !! i));
                 ee_error := error |}] |}
    | JobExc e =>
        {| processed_count := processed_count acc;
           success_count := success_count acc;
           failed_count := failed_count acc + 1;
           errors := errors acc ++
             [{| ee_request_index := Some i;
                 ee_user_id := Some (default "unknown" (p_user_id <$> pending !! i));
                 ee_error := MsgJobException e |}] |}
    end) as [Hp Hs].
  simpl in *. rewrite Hp, Hs. destruct res; simpl; lia.
Qed.

Section GatherFacts.
Variable cfg : Config.
Variable reqs : list PendingRequest.

Lemma apply_event_length js ev w js' w' :
  apply_event cfg reqs js ev w = (Ok js', w') → length js' = length js.
Proof.
  destruct ev as [i|i]; simpl.
  - destruct (js !! i) as [[| |]|]; try by intros [= <- <-].
    destruct (reqs !! i); [|by intros [= <- <-]].
    case_bool_decide; [|by intros [= <- <-]].
    intros (s & w1 & _ & [= <- <-])%bind_Ok_inv. by rewrite length_insert.
  - destruct (js !! i) as [[| |]|]; try by intros [= <- <-].
    destruct (reqs !! i); [|by intros [= <- <-]].
    intros (s & w1 & _ & [= <- <-])%bind_Ok_inv. by rewrite length_insert.
Qed.

Lemma gather_length w results w' :
  gather cfg reqs w = (Ok results, w') → length results = length reqs.
Proof.
  unfold gather.
  intros (w0 & w1 & [= <- <-] & H)%bind_Ok_inv.
  apply bind_Ok_inv in H as (js1 & w2 & H1 & H).
  apply bind_Ok_inv in H as (js2 & w3 & H2 & H).
  apply bind_Ok_inv in H as (js3 & w4 & H3 & [= <- <-]).
  rewrite length_fmap.
  assert (L1 : length js1 = length reqs).
  { eapply (for_each_inv (λ js, length js = length reqs)) in H1; [done| |].
    - intros acc x w5 r w6 Hacc Hev. apply apply_event_length in Hev. congruence.
    - by rewrite length_replicate. }
  assert (L2 : length js2 = length reqs).
  { eapply (for_each_inv (λ js, length js = length reqs)) in H2; [done| |done].
    intros acc x w5 r w6 Hacc Hev. apply apply_event_length in Hev. congruence. }
  eapply (for_each_inv (λ js, length js = length reqs)) in H3; [done| |done].
  intros acc x w5 r w6 Hacc. destruct (acc !! x) as [[| |]|]; try by intros [= <- <-].
  case_bool_decide; [done|].
  intros (js' & w7 & Hev1 & Hev2)%bind_Ok_inv.
  apply apply_event_length in Hev1, Hev2. congruence.
Qed.

End GatherFacts.

(** C10. Whatever [process_pending_requests_for_hour] returns (nothing
    pending, a fan-out, or the result of its exception handler),
    [processed_count = success_count + failed_count]. *)
Theorem processed_is_success_plus_failed cfg hour w result w' :
  process_pending_requests_for_hour cfg hour w = (Ok result, w') →
  processed_count result = success_count result + failed_count result.
Proof.
  unfold process_pending_requests_for_hour.
  intros [H | (e & w1 & _ & [= <- <-])]%catch_Ok_inv; [|done].
  apply bind_Ok_inv in H as (pending & w1 & _ & H).
  destruct pending as [|p pending]; [by injection H as <- <-|].
  case_bool_decide; [done|].
  apply bind_Ok_inv in H as (results & w2 & Hg & [= <- <-]).
  apply gather_length in Hg.
  destruct (aggregate_counts (p :: pending) results 0%nat
              {| processed_count := Z.of_nat (length (p :: pending));
                 success_count := 0; failed_count := 0; errors := [] |}) as [Hp Hs].
  cbv zeta in Hp, Hs. simpl length in *. simpl in Hp, Hs |- *. lia.
Qed.

Lemma processed_is_success_plus_failed_witness :
  ∃ result w',
    process_pending_requests_for_hour ex_cfg 2
      (ex_world (ex_stored ex_three_users) [] [EvStart 1; EvStart 0; EvFinish 1])
    = (Ok result, w')
    ∧ processed_count result = success_count result + failed_count result.
Proof.
  destruct (returns_inv (process_pending_requests_for_hour ex_cfg 2
              (ex_world (ex_stored ex_three_users) [] [EvStart 1; EvStart 0; EvFinish 1])))
    as (result & w' & Hrun); [vm_compute; reflexivity|].
  exists result, w'. split; [exact Hrun|].
  exact (processed_is_success_plus_failed ex_cfg 2 _ result w' Hrun).
Defined.

Section BatchShape.
Variable cfg : Config.

Lemma no_raise_record_batch_start b h s : no_raise (_record_batch_start cfg b h s).
Proof. apply no_raise_catch. intros e. apply no_raise_ret. Qed.

Lemma no_raise_record_batch_completion b h s e r :
  no_raise (_record_batch_completion cfg b h s e r).
Proof. apply no_raise_catch. intros ?. apply no_raise_ret. Qed.

Lemma no_raise_process_pending h :
  no_raise (process_pending_requests_for_hour cfg h).
Proof. apply no_raise_catch. intros ?. apply no_raise_ret. Qed.

Lemma no_raise_datetime_now : no_raise datetime_now.
Proof. by intros w e w'. Qed.

End BatchShape.

(** C8 (as the code has it). Every result of [run_hourly_batch] has the keys
    success, batch_id, hour, start_time and end_time. For one of the batch
    hours 2, 3, 4 it has all ten keys of the result object. For any other
    hour it has the key error and none of execution_time, processed_count,
    success_count, failed_count and errors. *)
Theorem run_hourly_batch_result_keys cfg hour w res w' :
  run_hourly_batch cfg hour w = (Ok res, w') →
  has_keys ["success"; "batch_id"; "hour"; "start_time"; "end_time"] res
  ∧ (hour ∈ available_hours → has_keys result_keys res)
  ∧ (hour ∉ available_hours →
       has_keys ["error"] res
       ∧ lacks_keys ["execution_time"; "processed_count"; "success_count";
                     "failed_count"; "errors"] res).
Proof.
  unfold run_hourly_batch.
  intros (start_time & w0 & [= <- <-] & H)%bind_Ok_inv.
  case_bool_decide as Hh; simpl in H.
  - apply catch_Ok_inv in H as [H | (e & w1 & Hbody & _)].
    + apply bind_Ok_inv in H as ([] & w1 & _ & H).
      apply bind_Ok_inv in H as (result & w2 & _ & H).
      apply bind_Ok_inv in H as (end_time & w3 & _ & H).
      apply bind_Ok_inv in H as ([] & w4 & _ & [= <- <-]).
      split; [|split; [|done]].
      * repeat constructor; vm_compute; eauto.
      * intros _. repeat constructor; vm_compute; eauto.
    + exfalso. revert Hbody.
      apply no_raise_bind; [apply no_raise_record_batch_start|]. intros _.
      apply no_raise_bind; [apply no_raise_process_pending|]. intros result.
      apply no_raise_bind; [apply no_raise_datetime_now|]. intros end_time.
      apply no_raise_bind; [apply no_raise_record_batch_completion|]. intros _.
      apply no_raise_ret.
  - apply bind_Ok_inv in H as (end_time & w1 & _ & [= <- <-]).
    split; [|split; [done|]].
    + repeat constructor; vm_compute; eauto.
    + intros _. split; repeat constructor; vm_compute; eauto.
Qed.

Lemma run_hourly_batch_result_keys_witness :
  ∃ res w',
    run_hourly_batch ex_cfg 2 (ex_world (ex_stored ex_three_users) [] []) = (Ok res, w')
    ∧ has_keys ["success"; "batch_id"; "hour"; "start_time"; "end_time"] res
    ∧ (2 ∈ available_hours → has_keys result_keys res).
Proof.
  destruct (returns_inv (run_hourly_batch ex_cfg 2
                           (ex_world (ex_stored ex_three_users) [] [])))
    as (res & w' & Hrun); [vm_compute; reflexivity|].
  exists res, w'. split; [exact Hrun|].
  destruct (run_hourly_batch_result_keys ex_cfg 2 _ res w' Hrun) as (H5 & H10 & _).
  split; [exact H5 | exact H10].
Defined.

(** The claim C8 as the specification states it fails for an hour that is
    not a batch hour: the result for hour 5 has no processed_count. *)
Lemma run_hourly_batch_invalid_hour_lacks_keys :
  ∃ res w',
    run_hourly_batch ex_cfg 5 (ex_world ex_no_files [] []) = (Ok res, w')
    ∧ res !! "processed_count" = None
    ∧ ¬ has_keys result_keys res.
Proof.
  destruct (returns_inv (run_hourly_batch ex_cfg 5 (ex_world ex_no_files [] [])))
    as (res & w' & Hrun); [vm_compute; reflexivity|].
  exists res, w'. split; [exact Hrun|].
  assert (Hnone : res !! "processed_count" = None).
  { unfold run_hourly_batch in Hrun.
    apply bind_Ok_inv in Hrun as (c & w0 & _ & Hrun). simpl in Hrun.
    apply bind_Ok_inv in Hrun as (c' & w1 & _ & [= <- <-]).
    by vm_compute. }
  split; [exact Hnone|].
  intros H. unfold has_keys, result_keys in H.
  rewrite !Forall_cons in H. destruct H as (_ & _ & _ & _ & _ & _ & [v Hv] & _).
  rewrite Hnone in Hv. discriminate Hv.
Qed.

(** ** Intake *)

Section IntakeFacts.
Variable cfg : Config.

Lemma check_daily_request_limit_healthy w d user_id user_data :
  healthy cfg w d → users d !! user_id = Some user_data →
  ∃ b info, check_daily_request_limit cfg user_id w = (Ok (b, info), w).
Proof.
  intros Hh Hu. unfold check_daily_request_limit, catch, bind.
  rewrite (get_user_data_healthy cfg w d user_id user_data) by done.
  unfold datetime_now.
  destruct (daily_requests (rate_limits user_data)); by eexists _, _.
Qed.

Lemma check_api_call_limit_healthy w d user_id user_data :
  healthy cfg w d → users d !! user_id = Some user_data →
  ∃ b info, check_api_call_limit cfg user_id w = (Ok (b, info), w).
Proof.
  intros Hh Hu. unfold check_api_call_limit, catch, bind.
  rewrite (get_user_data_healthy cfg w d user_id user_data) by done.
  unfold datetime_now.
  destruct (api_calls (rate_limits user_data)); by eexists _, _.
Qed.

Lemma is_request_allowed_healthy w d user_id user_data :
  healthy cfg w d → users d !! user_id = Some user_data →
  ∃ b m, is_request_allowed cfg user_id w = (Ok (b, m), w).
Proof.
  intros Hh Hu.
  destruct (check_daily_request_limit_healthy w d user_id user_data Hh Hu)
    as (b1 & i1 & H1).
  destruct (check_api_call_limit_healthy w d user_id user_data Hh Hu)
    as (b2 & i2 & H2).
  unfold is_request_allowed, catch, bind. rewrite H1.
  destruct b1; simpl; [|by eexists _, _].
  rewrite H2. destruct b2; simpl; by eexists _, _.
Qed.

Lemma is_request_allowed_nofault w user_id :
  faults w = [] →
  (∃ b m w' d user_data,
     is_request_allowed cfg user_id w = (Ok (b, m), w') ∧ healthy cfg w' d
     ∧ users d !! user_id = Some user_data
     ∧ env_of w' = env_of w ∧ uuid_counter w' = uuid_counter w)
  ∨ (primary (fs w) = Some Undecodable
     ∧ ∃ m, is_request_allowed cfg user_id w = (Ok (false, m), w)).
Proof.
  intros Hf.
  destruct (get_user_data_nofault cfg w user_id Hf)
    as [(d & ud & w1 & Hget & Hh & Hu & Henv & Hid) | [Hprim Hget]].
  2:{ right. split; [done|].
      unfold is_request_allowed, catch, bind.
      unfold check_daily_request_limit, catch, bind. rewrite Hget. simpl.
      by eexists. }
  left.
  destruct (check_api_call_limit_healthy w1 d user_id ud Hh Hu) as (b2 & i2 & H2).
  unfold is_request_allowed, catch, bind.
  unfold check_daily_request_limit, catch, bind. rewrite Hget.
  unfold datetime_now.
  destruct (daily_requests (rate_limits ud)) as [cs|]; simpl.
  - case_bool_decide; simpl.
    + rewrite H2. destruct b2; simpl; by eexists _, _, w1, d, ud.
    + by eexists _, _, w1, d, ud.
  - by eexists _, _, w1, d, ud.
Qed.

Lemma _get_user_request_for_date_healthy w d user_id user_data date :
  healthy cfg w d → users d !! user_id = Some user_data →
  _get_user_request_for_date cfg user_id date w = (Ok (requests user_data !! date), w).
Proof.
  intros Hh Hu. unfold _get_user_request_for_date, catch, bind.
  by rewrite (get_user_data_healthy cfg w d user_id user_data).
Qed.

Lemma record_request_healthy w d user_id user_data :
  healthy cfg w d → users d !! user_id = Some user_data →
  ∃ user_data',
    record_request cfg user_id w
    = (Ok tt, commit (set_users (<[user_id := user_data']> (users d)) d) w)
    ∧ requests user_data' = requests user_data
    ∧ letters user_data' = letters user_data.
Proof.
  intros Hh Hu. unfold record_request, catch, bind.
  rewrite (get_user_data_healthy cfg w d user_id user_data) by done.
  unfold datetime_now.
  erewrite update_user_data_healthy by done. by eexists.
Qed.

(** A request for today that is already stored makes every further
    submission fail, and the store stays as it is. *)
Lemma submit_request_rejects_duplicate w d user_id user_data r theme hour affection :
  healthy cfg w d → users d !! user_id = Some user_data →
  requests user_data !! today (now w) = Some r → request_truthy r = true →
  ∃ m, submit_request cfg user_id theme hour affection w = (Ok (false, m), w).
Proof.
  intros Hh Hu Hr Htruthy. unfold submit_request, catch.
  destruct (validate_theme cfg theme); simpl; [|by eexists].
  destruct (validate_generation_hour hour); simpl; [|by eexists].
  destruct (is_request_allowed_healthy w d user_id user_data Hh Hu) as (b & m & Hall).
  unfold bind at 1. rewrite Hall.
  destruct b; simpl; [|by eexists].
  unfold bind at 1, datetime_now. unfold bind at 1.
  rewrite (_get_user_request_for_date_healthy w d user_id user_data) by done.
  rewrite Hr. simpl. rewrite Htruthy. by eexists.
Qed.

(** A successful submission leaves its request, pending, under today's
    date. *)
Lemma submit_request_success_stores w user_id theme hour affection m w1 :
  faults w = [] →
  submit_request cfg user_id theme hour affection w = (Ok (true, m), w1) →
  ∃ d1 user_data r,
    healthy cfg w1 d1 ∧ env_of w1 = env_of w
    ∧ users d1 !! user_id = Some user_data
    ∧ requests user_data !! today (now w) = Some r
    ∧ req_theme r = Some (strip theme) ∧ req_status r = Some "pending"
    ∧ req_generation_hour r = Some hour.
Proof.
  intros Hf. unfold submit_request, catch.
  destruct (validate_theme cfg theme); simpl; [|done].
  destruct (validate_generation_hour hour); simpl; [|done].
  destruct (is_request_allowed_nofault w user_id Hf)
    as [(b & m0 & wa & da & uda & Hall & Hha & Hua & Henv & Hid)
       | (_ & m0 & Hall)].
  2:{ unfold bind at 1. by rewrite Hall. }
  assert (Hnow : now wa = now w) by (by injection Henv).
  unfold bind at 1. rewrite Hall.
  destruct b; simpl; [|done].
  unfold bind at 1, datetime_now. unfold bind at 1.
  rewrite (_get_user_request_for_date_healthy wa da user_id uda) by done.
  destruct (from_option request_truthy false (requests uda !! today (now wa)));
    [done|].
  unfold bind at 1. unfold bind at 1, uuid4.
  set (wb := set_uuid_counter (S (uuid_counter wa)) wa).
  assert (Hhb : healthy cfg wb da) by (destruct Hha; by split).
  unfold bind at 1.
  rewrite (get_user_data_healthy cfg wb da user_id uda) by done.
  unfold bind at 1.
  erewrite update_user_data_healthy by done.
  match goal with |- context [commit ?d wb] => set (dc := d) end.
  assert (Hhc : healthy cfg (commit dc wb) dc) by (apply healthy_commit, Hhb).
  assert (Huc : users dc !! user_id
                = Some (set_requests
                          (<[today (now wa) :=
                               {| req_theme := Some (strip theme);
                                  req_status := Some "pending";
                                  req_requested_at := Some (isoformat (now wa));
                                  req_generation_hour := Some hour;
                                  req_request_id := Some (pretty (uuid_counter wa));
                                  req_affection := Some affection;
                                  req_processed_at := None;
                                  req_error_message := None |}]> (requests uda)) uda)).
  { subst dc. simpl. apply lookup_insert_eq. }
  destruct (record_request_healthy (commit dc wb) dc user_id _ Hhc Huc)
    as (udr & Hrec & Hreq & _).
  unfold bind at 1. rewrite Hrec. simpl.
  intros [= <- <-].
  eexists _, udr, _. split; [apply healthy_commit, Hhb|].
  split; [by rewrite !commit_env|].
  split; [simpl; apply lookup_insert_eq|].
  rewrite Hreq. simpl. rewrite <- Hnow. rewrite lookup_insert_eq. done.
Qed.

End IntakeFacts.

(** Two submissions of one user on one day, on a store where nothing fails:
    when the first one is accepted, the second one returns
    [success = false] with a message and leaves the store as it is; the one
    request stored for the user and the day is the first one, still
    pending. *)
Lemma submit_request_twice_nofault cfg user_id theme1 hour1 affection1 theme2 hour2 affection2
    w m1 w1 :
  faults w = [] →
  submit_request cfg user_id theme1 hour1 affection1 w = (Ok (true, m1), w1) →
  ∃ m2 r,
    submit_request cfg user_id theme2 hour2 affection2 w1 = (Ok (false, m2), w1)
    ∧ stored_request cfg w1 user_id (today (now w)) = Some r
    ∧ req_theme r = Some (strip theme1)
    ∧ req_generation_hour r = Some hour1
    ∧ req_status r = Some "pending".
Proof.
  intros Hf H1.
  destruct (submit_request_success_stores cfg w user_id theme1 hour1 affection1 m1 w1 Hf H1)
    as (d1 & ud & r & Hh & Henv & Hu & Hr & Hth & Hst & Hhr).
  assert (Hnow : now w1 = now w) by (by injection Henv).
  destruct (submit_request_rejects_duplicate cfg w1 d1 user_id ud r theme2 hour2 affection2)
    as [m2 H2]; [done|done|by rewrite Hnow| |].
  { unfold request_truthy. by rewrite Hth. }
  exists m2, r. split; [done|]. split; [|done].
  unfold stored_request. destruct Hh as [_ ->]. simpl.
  unfold request_at. rewrite Hu. done.
Qed.

Lemma accepted_inv r : accepted r = true → ∃ m w', r = (Ok (true, m), w').
Proof.
  destruct r as [[[[] m]|e|] w']; try done. intros _. by exists m, w'.
Qed.

(** C1. The duplicate check of [submit_request] fails open. With a daily
    limit above 1 (10 in debug mode) and a read that fails in
    [_get_user_request_for_date], which answers [None] then, the second
    submission of the day is accepted and its request is written over the
    first one. *)
Theorem submit_request_twice_overwrites :
  ∃ m1 w1 m2 w2 r1 r2,
    submit_request ex_cfg_debug "u1" "spring memories" 2 None
      (ex_world ex_no_files [] [])
    = (Ok (true, m1), w1)
    ∧ stored_request ex_cfg_debug w1 "u1" "2025-01-01" = Some r1
    ∧ req_theme r1 = Some "spring memories"
    ∧ submit_request ex_cfg_debug "u1" "another theme" 3 None
        (set_faults [ex_ok; ex_ok; ex_io_fails] w1)
      = (Ok (true, m2), w2)
    ∧ stored_request ex_cfg_debug w2 "u1" "2025-01-01" = Some r2
    ∧ req_theme r2 = Some "another theme"
    ∧ req_generation_hour r2 = Some 3.
Proof.
  eexists _, _, _, _, _, _.
  split; [vm_compute; reflexivity|].
  split; [vm_compute; reflexivity|].
  split; [reflexivity|].
  split; [vm_compute; reflexivity|].
  split; [vm_compute; reflexivity|].
  split; reflexivity.
Qed.

(** ** The store under I/O faults *)

Section FaultyStore.
Variable cfg : Config.

Lemma persisted_ext w w' :
  fs w' = fs w → now w' = now w → persisted cfg w' = persisted cfg w.
Proof. unfold persisted. by intros -> ->. Qed.

Lemma renames_ok_ext w w' : faults w' = faults w → renames_ok w → renames_ok w'.
Proof. unfold renames_ok. by intros ->. Qed.

Lemma renames_ok_tail f l w :
  faults w = f :: l → renames_ok w → renames_ok (set_faults l w).
Proof. unfold renames_ok. intros -> Hr. simpl. by apply Forall_cons in Hr as [_ Hr]. Qed.

(** A load from a primary file that parses returns its document or raises;
    the files stay as they are. *)
Lemma load_data_cases w d :
  persisted cfg w = Some d →
  ∃ w', fs w' = fs w ∧ now w' = now w ∧ (renames_ok w → renames_ok w')
        ∧ (load_data cfg w = (Ok d, w') ∨ ∃ e, load_data cfg w = (Raise e, w')).
Proof.
  intros Hp. unfold persisted in Hp.
  destruct (primary (fs w)) as [[| | |raw]|] eqn:Hprim; try done.
  injection Hp as <-.
  unfold load_data, catch, bind, get_world. rewrite Hprim.
  unfold json_load, bind, io_fault.
  destruct (faults w) as [|[[] rn k] l] eqn:Hfl; simpl.
  - exists w. eauto 10.
  - exists (set_faults l w). split; [done|]. split; [done|].
    split; [by apply (renames_ok_tail _ _ _ Hfl)|]. right. by eexists.
  - exists (set_faults l w). split; [done|]. split; [done|].
    split; [by apply (renames_ok_tail _ _ _ Hfl)|]. by left.
Qed.

(** As long as no rename fails, the document in the primary file after a
    save is the new one when the save has returned and the old one when it
    has raised. *)
Lemma save_data_cases w d :
  renames_ok w →
  ∃ w', now w' = now w ∧ renames_ok w'
        ∧ ((save_data cfg d w = (Ok tt, w') ∧ persisted cfg w' = Some d)
           ∨ (∃ e, save_data cfg d w = (Raise e, w')
                   ∧ persisted cfg w' = persisted cfg w)).
Proof.
  intros Hr. unfold save_data, bind.
  destruct (save_unsafe_cases cfg (to_raw d) w Hr) as (l & Hl & [-> | (e & t & ->)]).
  - rewrite repair_to_raw. eexists. split; [|split; [|left; split; [done|]]].
    + done.
    + done.
    + unfold persisted. simpl. by rewrite repair_to_raw.
  - eexists. split; [|split; [|right; eexists; split; [done|]]]; done.
Qed.



End FaultyStore.

(** ** Marking a request *)

Section MarkFacts.
Variable cfg : Config.




End MarkFacts.





(** Why no rename may fail: when the rename of a save fails and the copy
    that [shutil.move] falls back to fails while writing, the marking
    returns [False] and the primary file is cut short, so that no request
    is stored any more. *)
Lemma marks_lose_requests_when_copy_fails :
  let w := set_faults [ex_ok; ex_ok; ex_ok; ex_ok; ex_rename_fails; ex_ok; ex_ok; ex_fails]
             ex_completed in
  stored_request ex_cfg w "u1" "2025-01-01" = Some (ex_request "completed" 2)
  ∧ ∃ w', run_marks ex_cfg [MarkFailed "u1" "2025-01-01" MsgUnknownError] w
          = (Ok [false], w')
          ∧ primary (fs w') = Some Malformed
          ∧ stored_request ex_cfg w' "u1" "2025-01-01" = None.
Proof.
  split; [vm_compute; reflexivity|].
  eexists. split; [vm_compute; reflexivity|]. split; vm_compute; reflexivity.
Qed.

(** ** Jobs on a healthy store *)

Section JobFacts.
Variable cfg : Config.

Lemma healthy_set_uuid w d n :
  healthy cfg w d → healthy cfg (set_uuid_counter n w) d.
Proof. intros [Hf Hp]. by split. Qed.

Lemma get_user_profile_healthy w d user_id user_data :
  healthy cfg w d → users d !! user_id = Some user_data →
  ∃ pv, get_user_profile cfg user_id w = (Ok pv, w).
Proof.
  intros Hh Hu. unfold get_user_profile, catch, bind.
  rewrite (get_user_data_healthy cfg w d user_id user_data) by done.
  by eexists.
Qed.

Lemma mark_request_processed_healthy w d user_id user_data date status r :
  healthy cfg w d → users d !! user_id = Some user_data →
  requests user_data !! date = Some r →
  mark_request_processed cfg user_id date status w
  = (Ok true,
     commit (set_users
               (<[user_id := set_requests
                               (<[date := mark_status status (isoformat (now w)) None r]>
                                  (requests user_data)) user_data]> (users d)) d) w).
Proof.
  intros Hh Hu Hr. unfold mark_request_processed, catch, bind.
  rewrite (get_user_data_healthy cfg w d user_id user_data) by done.
  rewrite Hr. unfold datetime_now.
  by erewrite update_user_data_healthy by done.
Qed.

Lemma mark_request_failed_healthy w d user_id user_data date msg r :
  healthy cfg w d → users d !! user_id = Some user_data →
  requests user_data !! date = Some r →
  mark_request_failed cfg user_id date msg w
  = (Ok true,
     commit (set_users
               (<[user_id := set_requests
                               (<[date := mark_status "failed" (isoformat (now w))
                                            (Some msg) r]>
                                  (requests user_data)) user_data]> (users d)) d) w).
Proof.
  intros Hh Hu Hr. unfold mark_request_failed, catch, bind.
  rewrite (get_user_data_healthy cfg w d user_id user_data) by done.
  rewrite Hr. unfold datetime_now.
  by erewrite update_user_data_healthy by done.
Qed.

Lemma _save_generated_letter_healthy w d user_id user_data date theme content md :
  healthy cfg w d → users d !! user_id = Some user_data →
  ∃ p,
    _save_generated_letter cfg user_id date theme content md w
    = (Ok tt,
       commit (set_users
                 (<[user_id :=
                      {| profile := p;
                         letters :=
                           <[date := {| let_theme := theme; let_content := content;
                                        let_status := Some "completed";
                                        let_generated_at := isoformat (now w);
                                        let_metadata := md |}]> (letters user_data);
                         requests := requests user_data;
                         rate_limits := rate_limits user_data;
                         history := history user_data |}]> (users d)) d) w).
Proof.
  intros Hh Hu. unfold _save_generated_letter, catch, bind.
  rewrite (get_user_data_healthy cfg w d user_id user_data) by done.
  unfold datetime_now.
  erewrite update_user_data_healthy by done. by eexists.
Qed.

Lemma update_user_history_healthy w d user_id user_data interaction :
  healthy cfg w d → users d !! user_id = Some user_data →
  ∃ user_data' w',
    update_user_history cfg user_id interaction w = (Ok true, w')
    ∧ healthy cfg w' (set_users (<[user_id := user_data']> (users d)) d)
    ∧ env_of w' = env_of w
    ∧ letters user_data' = letters user_data
    ∧ requests user_data' = requests user_data.
Proof.
  intros Hh Hu. unfold update_user_history, catch, bind.
  rewrite (get_user_data_healthy cfg w d user_id user_data) by done.
  unfold datetime_now, uuid4.
  erewrite update_user_data_healthy by (by apply healthy_set_uuid).
  eexists _, _. split; [done|].
  split; [apply healthy_commit, Hh|]. by rewrite commit_env.
Qed.

Lemma job_failed_healthy w d p user_data r e :
  healthy cfg w d → users d !! p_user_id p = Some user_data →
  requests user_data !! p_date p = Some r →
  ∃ msg user_data',
    job_failed cfg p e w
    = (Ok (JobFail (p_user_id p) msg),
       commit (set_users (<[p_user_id p := user_data']> (users d)) d) w)
    ∧ letters user_data' = letters user_data
    ∧ ∃ r', requests user_data' !! p_date p = Some r' ∧ req_status r' = Some "failed".
Proof.
  intros Hh Hu Hr. unfold job_failed, bind.
  erewrite mark_request_failed_healthy by done.
  eexists _, _. split; [done|]. split; [done|].
  eexists. simpl. by rewrite lookup_insert_eq.
Qed.

Lemma job_start_healthy w d p user_data :
  healthy cfg w d → users d !! p_user_id p = Some user_data →
  ∃ pv, job_start cfg p w = (Ok (inl pv), w).
Proof.
  intros Hh Hu.
  destruct (get_user_profile_healthy w d _ _ Hh Hu) as [pv Hpv].
  exists pv. unfold job_start, catch, bind. by rewrite Hpv.
Qed.

(** A job that is resumed ends with a result; it changes the record of its
    own user only, and leaves there what [job_post_user] says. *)
Lemma job_finish_healthy w d p h user_data r :
  healthy cfg w d → users d !! p_user_id p = Some user_data →
  requests user_data !! p_date p = Some r →
  ∃ res user_data' w',
    job_finish cfg p h w = (Ok res, w')
    ∧ healthy cfg w' (set_users (<[p_user_id p := user_data']> (users d)) d)
    ∧ env_of w' = env_of w
    ∧ job_post_user (generator w) user_data' p res.
Proof.
  intros Hh Hu Hr. unfold job_finish, catch. unfold bind at 1, get_world.
  destruct (generator w (p_user_id p) (p_theme p) h) as [content md| |e] eqn:Hgen.
  - destruct (_save_generated_letter_healthy w d (p_user_id p) user_data (p_date p)
                (p_theme p) content md Hh Hu) as [pr Hsave].
    unfold bind at 1. rewrite Hsave.
    match goal with
    | |- context [commit (set_users (<[_ := ?u1]> _) _) w] => set (ud1 := u1)
    end.
    set (d1 := set_users (<[p_user_id p := ud1]> (users d)) d).
    assert (Hh1 : healthy cfg (commit d1 w) d1) by apply healthy_commit, Hh.
    assert (Hu1 : users d1 !! p_user_id p = Some ud1) by (simpl; apply lookup_insert_eq).
    unfold bind at 1.
    erewrite (mark_request_processed_healthy (commit d1 w) d1 (p_user_id p) ud1
                (p_date p) "completed" r) by done.
    match goal with
    | |- context [commit (set_users (<[_ := ?u2]> (users d1)) d1) _] => set (ud2 := u2)
    end.
    set (d2 := set_users (<[p_user_id p := ud2]> (users d1)) d1).
    set (w2 := commit d2 (commit d1 w)).
    assert (Hh2 : healthy cfg w2 d2) by (apply healthy_commit; apply Hh).
    assert (Hu2 : users d2 !! p_user_id p = Some ud2) by (simpl; apply lookup_insert_eq).
    unfold bind at 1, datetime_now. unfold bind at 1.
    match goal with
    | |- context [update_user_history cfg _ ?i w2] =>
        destruct (update_user_history_healthy w2 d2 (p_user_id p) ud2 i Hh2 Hu2)
          as (ud3 & w3 & Hhist & Hh3 & Henv3 & Hl3 & Hr3)
    end.
    rewrite Hhist. simpl.
    eexists _, ud3, w3. split; [done|].
    split.
    { replace (set_users (<[p_user_id p := ud3]> (users d)) d)
        with (set_users (<[p_user_id p := ud3]> (users d2)) d2); [done|].
      unfold set_users; simpl. f_equal. by rewrite !insert_insert_eq. }
    split; [by rewrite Henv3|].
    exists (mark_status "completed" (isoformat (now w)) None r), h.
    rewrite Hr3, Hl3. simpl. rewrite lookup_insert_eq. split; [done|].
    rewrite Hgen. split; [done|]. split; [done|].
    eexists. rewrite lookup_insert_eq. done.
  - destruct (job_failed_healthy w d p user_data r TimeoutError Hh Hu Hr)
      as (msg & ud' & Hfail & Hl & r' & Hr' & Hst).
    simpl. rewrite Hfail.
    eexists _, ud', _. split; [done|]. split; [apply healthy_commit, Hh|].
    split; [by rewrite commit_env|].
    exists r', h. split; [done|]. rewrite Hgen. split; [by eexists | done].
  - destruct (job_failed_healthy w d p user_data r e Hh Hu Hr)
      as (msg & ud' & Hfail & Hl & r' & Hr' & Hst).
    simpl. rewrite Hfail.
    eexists _, ud', _. split; [done|]. split; [apply healthy_commit, Hh|].
    split; [by rewrite commit_env|].
    exists r', h. split; [done|]. rewrite Hgen. split; [by eexists | done].
Qed.

End JobFacts.

(** ** The fan-out *)

(** A loop whose body always returns, with an invariant on the accumulator
    and the world that may depend on the elements already visited. *)
Lemma for_each_total {A B} (J : list A → B → World → Prop)
    (body : B → A → M B) l pre acc w :
  (∀ pre x acc w, J pre acc w →
     ∃ acc' w', body acc x w = (Ok acc', w') ∧ J (pre ++ [x])%list acc' w') →
  J pre acc w →
  ∃ acc' w', for_each l acc body w = (Ok acc', w') ∧ J (pre ++ l)%list acc' w'.
Proof.
  intros Hbody. revert pre acc w.
  induction l as [|x l IH]; intros pre acc w HJ; simpl.
  - exists acc, w. by rewrite app_nil_r.
  - destruct (Hbody pre x acc w HJ) as (acc1 & w1 & Hx & HJ1).
    unfold bind. rewrite Hx.
    destruct (IH (pre ++ [x])%list acc1 w1 HJ1) as (acc2 & w2 & Hl & HJ2).
    exists acc2, w2. split; [done|]. by rewrite <- app_assoc in HJ2.
Qed.

Lemma in_flight_none js : (∀ i, not_started (js !! i)) → in_flight js = 0%nat.
Proof.
  unfold in_flight. intros Hns.
  induction js as [|s js IH]; [done|].
  rewrite filter_cons. destruct (decide (is_started s = true)) as [Hs|Hs].
  - destruct s as [|h|]; try done. by destruct (Hns 0%nat h).
  - apply IH. intros i. apply (Hns (S i)).
Qed.

Lemma job_pre_ext d d' p :
  users d' !! p_user_id p = users d !! p_user_id p → job_pre d p → job_pre d' p.
Proof. unfold job_pre, request_at. by intros ->. Qed.

Lemma job_post_ext gen d d' p res :
  users d' !! p_user_id p = users d !! p_user_id p →
  job_post gen d p res → job_post gen d' p res.
Proof. unfold job_post. by intros ->. Qed.

Lemma job_post_pre gen d p res : job_post gen d p res → job_pre d p.
Proof.
  intros (u & Hu & r & h & Hr & _). unfold job_pre, request_at. rewrite Hu. simpl.
  by rewrite Hr.
Qed.

Section FanOut.
Variable cfg : Config.
Variable reqs : list PendingRequest.
Hypothesis reqs_distinct : NoDup (p_user_id <$> reqs).

Lemma distinct_users i j pi pj :
  reqs !! i = Some pi → reqs !! j = Some pj → i ≠ j → p_user_id pi ≠ p_user_id pj.
Proof.
  intros Hi Hj Hne Heq. apply Hne.
  apply (NoDup_lookup (p_user_id <$> reqs) i j (p_user_id pi)); [done|..].
  - by rewrite list_lookup_fmap, Hi.
  - by rewrite list_lookup_fmap, Hj, Heq.
Qed.

Lemma fan_inv_insert_pre w0 d0 js w i s :
  fan_inv cfg reqs w0 d0 js w → js !! i = Some NotStarted →
  (∀ r, s ≠ Done r) →
  fan_inv cfg reqs w0 d0 (<[i := s]> js) w.
Proof.
  intros (d & Hh & Henv & [Hlen Hjobs] & Htouch) Hi Hs.
  exists d. split; [done|]. split; [done|]. split; [|done].
  split; [by rewrite length_insert|].
  intros j p Hp. specialize (Hjobs j p Hp).
  destruct (decide (j = i)) as [->|Hne].
  - rewrite list_lookup_insert_eq by (by apply lookup_lt_Some in Hi).
    rewrite Hi in Hjobs. destruct s as [|h|r]; try done. by destruct (Hs r).
  - by rewrite list_lookup_insert_ne.
Qed.

Lemma job_pre_user d p :
  job_pre d p →
  ∃ u r, users d !! p_user_id p = Some u ∧ requests u !! p_date p = Some r.
Proof.
  unfold job_pre, request_at. intros [r Hr].
  destruct (users d !! p_user_id p) as [u|]; [|done]. by exists u, r.
Qed.

Lemma fan_inv_finish w0 d0 js w i h p :
  fan_inv cfg reqs w0 d0 js w → js !! i = Some (Started h) → reqs !! i = Some p →
  ∃ res w', task_finish cfg p h w = (Ok (Done res), w')
            ∧ fan_inv cfg reqs w0 d0 (<[i := Done res]> js) w'.
Proof.
  intros (d & Hh & Henv & [Hlen Hjobs] & Htouch) Hi Hp.
  assert (Hgen : generator w = generator w0) by (by injection Henv).
  pose proof (Hjobs i p Hp) as Hpre. rewrite Hi in Hpre.
  destruct (job_pre_user d p Hpre) as (ud & r & Hu & Hr).
  destruct (job_finish_healthy cfg w d p h ud r Hh Hu Hr)
    as (res & ud' & w' & Hfin & Hh' & Henv' & Hpost).
  exists res, w'. split.
  { unfold task_finish, catch, bind. by rewrite Hfin. }
  eexists. split; [exact Hh'|]. split; [congruence|].
  assert (Hother : ∀ x, x ≠ p_user_id p →
            users (set_users (<[p_user_id p := ud']> (users d)) d) !! x = users d !! x).
  { intros x Hx. simpl. by rewrite lookup_insert_ne. }
  split; [split; [by rewrite length_insert|]|].
  - intros j pj Hpj. destruct (decide (j = i)) as [->|Hne].
    + rewrite list_lookup_insert_eq by (by apply lookup_lt_Some in Hi).
      assert (pj = p) as -> by congruence.
      exists ud'. split; [simpl; apply lookup_insert_eq|]. by rewrite <- Hgen.
    + rewrite list_lookup_insert_ne by done.
      specialize (Hjobs j pj Hpj).
      assert (Hu' : users (set_users (<[p_user_id p := ud']> (users d)) d) !! p_user_id pj
                    = users d !! p_user_id pj).
      { apply Hother. by apply (distinct_users j i). }
      destruct (js !! j) as [[| |]|]; try done.
      * by apply (job_pre_ext d).
      * by apply (job_pre_ext d).
      * by apply (job_post_ext _ d).
  - intros x. destruct (Htouch x) as [Hsame Hdom].
    destruct (decide (x = p_user_id p)) as [->|Hx].
    + split.
      * intros Hnot. destruct Hnot. apply list_elem_of_fmap. exists p.
        split; [done|]. by apply list_elem_of_lookup_2 in Hp.
      * simpl. rewrite lookup_insert_eq. rewrite <- Hdom, Hu. done.
    + rewrite Hother by done. done.
Qed.

Lemma apply_finish_fan w0 d0 js w i :
  fan_inv cfg reqs w0 d0 js w →
  ∃ js' w',
    apply_event cfg reqs js (EvFinish i) w = (Ok js', w')
    ∧ fan_inv cfg reqs w0 d0 js' w'
    ∧ (∀ j, j ≠ i → js' !! j = js !! j)
    ∧ ((∃ h r, js !! i = Some (Started h) ∧ js' !! i = Some (Done r))
       ∨ (not_started (js !! i) ∧ js' = js)).
Proof.
  intros Hinv. simpl.
  destruct (js !! i) as [[|h|r]|] eqn:Hi.
  1,3,4: exists js, w; repeat split; try done; right; by split; [intros ?|].
  destruct (reqs !! i) as [p|] eqn:Hp.
  2:{ destruct Hinv as (d & _ & _ & [Hlen _] & _).
      apply lookup_lt_Some in Hi. apply lookup_ge_None in Hp. lia. }
  destruct (fan_inv_finish w0 d0 js w i h p Hinv Hi Hp) as (res & w' & Hfin & Hinv').
  exists (<[i := Done res]> js), w'. unfold bind. rewrite Hfin.
  split; [done|]. split; [done|].
  split; [intros j Hj; by rewrite list_lookup_insert_ne|].
  left. exists h, res. split; [done|].
  by rewrite list_lookup_insert_eq by (by apply lookup_lt_Some in Hi).
Qed.

Lemma apply_start_fan w0 d0 js w i :
  fan_inv cfg reqs w0 d0 js w →
  ∃ js' w',
    apply_event cfg reqs js (EvStart i) w = (Ok js', w')
    ∧ fan_inv cfg reqs w0 d0 js' w'
    ∧ (∀ j, j ≠ i → js' !! j = js !! j)
    ∧ (js !! i = Some NotStarted →
       Z.of_nat (in_flight js) < max_concurrent_generations cfg →
       ∃ h, js' !! i = Some (Started h)).
Proof.
  intros Hinv. simpl.
  destruct (js !! i) as [[|h|r]|] eqn:Hi.
  2,3,4: by exists js, w.
  destruct (reqs !! i) as [p|] eqn:Hp.
  2:{ destruct Hinv as (d & _ & _ & [Hlen _] & _).
      apply lookup_lt_Some in Hi. apply lookup_ge_None in Hp. lia. }
  case_bool_decide as Hc.
  2:{ by exists js, w. }
  pose proof Hinv as (d & Hh & Henv & [Hlen Hjobs] & Htouch).
  pose proof (Hjobs i p Hp) as Hpre. rewrite Hi in Hpre.
  destruct (job_pre_user d p Hpre) as (ud & r & Hu & Hr).
  destruct (job_start_healthy cfg w d p ud Hh Hu) as [pv Hstart].
  exists (<[i := Started pv]> js), w.
  unfold bind, task_start, catch, bind. rewrite Hstart. simpl.
  split; [done|]. split; [by apply fan_inv_insert_pre|].
  split; [intros j Hj; by rewrite list_lookup_insert_ne|].
  intros _ _. exists pv.
  by rewrite list_lookup_insert_eq by (by apply lookup_lt_Some in Hi).
Qed.

Lemma fan_inv_length w0 d0 js w : fan_inv cfg reqs w0 d0 js w → length js = length reqs.
Proof. by intros (d & _ & _ & [Hlen _] & _). Qed.

Lemma schedule_fan w0 d0 evs js w :
  fan_inv cfg reqs w0 d0 js w →
  ∃ js' w', for_each evs js (apply_event cfg reqs) w = (Ok js', w')
            ∧ fan_inv cfg reqs w0 d0 js' w'.
Proof.
  intros Hinv.
  destruct (for_each_total (λ _ js w, fan_inv cfg reqs w0 d0 js w)
              (apply_event cfg reqs) evs [] js w) as (js' & w' & Hrun & Hinv');
    [|done|by exists js', w'].
  intros _ ev js1 w1 Hinv1. destruct ev as [i|i].
  - destruct (apply_start_fan w0 d0 js1 w1 i Hinv1) as (js2 & w2 & H & Hinv2 & _).
    by exists js2, w2.
  - destruct (apply_finish_fan w0 d0 js1 w1 i Hinv1) as (js2 & w2 & H & Hinv2 & _).
    by exists js2, w2.
Qed.

Lemma finish_started_fan w0 d0 js w :
  fan_inv cfg reqs w0 d0 js w →
  ∃ js' w', finish_started cfg reqs js w = (Ok js', w')
            ∧ fan_inv cfg reqs w0 d0 js' w'
            ∧ ∀ i, not_started (js' !! i).
Proof.
  intros Hinv. unfold finish_started.
  destruct (for_each_total
              (λ pre js1 w1, fan_inv cfg reqs w0 d0 js1 w1
                             ∧ ∀ i, i ∈ pre → not_started (js1 !! i))
              (λ js i, apply_event cfg reqs js (EvFinish i))
              (seq 0 (length js)) [] js w) as (js' & w' & Hrun & Hinv' & Hns).
  - intros pre x js1 w1 [Hinv1 Hns1].
    destruct (apply_finish_fan w0 d0 js1 w1 x Hinv1)
      as (js2 & w2 & H & Hinv2 & Hother & Hx).
    exists js2, w2. split; [done|]. split; [done|].
    intros i [Hi | ->%list_elem_of_singleton]%elem_of_app.
    + destruct (decide (i = x)) as [->|Hne].
      * destruct Hx as [(h & r & _ & ->) | [_ ->]]; [by intros ?|by apply Hns1].
      * rewrite Hother by done. by apply Hns1.
    + destruct Hx as [(h & r & _ & ->) | [Hn ->]]; [by intros ?|done].
  - split; [done|]. intros i Hi. by apply elem_of_nil in Hi.
  - exists js', w'. split; [done|]. split; [done|].
    intros i. destruct (decide (i < length js)%nat) as [Hlt|Hge].
    + apply Hns. simpl. apply elem_of_seq. lia.
    + apply fan_inv_length in Hinv, Hinv'.
      rewrite lookup_ge_None_2 by lia. by intros ?.
Qed.

Lemma start_rest_fan w0 d0 js w :
  0 < max_concurrent_generations cfg →
  fan_inv cfg reqs w0 d0 js w → (∀ i, not_started (js !! i)) →
  ∃ js' w', start_rest cfg reqs js w = (Ok js', w')
            ∧ fan_inv cfg reqs w0 d0 js' w'
            ∧ ∀ i, (i < length reqs)%nat → ∃ r, js' !! i = Some (Done r).
Proof.
  intros Hc Hinv Hns. unfold start_rest.
  destruct (for_each_total
              (λ pre js1 w1, fan_inv cfg reqs w0 d0 js1 w1
                             ∧ (∀ i, not_started (js1 !! i))
                             ∧ ∀ i, i ∈ pre → (i < length reqs)%nat →
                                    ∃ r, js1 !! i = Some (Done r))
              (λ js i,
                 match js !! i with
                 | Some NotStarted =>
                     if bool_decide (max_concurrent_generations cfg ≤ 0) then hang
                     else let! js' := apply_event cfg reqs js (EvStart i) in
                          apply_event cfg reqs js' (EvFinish i)
                 | _ => ret js
                 end)
              (seq 0 (length js)) [] js w) as (js' & w' & Hrun & Hinv' & _ & Hdone).
  - intros pre x js1 w1 (Hinv1 & Hns1 & Hdone1).
    destruct (js1 !! x) as [[|h|r]|] eqn:Hx.
    + rewrite bool_decide_eq_false_2 by lia.
      destruct (apply_start_fan w0 d0 js1 w1 x Hinv1)
        as (js2 & w2 & H2 & Hinv2 & Hother2 & Hst).
      destruct Hst as [h Hh]; [done|by rewrite in_flight_none|].
      destruct (apply_finish_fan w0 d0 js2 w2 x Hinv2)
        as (js3 & w3 & H3 & Hinv3 & Hother3 & Hfin).
      destruct Hfin as [(h' & r & _ & Hr) | [Hn _]]; [|by destruct (Hn h)].
      exists js3, w3. unfold bind. rewrite H2. split; [done|]. split; [done|].
      split.
      * intros i. destruct (decide (i = x)) as [->|Hne]; [rewrite Hr; by intros ?|].
        rewrite Hother3, Hother2 by done. apply Hns1.
      * intros i [Hi | ->%list_elem_of_singleton]%elem_of_app Hlt; [|by exists r].
        destruct (decide (i = x)) as [->|Hne]; [by exists r|].
        rewrite Hother3, Hother2 by done. by apply Hdone1.
    + by destruct (Hns1 x h).
    + exists js1, w1. split; [done|]. split; [done|]. split; [done|].
      intros i [Hi | ->%list_elem_of_singleton]%elem_of_app Hlt; [by apply Hdone1|].
      by exists r.
    + exists js1, w1. split; [done|]. split; [done|]. split; [done|].
      intros i [Hi | ->%list_elem_of_singleton]%elem_of_app Hlt; [by apply Hdone1|].
      apply lookup_ge_None in Hx. apply fan_inv_length in Hinv1. lia.
  - split; [done|]. split; [done|]. intros i Hi. by apply elem_of_nil in Hi.
  - exists js', w'. split; [done|]. split; [done|].
    intros i Hi. apply Hdone; [|done]. simpl. apply elem_of_seq.
    apply fan_inv_length in Hinv. lia.
Qed.

(** The fan-out returns under every schedule: every job has ended, and the
    store holds what each job leaves, whatever the other jobs did. *)
Lemma gather_healthy w d :
  0 < max_concurrent_generations cfg →
  healthy cfg w d → (∀ p, p ∈ reqs → job_pre d p) →
  ∃ results w' d',
    gather cfg reqs w = (Ok results, w') ∧ healthy cfg w' d'
    ∧ env_of w' = env_of w
    ∧ touches_only (p_user_id <$> reqs) d d'
    ∧ ∀ i p, reqs !! i = Some p →
        ∃ res, results !! i = Some res ∧ job_post (generator w) d' p res.
Proof.
  intros Hc Hh Hpre.
  assert (Hinv0 : fan_inv cfg reqs w d (replicate (length reqs) NotStarted) w).
  { exists d. split; [done|]. split; [done|]. split.
    - split; [by rewrite length_replicate|]. intros i p Hp.
      rewrite lookup_replicate_2 by (by apply lookup_lt_Some in Hp).
      apply Hpre. by apply list_elem_of_lookup_2 in Hp.
    - by intros u. }
  unfold gather, bind at 1, get_world.
  destruct (schedule_fan w d (schedule w) _ w Hinv0) as (js1 & w1 & H1 & Hinv1).
  unfold bind at 1. rewrite H1.
  destruct (finish_started_fan w d js1 w1 Hinv1) as (js2 & w2 & H2 & Hinv2 & Hns).
  unfold bind at 1. rewrite H2.
  destruct (start_rest_fan w d js2 w2 Hc Hinv2 Hns) as (js3 & w3 & H3 & Hinv3 & Hdone).
  unfold bind. rewrite H3.
  destruct Hinv3 as (d3 & Hh3 & Henv3 & [Hlen Hjobs] & Htouch).
  exists (job_result <$> js3), w3, d3.
  split; [done|]. split; [done|]. split; [done|]. split; [done|].
  intros i p Hp.
  {
    destruct (Hdone i) as [r Hr]; [by apply lookup_lt_Some in Hp|].
    exists r. rewrite list_lookup_fmap, Hr. split; [done|].
    specialize (Hjobs i p Hp). by rewrite Hr in Hjobs. }
Qed.

End FanOut.

(** ** Discovery of the pending requests *)

Section Discovery.
Variable cfg : Config.

Lemma pending_loop_healthy w d hour l : ∀ acc,
  healthy cfg w d → (∀ u, u ∈ l → is_Some (users d !! u)) →
  for_each l acc
    (λ pending_requests user_id,
       let! user_data := get_user_data cfg user_id in
       match requests user_data !! today (now w) with
       | None => ret pending_requests
       | Some request =>
           if bool_decide (req_generation_hour request = Some hour)
              && bool_decide (req_status request = Some "pending")
           then
             match req_theme request, req_requested_at request with
             | None, _ => raise (KeyError "theme")
             | Some _, None => raise (KeyError "requested_at")
             | Some theme, Some requested_at =>
                 ret (pending_requests ++
                      [{| p_user_id := user_id;
                          p_theme := theme;
                          p_requested_at := requested_at;
                          p_generation_hour := hour;
                          p_request_id := default "" (req_request_id request);
                          p_date := today (now w) |}])%list
             end
           else ret pending_requests
       end) w
  = (match scan_pending (users d) (today (now w)) hour l acc with
     | inl e => Raise e
     | inr r => Ok r
     end, w).
Proof.
  induction l as [|u l IH]; intros acc Hh Hall; simpl; [done|].
  destruct (Hall u) as [ud Hu]; [by left|].
  unfold bind at 1. unfold bind at 1.
  rewrite (get_user_data_healthy cfg w d u ud) by done.
  rewrite Hu. unfold pending_entry.
  destruct (requests ud !! today (now w)) as [r|].
  2:{ apply IH; [done|]. intros u' Hu'. apply Hall. by right. }
  destruct (bool_decide (req_generation_hour r = Some hour)
            && bool_decide (req_status r = Some "pending")).
  2:{ apply IH; [done|]. intros u' Hu'. apply Hall. by right. }
  destruct (req_theme r) as [theme|]; [|done].
  destruct (req_requested_at r) as [requested_at|]; [|done].
  apply IH; [done|]. intros u' Hu'. apply Hall. by right.
Qed.

Lemma get_pending_requests_by_hour_healthy w d hour :
  healthy cfg w d →
  get_pending_requests_by_hour cfg hour w
  = (Ok (discovered d (today (now w)) hour), w).
Proof.
  intros Hh. unfold get_pending_requests_by_hour, discovered, catch.
  case_bool_decide as Hhour; simpl; [|done].
  unfold bind at 1. rewrite (get_all_users_healthy cfg w d) by done.
  unfold bind at 1, datetime_now.
  rewrite (pending_loop_healthy w d hour); [|done|].
  - by destruct (scan_pending _ _ _ _ _).
  - intros u [ud Hu]%list_elem_of_fmap. destruct Hu as [-> Hin].
    destruct ud as [u' ud]. apply elem_of_map_to_list in Hin. by exists ud.
Qed.

End Discovery.

(** What [scan_pending] adds is sound: each entry stands for a request of
    today that waits for the hour, and the users come in the order of [l]. *)
Lemma scan_pending_sound us today_ hour l : ∀ acc res,
  scan_pending us today_ hour l acc = inr res →
  ∃ new, res = (acc ++ new)%list
    ∧ (p_user_id <$> new) `sublist_of` l
    ∧ Forall (λ p, p_date p = today_
                   ∧ ∃ u r, us !! p_user_id p = Some u
                            ∧ requests u !! today_ = Some r
                            ∧ pending_at hour r
                            ∧ req_theme r = Some (p_theme p)) new.
Proof.
  induction l as [|u l IH]; intros acc res; simpl.
  - intros [= <-]. exists []. by rewrite app_nil_r.
  - destruct (us !! u) as [ud|] eqn:Hu.
    2:{ intros (new & -> & Hsub & Hall)%IH. exists new.
        split; [done|]. split; [by apply sublist_cons|done]. }
    unfold pending_entry.
    destruct (requests ud !! today_) as [r|] eqn:Hr.
    2:{ intros (new & -> & Hsub & Hall)%IH. exists new.
        split; [done|]. split; [by apply sublist_cons|done]. }
    destruct (bool_decide (req_generation_hour r = Some hour)
              && bool_decide (req_status r = Some "pending")) eqn:Hb.
    2:{ intros (new & -> & Hsub & Hall)%IH. exists new.
        split; [done|]. split; [by apply sublist_cons|done]. }
    apply andb_true_iff in Hb as [Hh%bool_decide_eq_true Hs%bool_decide_eq_true].
    destruct (req_theme r) as [theme|] eqn:Hth; [|done].
    destruct (req_requested_at r) as [requested_at|]; [|done].
    intros (new & -> & Hsub & Hall)%IH.
    eexists (_ :: new). split; [by rewrite <- app_assoc|].
    split; [simpl; by apply sublist_skip|].
    constructor; [|done]. simpl. split; [done|]. by exists ud, r.
Qed.

(** What [scan_pending] returns is complete: a user of [l] with a request
    of today that waits for the hour is among the entries. *)
Lemma scan_pending_complete us today_ hour l : ∀ acc res,
  scan_pending us today_ hour l acc = inr res →
  ∀ u ud r, u ∈ l → us !! u = Some ud → requests ud !! today_ = Some r →
            pending_at hour r → u ∈ p_user_id <$> res.
Proof.
  induction l as [|u0 l IH]; intros acc res Hscan u ud r Hin Hu Hr [Hh Hs].
  { by apply elem_of_nil in Hin. }
  simpl in Hscan. apply elem_of_cons in Hin as [->|Hin].
  - rewrite Hu in Hscan. unfold pending_entry in Hscan. rewrite Hr in Hscan.
    rewrite !bool_decide_eq_true_2 in Hscan by done. simpl in Hscan.
    destruct (req_theme r) as [theme|]; [|done].
    destruct (req_requested_at r) as [requested_at|]; [|done].
    apply scan_pending_sound in Hscan as (new & -> & _).
    rewrite !fmap_app. apply elem_of_app. left. apply elem_of_app. right.
    simpl. by left.
  - destruct (us !! u0) as [ud0|]; [|by eapply IH].
    destruct (pending_entry today_ hour u0 ud0) as [e|[p|]]; [done|..];
      by eapply IH.
Qed.

(** Without a waiting request there is nothing to report. *)
Lemma scan_pending_none us today_ hour l : ∀ acc,
  (∀ u ud r, u ∈ l → us !! u = Some ud → requests ud !! today_ = Some r →
             ¬ pending_at hour r) →
  scan_pending us today_ hour l acc = inr acc.
Proof.
  induction l as [|u l IH]; intros acc Hnone; simpl; [done|].
  assert (Hrest : scan_pending us today_ hour l acc = inr acc).
  { apply IH. intros u' ud r Hin. apply Hnone. by right. }
  destruct (us !! u) as [ud|] eqn:Hu; [|done].
  unfold pending_entry. destruct (requests ud !! today_) as [r|] eqn:Hr; [|done].
  destruct (bool_decide (req_generation_hour r = Some hour)
            && bool_decide (req_status r = Some "pending")) eqn:Hb; [|done].
  apply andb_true_iff in Hb as [Hh%bool_decide_eq_true Hs%bool_decide_eq_true].
  destruct (Hnone u ud r); [by left|done|done|by split].
Qed.

Lemma discovered_sound d today_ hour :
  NoDup (p_user_id <$> discovered d today_ hour)
  ∧ Forall (λ p, p_date p = today_
                 ∧ ∃ u r, users d !! p_user_id p = Some u
                          ∧ requests u !! today_ = Some r
                          ∧ pending_at hour r
                          ∧ req_theme r = Some (p_theme p))
           (discovered d today_ hour).
Proof.
  unfold discovered. case_bool_decide; [|split; [constructor|done]].
  destruct (scan_pending _ _ _ _ _) as [e|res] eqn:Hscan; [split; [constructor|done]|].
  apply scan_pending_sound in Hscan as (new & -> & Hsub & Hall). simpl.
  split; [|done]. eapply sublist_NoDup; [|exact Hsub]. apply NoDup_fst_map_to_list.
Qed.

Lemma discovered_complete d today_ hour u ud r :
  discovered d today_ hour ≠ [] →
  users d !! u = Some ud → requests ud !! today_ = Some r → pending_at hour r →
  u ∈ p_user_id <$> discovered d today_ hour.
Proof.
  unfold discovered. case_bool_decide; [|done].
  destruct (scan_pending _ _ _ _ _) as [e|res] eqn:Hscan; [done|].
  intros _ Hu Hr Hp. eapply scan_pending_complete; [done| |done..].
  apply list_elem_of_fmap. exists (u, ud). split; [done|]. by apply elem_of_map_to_list.
Qed.

Lemma discovered_none d today_ hour :
  (∀ u ud r, users d !! u = Some ud → requests ud !! today_ = Some r →
             ¬ pending_at hour r) →
  discovered d today_ hour = [].
Proof.
  intros Hnone. unfold discovered. case_bool_decide; [|done].
  rewrite scan_pending_none; [done|]. intros u ud r _. apply Hnone.
Qed.

Lemma discovered_job_pre d today_ hour p :
  p ∈ discovered d today_ hour → job_pre d p.
Proof.
  intros Hp. destruct (discovered_sound d today_ hour) as [_ Hall].
  rewrite Forall_forall in Hall. destruct (Hall p Hp) as (Hdate & u & r & Hu & Hr & _).
  unfold job_pre, request_at. rewrite Hu, Hdate. simpl. by rewrite Hr.
Qed.

(** Without I/O faults, a discovery that reports something has read it from
    a store that is healthy afterwards. *)
Lemma get_pending_requests_by_hour_nofault cfg hour w pending w0 :
  faults w = [] →
  get_pending_requests_by_hour cfg hour w = (Ok pending, w0) →
  pending ≠ [] →
  ∃ d, healthy cfg w0 d ∧ env_of w0 = env_of w
       ∧ pending = discovered d (today (now w)) hour.
Proof.
  intros Hf Hget Hne.
  unfold get_pending_requests_by_hour, catch in Hget.
  case_bool_decide as Hhour; simpl in Hget; [|by injection Hget as <- <-].
  destruct (load_data_nofault cfg w Hf)
    as [(d & w1 & Hload & Hh & Henv & _) | [_ Hload]].
  2:{ unfold bind at 1, get_all_users, bind at 1 in Hget. rewrite Hload in Hget.
      by injection Hget as <- <-. }
  assert (Hnow : now w1 = now w) by (by injection Henv).
  unfold bind at 1, get_all_users, bind at 1 in Hget. rewrite Hload in Hget.
  unfold bind at 1, datetime_now in Hget. simpl in Hget.
  rewrite (pending_loop_healthy cfg w1 d hour) in Hget; [|done|].
  2:{ intros u [ud Hu]%list_elem_of_fmap. destruct Hu as [-> Hin].
      destruct ud as [u' ud]. apply elem_of_map_to_list in Hin. by exists ud. }
  exists d. unfold discovered. rewrite bool_decide_eq_true_2 by done.
  rewrite <- Hnow.
  destruct (scan_pending _ _ _ _ _) as [e|res]; injection Hget as <- <-; done.
Qed.

Lemma aggregate_success pending (results : list JobResult) : ∀ i acc,
  success_count (aggregate i pending results acc)
  = success_count acc
    + Z.of_nat (length (filter (λ r, is_job_ok r = true) results)).
Proof.
  induction results as [|res results IH]; intros i acc; simpl; [lia|].
  rewrite IH, filter_cons. destruct res; simpl; lia.
Qed.

Lemma filter_ok_all (results : list JobResult) :
  (∀ r, r ∈ results → is_job_ok r = true) →
  filter (λ r, is_job_ok r = true) results = results.
Proof.
  induction results as [|r rs IH]; intros Hall; [done|].
  rewrite filter_cons, decide_True by (apply Hall; by left).
  f_equal. apply IH. intros r' Hr'. apply Hall. by right.
Qed.

Lemma count_ok_all_but_one (results : list JobResult) : ∀ k,
  (k < length results)%nat →
  (∀ i r, results !! i = Some r → (is_job_ok r = true ↔ i ≠ k)) →
  length (filter (λ r, is_job_ok r = true) results) = (length results - 1)%nat.
Proof.
  induction results as [|r rs IH]; intros k Hk Hall; simpl in *; [lia|].
  rewrite filter_cons. destruct k as [|k].
  - rewrite decide_False.
    2:{ intros Hok. by apply (Hall 0%nat r) in Hok. }
    rewrite filter_ok_all; [lia|].
    intros r' [i Hi]%list_elem_of_lookup. by apply (Hall (S i) r').
  - rewrite decide_True by (by apply (Hall 0%nat r)).
    simpl. rewrite (IH k); [lia|lia|].
    intros i r' Hi. rewrite (Hall (S i) r' Hi). lia.
Qed.

(** On a healthy store the batch returns: it runs the discovered requests
    under every schedule, each job leaves its result in the store, and only
    the users of the discovered requests are touched. *)
Lemma process_pending_healthy cfg hour w d :
  0 < max_concurrent_generations cfg → healthy cfg w d →
  ∃ results w' d',
    process_pending_requests_for_hour cfg hour w
    = (Ok (aggregate 0 (discovered d (today (now w)) hour) results
             {| processed_count :=
                  Z.of_nat (length (discovered d (today (now w)) hour));
                success_count := 0; failed_count := 0; errors := [] |}), w')
    ∧ healthy cfg w' d' ∧ env_of w' = env_of w
    ∧ touches_only (p_user_id <$> discovered d (today (now w)) hour) d d'
    ∧ length results = length (discovered d (today (now w)) hour)
    ∧ (discovered d (today (now w)) hour = [] → d' = d)
    ∧ ∀ i p, discovered d (today (now w)) hour !! i = Some p →
        ∃ res, results !! i = Some res ∧ job_post (generator w) d' p res.
Proof.
  intros Hc Hh. unfold process_pending_requests_for_hour, catch, bind.
  rewrite (get_pending_requests_by_hour_healthy cfg w d hour Hh).
  destruct (discovered d (today (now w)) hour) as [|p0 ps] eqn:Hdisc.
  { exists [], w, d. split; [done|]. split; [done|]. split; [done|].
    split; [by intros u|]. by repeat split. }
  rewrite bool_decide_eq_false_2 by lia.
  rewrite <- Hdisc.
  destruct (discovered_sound d (today (now w)) hour) as [Hnodup _].
  destruct (gather_healthy cfg _ Hnodup w d Hc Hh)
    as (results & w' & d' & Hg & Hh' & Henv & Htouch & Hres).
  { intros p. apply discovered_job_pre. }
  rewrite Hg. exists results, w', d'.
  split; [done|]. split; [done|]. split; [done|]. split; [done|].
  split; [by apply gather_length in Hg|]. split; [by rewrite Hdisc|done].
Qed.

Lemma job_post_ok gen d p res :
  job_post gen d p res →
  (∀ h, ∃ content md, gen (p_user_id p) (p_theme p) h = GenOk content md) →
  is_job_ok res = true
  ∧ (∃ r, request_at d (p_user_id p) (p_date p) = Some r
          ∧ req_status r = Some "completed")
  ∧ ∃ l h md, letter_at d (p_user_id p) (p_date p) = Some l
              ∧ let_theme l = p_theme p ∧ let_status l = Some "completed"
              ∧ gen (p_user_id p) (p_theme p) h = GenOk (let_content l) md.
Proof.
  intros (u & Hu & r & h & Hr & Hpost) Hok.
  destruct (Hok h) as (content & md & Hgen). rewrite Hgen in Hpost.
  destruct Hpost as (-> & Hst & l & Hl & Hth & Hc & Hls & Hmd).
  split; [done|]. split.
  - exists r. unfold request_at. rewrite Hu. simpl. by rewrite Hr.
  - exists l, h, md. unfold letter_at. rewrite Hu. simpl. by rewrite Hl, Hc.
Qed.

Lemma job_post_failed gen d p res :
  job_post gen d p res →
  (∀ h content md, gen (p_user_id p) (p_theme p) h ≠ GenOk content md) →
  is_job_ok res = false
  ∧ ∃ r, request_at d (p_user_id p) (p_date p) = Some r
         ∧ req_status r = Some "failed".
Proof.
  intros (u & Hu & r & h & Hr & Hpost) Hfail.
  assert (Hreq : request_at d (p_user_id p) (p_date p) = Some r).
  { unfold request_at. rewrite Hu. simpl. by rewrite Hr. }
  destruct (gen (p_user_id p) (p_theme p) h) as [content md| |e] eqn:Hgen.
  - by destruct (Hfail h content md).
  - destruct Hpost as [[msg ->] Hst]. split; [done|]. by exists r.
  - destruct Hpost as [[msg ->] Hst]. split; [done|]. by exists r.
Qed.

(** C4. A batch over the N pending requests of an hour, in which the
    generation fails for exactly one request (timeout or exception) and
    succeeds for the others: under every schedule of the event loop the
    batch returns with [processed_count = N], [success_count = N - 1] and
    [failed_count = 1]; the letter of every other request is stored and
    its request is completed; the failing request is marked failed
    (storage without I/O faults, a positive semaphore size). *)
Theorem failing_job_is_isolated cfg hour w pending w0 k pk :
  faults w = [] →
  0 < max_concurrent_generations cfg →
  get_pending_requests_by_hour cfg hour w = (Ok pending, w0) →
  pending !! k = Some pk →
  generation_fails w pk →
  (∀ i p, pending !! i = Some p → i ≠ k → generation_ok w p) →
  ∃ result w',
    process_pending_requests_for_hour cfg hour w = (Ok result, w')
    ∧ processed_count result = Z.of_nat (length pending)
    ∧ success_count result = Z.of_nat (length pending) - 1
    ∧ failed_count result = 1
    ∧ (∀ i p, pending !! i = Some p → i ≠ k →
         (∃ l h md,
            stored_letter cfg w' (p_user_id p) (p_date p) = Some l
            ∧ let_theme l = p_theme p ∧ let_status l = Some "completed"
            ∧ generator w (p_user_id p) (p_theme p) h = GenOk (let_content l) md)
         ∧ ∃ r, stored_request cfg w' (p_user_id p) (p_date p) = Some r
                ∧ req_status r = Some "completed")
    ∧ ∃ r, stored_request cfg w' (p_user_id pk) (p_date pk) = Some r
           ∧ req_status r = Some "failed".
Proof.
  intros Hf Hc Hget Hk Hfail Hok.
  assert (Hne : pending ≠ []) by (intros ->; by rewrite lookup_nil in Hk).
  destruct (get_pending_requests_by_hour_nofault cfg hour w pending w0 Hf Hget Hne)
    as (d & Hh & Henv & Hpend).
  assert (Hnow : now w0 = now w) by (by injection Henv).
  assert (Hgen : generator w0 = generator w) by (by injection Henv).
  assert (Hsame : process_pending_requests_for_hour cfg hour w
                  = process_pending_requests_for_hour cfg hour w0).
  { unfold process_pending_requests_for_hour, catch, bind. rewrite Hget.
    rewrite (get_pending_requests_by_hour_healthy cfg w0 d hour Hh).
    by rewrite Hnow, <- Hpend. }
  destruct (process_pending_healthy cfg hour w0 d Hc Hh)
    as (results & w' & d' & Hrun & Hh' & Henv' & Htouch & Hlen & _ & Hres).
  rewrite Hnow, <- Hpend in Hrun, Hlen, Hres. rewrite Hgen in Hres.
  rewrite Hsame, Hrun. eexists _, w'. split; [done|].
  assert (Hshape : ∀ i r, results !! i = Some r → (is_job_ok r = true ↔ i ≠ k)).
  { intros i r Hi.
    destruct (pending !! i) as [p|] eqn:Hp.
    2:{ apply lookup_lt_Some in Hi. apply lookup_ge_None in Hp. lia. }
    destruct (Hres i p Hp) as (r' & Hr' & Hpost).
    assert (r' = r) as -> by congruence.
    destruct (decide (i = k)) as [->|Hik].
    - assert (p = pk) as -> by congruence.
      destruct (job_post_failed _ _ _ _ Hpost Hfail) as [-> _]. split; done.
    - destruct (job_post_ok _ _ _ _ Hpost (Hok i p Hp Hik)) as [-> _]. done. }
  assert (Hcount : length (filter (λ r, is_job_ok r = true) results)
                   = (length pending - 1)%nat).
  { rewrite <- Hlen. apply (count_ok_all_but_one results k); [|done].
    rewrite Hlen. by apply lookup_lt_Some in Hk. }
  assert (Hpos : (0 < length pending)%nat) by (by apply lookup_lt_Some in Hk; lia).
  pose proof (aggregate_counts pending results 0%nat
                {| processed_count := Z.of_nat (length pending);
                   success_count := 0; failed_count := 0; errors := [] |}) as [Hp Hs].
  pose proof (aggregate_success pending results 0%nat
                {| processed_count := Z.of_nat (length pending);
                   success_count := 0; failed_count := 0; errors := [] |}) as Hsucc.
  rewrite Hcount in Hsucc. simpl in Hp, Hs, Hsucc.
  split; [done|]. split; [lia|]. split; [lia|].
  assert (Hper : persisted cfg w' = Some d') by apply Hh'.
  unfold stored_letter, stored_request. rewrite Hper. simpl. split.
  - intros i p Hp' Hik. destruct (Hres i p Hp') as (r & _ & Hpost).
    destruct (job_post_ok _ _ _ _ Hpost (Hok i p Hp' Hik)) as (_ & Hreq & Hlet).
    done.
  - destruct (Hres k pk Hk) as (r & _ & Hpost).
    by destruct (job_post_failed _ _ _ _ Hpost Hfail) as [_ Hreq].
Qed.

(** ** The hourly batch on a store without I/O faults *)

Section HourlyBatch.
Variable cfg : Config.

Lemma _record_batch_start_nofault batch_id hour start_time w :
  faults w = [] → primary (fs w) ≠ Some Undecodable →
  ∃ wb db,
    _record_batch_start cfg batch_id hour start_time w = (Ok tt, wb)
    ∧ healthy cfg wb db ∧ env_of wb = env_of w
    ∧ ∀ d, healthy cfg w d → users db = users d.
Proof.
  intros Hf Hprim.
  destruct (load_data_nofault cfg w Hf)
    as [(d & wa & Hload & Hh & Henv & _) | [? _]]; [|done].
  unfold _record_batch_start, catch, bind, get_system_info, bind. rewrite Hload.
  unfold ret.
  erewrite update_system_info_healthy by done.
  eexists _, _. split; [done|]. split; [apply healthy_commit, Hh|].
  split; [by rewrite commit_env|].
  intros d0 Hh0. rewrite (load_data_healthy cfg w d0 Hh0) in Hload.
  by injection Hload as -> ->.
Qed.

Lemma _record_batch_completion_healthy batch_id hour start_time end_time result w d :
  healthy cfg w d →
  ∃ w' d',
    _record_batch_completion cfg batch_id hour start_time end_time result w
    = (Ok tt, w')
    ∧ healthy cfg w' d' ∧ env_of w' = env_of w ∧ users d' = users d.
Proof.
  intros Hh. unfold _record_batch_completion, catch, bind.
  rewrite (get_system_info_healthy cfg w d Hh).
  destruct (batch_runs (system d) !! batch_id) as [run|].
  - erewrite update_system_info_healthy by done.
    eexists _, _. split; [done|]. split; [apply healthy_commit, Hh|].
    by rewrite commit_env.
  - by exists w, d.
Qed.

(** A run for one of the batch hours: the start is recorded, the requests
    discovered in the store at that moment are run, the completion is
    recorded. *)
Lemma run_hourly_batch_valid hour w :
  faults w = [] → primary (fs w) ≠ Some Undecodable →
  0 < max_concurrent_generations cfg → hour ∈ available_hours →
  ∃ db dc d1 w1 res,
    run_hourly_batch cfg hour w = (Ok res, w1)
    ∧ (∀ d, healthy cfg w d → users db = users d)
    ∧ touches_only (p_user_id <$> discovered db (today (now w)) hour) db dc
    ∧ (discovered db (today (now w)) hour = [] → dc = db)
    ∧ (∀ p, p ∈ discovered db (today (now w)) hour →
            ∃ r, job_post (generator w) dc p r)
    ∧ healthy cfg w1 d1 ∧ env_of w1 = env_of w ∧ users d1 = users dc
    ∧ res !! "success" = Some (VBool true)
    ∧ res !! "processed_count"
      = Some (VInt (Z.of_nat (length (discovered db (today (now w)) hour)))).
Proof.
  intros Hf Hprim Hc Hhour. unfold run_hourly_batch, bind at 1, datetime_now.
  rewrite bool_decide_eq_true_2 by done. simpl. unfold catch.
  destruct (_record_batch_start_nofault
              (stamp (now w) +:+ "_" +:+ pretty hour) hour (now w) w Hf Hprim)
    as (wb & db & Hstart & Hhb & Henvb & Husers).
  unfold bind at 1. rewrite Hstart.
  assert (Hnowb : now wb = now w) by (by injection Henvb).
  assert (Hgenb : generator wb = generator w) by (by injection Henvb).
  destruct (process_pending_healthy cfg hour wb db Hc Hhb)
    as (results & wc & dc & Hrun & Hhc & Henvc & Htouch & Hlen & Hnil & Hres).
  rewrite Hnowb in Hrun, Htouch, Hlen, Hnil, Hres. rewrite Hgenb in Hres.
  unfold bind at 1. rewrite Hrun.
  unfold bind at 1, datetime_now. cbv beta iota.
  match goal with
  | |- context [_record_batch_completion cfg ?b ?h ?s ?e ?r] =>
      destruct (_record_batch_completion_healthy b h s e r wc dc Hhc)
        as (w1 & d1 & Hcompl & Hh1 & Henv1 & Hu1)
  end.
  unfold bind at 1. rewrite Hcompl. simpl.
  exists db, dc, d1, w1. eexists. split; [done|].
  split; [done|]. split; [done|]. split; [done|].
  split.
  { intros p [i Hi]%list_elem_of_lookup. destruct (Hres i p Hi) as (r & _ & Hpost).
    by exists r. }
  split; [done|]. split; [congruence|]. split; [done|].
  split; [by vm_compute|].
  pose proof (aggregate_counts (discovered db (today (now w)) hour) results 0%nat
                {| processed_count :=
                     Z.of_nat (length (discovered db (today (now w)) hour));
                   success_count := 0; failed_count := 0; errors := [] |}) as [Hp _].
  simpl in Hp.
  transitivity (Some (VInt (processed_count
    (aggregate 0 (discovered db (today (now w)) hour) results
       {| processed_count := Z.of_nat (length (discovered db (today (now w)) hour));
          success_count := 0; failed_count := 0; errors := [] |})))).
  - generalize (aggregate 0 (discovered db (today (now w)) hour) results
       {| processed_count := Z.of_nat (length (discovered db (today (now w)) hour));
          success_count := 0; failed_count := 0; errors := [] |}).
    intros agg. by vm_compute.
  - by rewrite Hp.
Qed.

(** A batch on a primary file that is no UTF-8 text: every read raises,
    every error is swallowed, and the run reports success with nothing
    processed and nothing written. *)
Lemma run_hourly_batch_unreadable hour w :
  faults w = [] → primary (fs w) = Some Undecodable → hour ∈ available_hours →
  get_pending_requests_by_hour cfg hour w = (Ok [], w)
  ∧ ∃ res, run_hourly_batch cfg hour w = (Ok res, w)
           ∧ res !! "processed_count" = Some (VInt 0).
Proof.
  intros Hf Hprim Hhour.
  pose proof (load_data_undecodable cfg w Hf Hprim) as Hload.
  assert (Hpend : get_pending_requests_by_hour cfg hour w = (Ok [], w)).
  { unfold get_pending_requests_by_hour, catch.
    destruct (negb (bool_decide (hour ∈ valid_generation_hours))); [done|].
    unfold bind at 1, get_all_users, bind at 1. by rewrite Hload. }
  split; [done|].
  unfold run_hourly_batch, bind at 1, datetime_now.
  rewrite bool_decide_eq_true_2 by done. simpl. unfold catch at 1.
  unfold bind at 1, _record_batch_start, catch at 1, bind at 1, get_system_info,
    bind at 1. rewrite Hload. simpl.
  unfold bind at 1, process_pending_requests_for_hour, catch at 1, bind at 1.
  rewrite Hpend. simpl.
  unfold bind at 1, datetime_now. simpl.
  unfold bind at 1, _record_batch_completion, catch at 1, bind at 1, get_system_info,
    bind at 1. rewrite Hload. simpl.
  eexists. split; [reflexivity|]. by vm_compute.
Qed.

Lemma healthy_readable w d : healthy cfg w d → primary (fs w) ≠ Some Undecodable.
Proof.
  intros [_ Hp] Hprim. unfold persisted in Hp. by rewrite Hprim in Hp.
Qed.

End HourlyBatch.

Lemma discovered_users_ext d d' today_ hour :
  users d = users d' → discovered d today_ hour = discovered d' today_ hour.
Proof. unfold discovered. by intros ->. Qed.

Lemma job_post_not_pending gen d p res hour r :
  job_post gen d p res →
  request_at d (p_user_id p) (p_date p) = Some r → ¬ pending_at hour r.
Proof.
  intros (u & Hu & r' & h & Hr' & Hpost). unfold request_at. rewrite Hu. simpl.
  rewrite Hr'. intros [= <-] [_ Hst].
  destruct (gen (p_user_id p) (p_theme p) h).
  - destruct Hpost as (_ & Hc & _). congruence.
  - destruct Hpost as (_ & Hc). congruence.
  - destruct Hpost as (_ & Hc). congruence.
Qed.

(** C5. A first [run_hourly_batch] for an hour that completes successfully
    has marked every request that it discovered; a second run for the same
    hour on the same day finds no pending request, reports
    [processed_count = 0] and leaves every request and every letter as it
    is (storage without I/O faults, a positive semaphore size). *)
Theorem second_batch_finds_nothing cfg hour w res1 w1 :
  faults w = [] →
  0 < max_concurrent_generations cfg →
  run_hourly_batch cfg hour w = (Ok res1, w1) →
  res1 !! "success" = Some (VBool true) →
  get_pending_requests_by_hour cfg hour w1 = (Ok [], w1)
  ∧ ∃ res2 w2,
      run_hourly_batch cfg hour w1 = (Ok res2, w2)
      ∧ res2 !! "processed_count" = Some (VInt 0)
      ∧ (∀ u date, stored_request cfg w2 u date = stored_request cfg w1 u date)
      ∧ (∀ u date, stored_letter cfg w2 u date = stored_letter cfg w1 u date).
Proof.
  intros Hf Hc Hrun Hsucc.
  assert (Hhour : hour ∈ available_hours).
  { destruct (decide (hour ∈ available_hours)) as [|Hno]; [done|]. exfalso.
    unfold run_hourly_batch, bind at 1, datetime_now in Hrun.
    rewrite bool_decide_eq_false_2 in Hrun by done. simpl in Hrun.
    unfold bind, datetime_now in Hrun. injection Hrun as <- <-.
    vm_compute in Hsucc. discriminate Hsucc. }
  assert (Hdec : primary (fs w) = Some Undecodable
                 ∨ primary (fs w) ≠ Some Undecodable).
  { destruct (primary (fs w)) as [[]|]; auto. }
  destruct Hdec as [Hprim|Hprim].
  { destruct (run_hourly_batch_unreadable cfg hour w Hf Hprim Hhour)
      as (Hpend & res & Hrun' & Hcount).
    rewrite Hrun' in Hrun. injection Hrun as -> ->.
    split; [done|]. by exists res1, w1. }
  destruct (run_hourly_batch_valid cfg hour w Hf Hprim Hc Hhour)
    as (db & dc & d1 & w1' & res & Hrun' & _ & Htouch & Hnil & Hpost
        & Hh1 & Henv1 & Hu1 & _ & _).
  rewrite Hrun in Hrun'. injection Hrun' as <- <-.
  assert (Hnow1 : now w1 = now w) by (by injection Henv1).
  assert (Hnone : discovered d1 (today (now w)) hour = []).
  { destruct (decide (discovered db (today (now w)) hour = [])) as [Hdisc|Hdisc].
    { rewrite <- Hdisc. apply discovered_users_ext. rewrite Hu1. by rewrite Hnil. }
    apply discovered_none. intros u ud r Hud Hr Hpend.
    rewrite Hu1 in Hud.
    destruct (decide (u ∈ p_user_id <$> discovered db (today (now w)) hour))
      as [Hin|Hnotin].
    - apply list_elem_of_fmap in Hin as (p & -> & Hp).
      destruct (Hpost p Hp) as [res' Hjob].
      destruct (discovered_sound db (today (now w)) hour) as [_ Hall].
      rewrite Forall_forall in Hall.
      destruct (Hall p Hp) as [Hdate _].
      apply (job_post_not_pending _ _ _ _ hour r Hjob); [|done].
      unfold request_at. rewrite Hud, Hdate. simpl. done.
    - destruct (Htouch u) as [Hsame _].
      rewrite Hsame in Hud by done.
      apply Hnotin.
      by apply (discovered_complete db (today (now w)) hour u ud r). }
  split.
  { rewrite (get_pending_requests_by_hour_healthy cfg w1 d1 hour Hh1).
    by rewrite Hnow1, Hnone. }
  assert (Hf1 : faults w1 = []) by apply Hh1.
  destruct (run_hourly_batch_valid cfg hour w1 Hf1 (healthy_readable cfg w1 d1 Hh1)
              Hc Hhour)
    as (db2 & dc2 & d2 & w2 & res2 & Hrun2 & Husers2 & _ & Hnil2 & _
        & Hh2 & _ & Hu2 & _ & Hcount2).
  rewrite Hnow1 in Hnil2, Hcount2.
  assert (Hdisc2 : discovered db2 (today (now w)) hour = []).
  { rewrite <- Hnone. apply discovered_users_ext. by apply Husers2. }
  rewrite Hdisc2 in Hcount2. simpl in Hcount2.
  exists res2, w2. split; [done|]. split; [done|].
  assert (Husers : users d2 = users d1).
  { rewrite Hu2, (Hnil2 Hdisc2). by apply Husers2. }
  unfold stored_request, stored_letter, request_at, letter_at.
  destruct Hh1 as [_ ->]. destruct Hh2 as [_ ->]. simpl. rewrite Husers.
  split; done.
Qed.

Lemma failing_job_is_isolated_witness :
  faults ex_batch_world = []
  ∧ 0 < max_concurrent_generations ex_cfg
  ∧ get_pending_requests_by_hour ex_cfg 2 ex_batch_world
    = (Ok [ex_pending_request "u1"; ex_pending_request "u2"], ex_batch_world)
  ∧ generation_fails ex_batch_world (ex_pending_request "u2")
  ∧ ∃ result w',
      process_pending_requests_for_hour ex_cfg 2 ex_batch_world = (Ok result, w')
      ∧ processed_count result = 2
      ∧ success_count result = 1
      ∧ failed_count result = 1
      ∧ (∃ l, stored_letter ex_cfg w' "u1" "2025-01-01" = Some l
              ∧ let_status l = Some "completed")
      ∧ ∃ r, stored_request ex_cfg w' "u2" "2025-01-01" = Some r
             ∧ req_status r = Some "failed".
Proof.
  assert (H1 : faults ex_batch_world = []) by reflexivity.
  assert (H2 : 0 < max_concurrent_generations ex_cfg) by reflexivity.
  assert (H3 : get_pending_requests_by_hour ex_cfg 2 ex_batch_world
               = (Ok [ex_pending_request "u1"; ex_pending_request "u2"], ex_batch_world))
    by (vm_compute; reflexivity).
  assert (H4 : generation_fails ex_batch_world (ex_pending_request "u2"))
    by (intros h content md; discriminate).
  assert (H5 : ∀ i p,
             [ex_pending_request "u1"; ex_pending_request "u2"] !! i = Some p →
             i ≠ 1%nat → generation_ok ex_batch_world p).
  { intros [|[|i]] p Hp Hi.
    - injection Hp as <-. intros h. eexists _, _. reflexivity.
    - contradiction.
    - destruct i; discriminate Hp. }
  destruct (failing_job_is_isolated ex_cfg 2 ex_batch_world _ _ 1%nat
              (ex_pending_request "u2") H1 H2 H3 eq_refl H4 H5)
    as (result & w' & Hrun & Hp & Hs & Hf & Hletters & Hfailed).
  split; [exact H1|]. split; [exact H2|]. split; [exact H3|]. split; [exact H4|].
  exists result, w'. split; [exact Hrun|]. split; [exact Hp|].
  split; [exact Hs|]. split; [exact Hf|]. split; [|exact Hfailed].
  destruct (Hletters 0%nat (ex_pending_request "u1") eq_refl)
    as [(l & _ & _ & Hl & _ & Hst & _) _]; [discriminate|].
  exists l. split; [exact Hl | exact Hst].
Defined.

Lemma succeeded_inv r :
  succeeded r = true →
  ∃ res w', r = (Ok res, w') ∧ res !! "success" = Some (VBool true).
Proof.
  destruct r as [[res|e|] w']; try done. unfold succeeded. simpl.
  destruct (res !! "success") as [[[]| | | |]|] eqn:Hs; try done.
  intros _. by exists res, w'.
Qed.

Lemma second_batch_finds_nothing_witness :
  ∃ res1 w1,
    faults ex_batch_world = []
    ∧ 0 < max_concurrent_generations ex_cfg
    ∧ run_hourly_batch ex_cfg 2 ex_batch_world = (Ok res1, w1)
    ∧ res1 !! "success" = Some (VBool true)
    ∧ get_pending_requests_by_hour ex_cfg 2 w1 = (Ok [], w1)
    ∧ ∃ res2 w2,
        run_hourly_batch ex_cfg 2 w1 = (Ok res2, w2)
        ∧ res2 !! "processed_count" = Some (VInt 0)
        ∧ (∀ u date, stored_request ex_cfg w2 u date = stored_request ex_cfg w1 u date)
        ∧ (∀ u date, stored_letter ex_cfg w2 u date = stored_letter ex_cfg w1 u date).
Proof.
  destruct (succeeded_inv (run_hourly_batch ex_cfg 2 ex_batch_world))
    as (res1 & w1 & Hrun & Hsucc); [vm_compute; reflexivity|].
  exists res1, w1. split; [reflexivity|]. split; [reflexivity|].
  split; [exact Hrun|]. split; [exact Hsucc|].
  exact (second_batch_finds_nothing ex_cfg 2 ex_batch_world res1 w1
           eq_refl eq_refl Hrun Hsucc).
Defined.

(** * Further properties *)

(** ** The store: round trips *)

Section StoreRoundTrips.
Variable cfg : Config.

Lemma stored_user_healthy w d user_id :
  healthy cfg w d → stored_user cfg w user_id = users d !! user_id.
Proof. intros [_ Hp]. unfold stored_user. by rewrite Hp. Qed.

Lemma persisted_healthy w d : faults w = [] → persisted cfg w = Some d → healthy cfg w d.
Proof. by split. Qed.

End StoreRoundTrips.

(** X1. What [save_data] has written is what [load_data] reads: when a
    save returns, whatever failed before, and nothing fails afterwards, the
    next load returns the saved document and leaves the files alone. *)
Theorem save_data_then_load_data cfg data w w' :
  save_data cfg data w = (Ok tt, w') → faults w' = [] →
  load_data cfg w' = (Ok data, w').
Proof.
  intros Hsave Hf. unfold save_data in Hsave.
  apply bind_Ok_inv in Hsave as (d & w1 & Hsave & [= <-]).
  apply save_unsafe_returns in Hsave as (-> & l & ->).
  rewrite repair_to_raw in *.
  apply load_data_healthy. split; [done|]. apply persisted_commit.
Qed.

Lemma save_data_then_load_data_witness :
  save_data ex_cfg ex_three_users (ex_world ex_no_files [ex_ok; ex_ok; ex_rename_fails] [])
  = (Ok tt, ex_store)
  ∧ faults ex_store = []
  ∧ load_data ex_cfg ex_store
    = (Ok ex_three_users, ex_store).
Proof.
  assert (Hs : save_data ex_cfg ex_three_users
                 (ex_world ex_no_files [ex_ok; ex_ok; ex_rename_fails] [])
               = (Ok tt, ex_store))
    by (vm_compute; reflexivity).
  split; [exact Hs|]. split; [reflexivity|].
  exact (save_data_then_load_data ex_cfg ex_three_users _ ex_store Hs eq_refl).
Defined.

(** X2. [update_user_data] followed by [get_user_data] gives back the
    record that was written, and the records of the other users are the
    ones that were loaded. *)
Theorem update_user_data_then_get_user_data cfg user_id user_data w d w0 :
  faults w = [] → load_data cfg w = (Ok d, w0) →
  ∃ w', update_user_data cfg user_id user_data w = (Ok tt, w')
        ∧ get_user_data cfg user_id w' = (Ok user_data, w')
        ∧ ∀ u, u ≠ user_id → stored_user cfg w' u = users d !! u.
Proof.
  intros Hf Hload.
  destruct (load_data_nofault cfg w Hf)
    as [(d1 & w1 & Hload1 & Hh & _ & _) | [_ Hload1]];
    rewrite Hload in Hload1; [|done].
  injection Hload1 as <- <-.
  set (d' := set_users (<[user_id := user_data]> (users d)) d).
  assert (Hh' : healthy cfg (commit d' w0) d') by apply healthy_commit, Hh.
  exists (commit d' w0). split.
  { unfold update_user_data, bind. rewrite Hload. by rewrite save_data_ok by apply Hh. }
  split.
  { apply (get_user_data_healthy cfg _ d'); [done|]. simpl. apply lookup_insert_eq. }
  intros u Hu. rewrite (stored_user_healthy cfg _ d') by done.
  simpl. by rewrite lookup_insert_ne.
Qed.

Lemma update_user_data_then_get_user_data_witness :
  faults ex_store = []
  ∧ load_data ex_cfg ex_store
    = (Ok ex_three_users, ex_store)
  ∧ ∃ w', update_user_data ex_cfg "u2" (ex_user (ex_request "failed" 2))
            ex_store = (Ok tt, w')
          ∧ get_user_data ex_cfg "u2" w' = (Ok (ex_user (ex_request "failed" 2)), w')
          ∧ ∀ u, u ≠ "u2" → stored_user ex_cfg w' u = users ex_three_users !! u.
Proof.
  assert (Hl : load_data ex_cfg ex_store
               = (Ok ex_three_users, ex_store))
    by (vm_compute; reflexivity).
  split; [reflexivity|]. split; [exact Hl|].
  exact (update_user_data_then_get_user_data ex_cfg "u2" _ ex_store _ _ eq_refl Hl).
Defined.

(** X3. [get_user_data] creates the record of an unknown user once: the
    record it returns is stored, a second call returns the same record and
    writes nothing, and the record created for a user that the stored
    document does not hold has no letters, no requests and no counters. *)
Theorem get_user_data_creates_once cfg user_id w user_data w' :
  faults w = [] →
  get_user_data cfg user_id w = (Ok user_data, w') →
  stored_user cfg w' user_id = Some user_data
  ∧ get_user_data cfg user_id w' = (Ok user_data, w')
  ∧ (∀ d, persisted cfg w = Some d → users d !! user_id = None →
          letters user_data = ∅ ∧ requests user_data = ∅
          ∧ rate_limits user_data = empty_rate_limits
          ∧ ∀ u, u ≠ user_id → stored_user cfg w' u = users d !! u).
Proof.
  intros Hf Hget.
  destruct (get_user_data_nofault cfg w user_id Hf)
    as [(d1 & ud & w1 & Hget1 & Hh & Hu & _ & _) | [_ Hget1]];
    rewrite Hget in Hget1; [|done].
  injection Hget1 as <- <-.
  split; [by rewrite (stored_user_healthy cfg _ d1)|].
  split; [by apply (get_user_data_healthy cfg _ d1)|].
  intros d Hp Hnone.
  assert (Hhw : healthy cfg w d) by done.
  rewrite (get_user_data_fresh cfg w d user_id Hhw Hnone) in Hget.
  injection Hget as <- <-.
  split; [done|]. split; [done|]. split; [done|].
  intros u Hne.
  rewrite (stored_user_healthy cfg _ (set_users (<[user_id := new_user_data (now w)]>
                                                   (users d)) d))
    by (apply healthy_commit, Hf).
  simpl. by rewrite lookup_insert_ne.
Qed.

Lemma get_user_data_creates_once_witness :
  ∃ user_data w',
    faults ex_store = []
    ∧ get_user_data ex_cfg "u9" ex_store
      = (Ok user_data, w')
    ∧ stored_user ex_cfg w' "u9" = Some user_data
    ∧ get_user_data ex_cfg "u9" w' = (Ok user_data, w').
Proof.
  destruct (returns_inv (get_user_data ex_cfg "u9"
                           ex_store))
    as (user_data & w' & Hget); [vm_compute; reflexivity|].
  exists user_data, w'. split; [reflexivity|]. split; [exact Hget|].
  destruct (get_user_data_creates_once ex_cfg "u9" ex_store user_data w' eq_refl Hget)
    as (H1 & H2 & _).
  split; [exact H1 | exact H2].
Defined.

(** ** The rate limiter: counters *)

Section CounterFacts.
Variable cfg : Config.

Lemma check_daily_request_limit_count w d user_id user_data daily :
  healthy cfg w d → users d !! user_id = Some user_data →
  daily_requests (rate_limits user_data) = Some daily →
  let n := count_on (today (now w)) (Some daily) in
  check_daily_request_limit cfg user_id w
  = (Ok (bool_decide (n < max_daily_requests cfg),
         LimitCounts n (max_daily_requests cfg)
           (Z.max 0 (max_daily_requests cfg - n))
           (next_midnight (now w)) (debug_mode cfg)), w).
Proof.
  intros Hh Hu Hd. unfold check_daily_request_limit, catch, bind.
  rewrite (get_user_data_healthy cfg w d user_id user_data) by done.
  unfold datetime_now. by rewrite Hd.
Qed.

Lemma check_api_call_limit_count w d user_id user_data calls :
  healthy cfg w d → users d !! user_id = Some user_data →
  api_calls (rate_limits user_data) = Some calls →
  let n := count_on (today (now w)) (Some calls) in
  check_api_call_limit cfg user_id w
  = (Ok (bool_decide (n < max_api_calls_per_day cfg),
         LimitCounts n (max_api_calls_per_day cfg)
           (Z.max 0 (max_api_calls_per_day cfg - n))
           (next_midnight (now w)) (debug_mode cfg)), w).
Proof.
  intros Hh Hu Hd. unfold check_api_call_limit, catch, bind.
  rewrite (get_user_data_healthy cfg w d user_id user_data) by done.
  unfold datetime_now. by rewrite Hd.
Qed.

Lemma record_request_effect w d user_id user_data :
  healthy cfg w d → users d !! user_id = Some user_data →
  let t := today (now w) in
  let user_data' :=
    {| profile := set_last_request t (profile user_data);
       letters := letters user_data;
       requests := requests user_data;
       rate_limits :=
         {| daily_requests :=
              Some (<[t := count_on t (daily_requests (rate_limits user_data)) + 1]>
                      (default ∅ (daily_requests (rate_limits user_data))));
            api_calls := api_calls (rate_limits user_data) |};
       history := history user_data |} in
  record_request cfg user_id w
  = (Ok tt, commit (set_users (<[user_id := user_data']> (users d)) d) w).
Proof.
  intros Hh Hu. unfold record_request, catch, bind.
  rewrite (get_user_data_healthy cfg w d user_id user_data) by done.
  unfold datetime_now.
  by erewrite update_user_data_healthy by done.
Qed.

Lemma record_api_call_effect w d user_id user_data api_type :
  healthy cfg w d → users d !! user_id = Some user_data →
  let t := today (now w) in
  let user_data' :=
    set_rate_limits
      {| daily_requests := daily_requests (rate_limits user_data);
         api_calls :=
           Some (<[t := count_on t (api_calls (rate_limits user_data)) + 1]>
                   (default ∅ (api_calls (rate_limits user_data)))) |}
      user_data in
  record_api_call cfg user_id api_type w
  = (Ok tt, commit (set_users (<[user_id := user_data']> (users d)) d) w).
Proof.
  intros Hh Hu. unfold record_api_call, catch, bind.
  rewrite (get_user_data_healthy cfg w d user_id user_data) by done.
  unfold datetime_now.
  by erewrite update_user_data_healthy by done.
Qed.

Lemma count_on_insert t n counters :
  count_on t (Some (<[t := n]> counters)) = n.
Proof. unfold count_on. simpl. by rewrite lookup_insert_eq. Qed.

Lemma count_on_insert_ne t t' n counters :
  t' ≠ t → count_on t' (Some (<[t := n]> counters)) = count_on t' (Some counters).
Proof. intros Hne. unfold count_on. simpl. by rewrite lookup_insert_ne. Qed.

End CounterFacts.

(** X4. [record_request] adds one to today's request counter of the user
    and to nothing else: the counters of the other days, the API counters,
    the requests and the letters are as before, and the next
    [check_daily_request_limit] allows a request exactly when the new count
    is below the limit. *)
Theorem record_request_counts_one cfg user_id w d user_data :
  healthy cfg w d → users d !! user_id = Some user_data →
  let t := today (now w) in
  let n := count_on t (daily_requests (rate_limits user_data)) in
  ∃ w' user_data' info,
    record_request cfg user_id w = (Ok tt, w')
    ∧ stored_user cfg w' user_id = Some user_data'
    ∧ count_on t (daily_requests (rate_limits user_data')) = n + 1
    ∧ (∀ t', t' ≠ t →
         count_on t' (daily_requests (rate_limits user_data'))
         = count_on t' (daily_requests (rate_limits user_data)))
    ∧ api_calls (rate_limits user_data') = api_calls (rate_limits user_data)
    ∧ requests user_data' = requests user_data
    ∧ letters user_data' = letters user_data
    ∧ check_daily_request_limit cfg user_id w'
      = (Ok (bool_decide (n + 1 < max_daily_requests cfg), info), w').
Proof.
  intros Hh Hu t n.
  pose proof (record_request_effect cfg w d user_id user_data Hh Hu) as Hrec.
  cbv zeta in Hrec. fold t in Hrec. fold n in Hrec.
  match type of Hrec with
  | _ = (_, commit (set_users (<[_ := ?u]> _) _) _) => set (ud' := u) in *
  end.
  set (d' := set_users (<[user_id := ud']> (users d)) d) in *.
  assert (Hh' : healthy cfg (commit d' w) d') by apply healthy_commit, Hh.
  assert (Hu' : users d' !! user_id = Some ud') by (simpl; apply lookup_insert_eq).
  eexists (commit d' w), ud', _. split; [exact Hrec|].
  split; [by rewrite (stored_user_healthy cfg _ d')|].
  split; [apply count_on_insert|].
  split.
  { intros t' Hne. subst ud'. simpl. rewrite count_on_insert_ne by done.
    unfold count_on. by destruct (daily_requests (rate_limits user_data)). }
  split; [done|]. split; [done|]. split; [done|].
  rewrite (check_daily_request_limit_count cfg _ d' user_id ud' _ Hh' Hu' eq_refl).
  cbv zeta. rewrite commit_now. fold t. rewrite count_on_insert. done.
Qed.

Lemma record_request_counts_one_witness :
  healthy ex_cfg ex_store ex_three_users
  ∧ users ex_three_users !! "u1" = Some (ex_user (ex_request "pending" 2))
  ∧ ∃ w' user_data' info,
      record_request ex_cfg "u1" ex_store = (Ok tt, w')
      ∧ stored_user ex_cfg w' "u1" = Some user_data'
      ∧ count_on "2025-01-01" (daily_requests (rate_limits user_data')) = 0 + 1
      ∧ check_daily_request_limit ex_cfg "u1" w'
        = (Ok (bool_decide (0 + 1 < 1), info), w').
Proof.
  assert (Hh : healthy ex_cfg ex_store ex_three_users)
    by (split; vm_compute; reflexivity).
  assert (Hu : users ex_three_users !! "u1" = Some (ex_user (ex_request "pending" 2)))
    by (vm_compute; reflexivity).
  split; [exact Hh|]. split; [exact Hu|].
  destruct (record_request_counts_one ex_cfg "u1" ex_store ex_three_users _ Hh Hu)
    as (w' & ud' & info & H1 & H2 & H3 & _ & _ & _ & _ & H4).
  exists w', ud', info.
  split; [exact H1|]. split; [exact H2|]. split; [exact H3|]. exact H4.
Defined.

(** X5. [record_api_call] adds one to today's API counter of the user and
    leaves the request counters, the requests and the letters alone; the
    next [check_api_call_limit] allows a call exactly when the new count is
    below the limit. *)
Theorem record_api_call_counts_one cfg user_id api_type w d user_data :
  healthy cfg w d → users d !! user_id = Some user_data →
  let t := today (now w) in
  let n := count_on t (api_calls (rate_limits user_data)) in
  ∃ w' user_data' info,
    record_api_call cfg user_id api_type w = (Ok tt, w')
    ∧ stored_user cfg w' user_id = Some user_data'
    ∧ count_on t (api_calls (rate_limits user_data')) = n + 1
    ∧ (∀ t', t' ≠ t →
         count_on t' (api_calls (rate_limits user_data'))
         = count_on t' (api_calls (rate_limits user_data)))
    ∧ daily_requests (rate_limits user_data') = daily_requests (rate_limits user_data)
    ∧ requests user_data' = requests user_data
    ∧ letters user_data' = letters user_data
    ∧ profile user_data' = profile user_data
    ∧ check_api_call_limit cfg user_id w'
      = (Ok (bool_decide (n + 1 < max_api_calls_per_day cfg), info), w').
Proof.
  intros Hh Hu t n.
  pose proof (record_api_call_effect cfg w d user_id user_data api_type Hh Hu) as Hrec.
  cbv zeta in Hrec. fold t in Hrec. fold n in Hrec.
  match type of Hrec with
  | _ = (_, commit (set_users (<[_ := ?u]> _) _) _) => set (ud' := u) in *
  end.
  set (d' := set_users (<[user_id := ud']> (users d)) d) in *.
  assert (Hh' : healthy cfg (commit d' w) d') by apply healthy_commit, Hh.
  assert (Hu' : users d' !! user_id = Some ud') by (simpl; apply lookup_insert_eq).
  eexists (commit d' w), ud', _. split; [exact Hrec|].
  split; [by rewrite (stored_user_healthy cfg _ d')|].
  split; [apply count_on_insert|].
  split.
  { intros t' Hne. subst ud'. simpl. rewrite count_on_insert_ne by done.
    unfold count_on. by destruct (api_calls (rate_limits user_data)). }
  split; [done|]. split; [done|]. split; [done|]. split; [done|].
  rewrite (check_api_call_limit_count cfg _ d' user_id ud' _ Hh' Hu' eq_refl).
  cbv zeta. rewrite commit_now. fold t. rewrite count_on_insert. done.
Qed.

Lemma record_api_call_counts_one_witness :
  healthy ex_cfg ex_store ex_three_users
  ∧ users ex_three_users !! "u1" = Some (ex_user (ex_request "pending" 2))
  ∧ ∃ w' user_data' info,
      record_api_call ex_cfg "u1" "general" ex_store = (Ok tt, w')
      ∧ stored_user ex_cfg w' "u1" = Some user_data'
      ∧ count_on "2025-01-01" (api_calls (rate_limits user_data')) = 0 + 1
      ∧ check_api_call_limit ex_cfg "u1" w'
        = (Ok (bool_decide (0 + 1 < 10), info), w').
Proof.
  assert (Hh : healthy ex_cfg ex_store ex_three_users)
    by (split; vm_compute; reflexivity).
  assert (Hu : users ex_three_users !! "u1" = Some (ex_user (ex_request "pending" 2)))
    by (vm_compute; reflexivity).
  split; [exact Hh|]. split; [exact Hu|].
  destruct (record_api_call_counts_one ex_cfg "u1" "general" ex_store ex_three_users
              _ Hh Hu)
    as (w' & ud' & info & H1 & H2 & H3 & _ & _ & _ & _ & _ & H4).
  exists w', ud', info.
  split; [exact H1|]. split; [exact H2|]. split; [exact H3|]. exact H4.
Defined.

(** X6. The decision of [is_request_allowed] on a store that can be read:
    a request is allowed exactly when today's request count and today's
    API count are both below their limits; the request limit is checked
    first, and the check changes nothing. *)
Theorem is_request_allowed_decision cfg user_id w d user_data daily calls :
  healthy cfg w d → users d !! user_id = Some user_data →
  daily_requests (rate_limits user_data) = Some daily →
  api_calls (rate_limits user_data) = Some calls →
  let t := today (now w) in
  ∃ m,
    is_request_allowed cfg user_id w
    = (Ok (bool_decide (count_on t (Some daily) < max_daily_requests cfg
                        ∧ count_on t (Some calls) < max_api_calls_per_day cfg), m), w)
    ∧ (max_daily_requests cfg ≤ count_on t (Some daily) →
       ∃ hours minutes, m = MsgDailyLimit hours minutes)
    ∧ (count_on t (Some daily) < max_daily_requests cfg →
       max_api_calls_per_day cfg ≤ count_on t (Some calls) →
       ∃ hours minutes, m = MsgApiLimit hours minutes).
Proof.
  intros Hh Hu Hd Ha t.
  unfold is_request_allowed, catch. unfold bind at 1.
  rewrite (check_daily_request_limit_count cfg w d user_id user_data daily) by done.
  cbv zeta. fold t.
  case_bool_decide as Hreq; simpl.
  - unfold bind at 1.
    rewrite (check_api_call_limit_count cfg w d user_id user_data calls) by done.
    cbv zeta. fold t.
    case_bool_decide as Hapi; simpl.
    + eexists. split; [by rewrite bool_decide_true|]. split; intros; lia.
    + eexists. split; [by rewrite bool_decide_false by tauto|].
      split; [intros; lia|]. intros _ _. by eexists _, _.
  - eexists. split; [by rewrite bool_decide_false by tauto|].
    split; [|intros; lia]. intros _. by eexists _, _.
Qed.

Lemma is_request_allowed_decision_witness :
  healthy ex_cfg ex_store ex_three_users
  ∧ users ex_three_users !! "u1" = Some (ex_user (ex_request "pending" 2))
  ∧ ∃ m, is_request_allowed ex_cfg "u1" ex_store
         = (Ok (bool_decide (count_on "2025-01-01" (Some ∅) < 1
                             ∧ count_on "2025-01-01" (Some ∅) < 10), m), ex_store).
Proof.
  assert (Hh : healthy ex_cfg ex_store ex_three_users)
    by (split; vm_compute; reflexivity).
  assert (Hu : users ex_three_users !! "u1" = Some (ex_user (ex_request "pending" 2)))
    by (vm_compute; reflexivity).
  split; [exact Hh|]. split; [exact Hu|].
  destruct (is_request_allowed_decision ex_cfg "u1" ex_store ex_three_users _ ∅ ∅
              Hh Hu eq_refl eq_refl) as (m & H1 & _).
  exists m. exact H1.
Defined.

Section ResetFacts.
Variable cfg : Config.

Lemma is_request_allowed_ok w d user_id user_data daily calls :
  healthy cfg w d → users d !! user_id = Some user_data →
  daily_requests (rate_limits user_data) = Some daily →
  api_calls (rate_limits user_data) = Some calls →
  count_on (today (now w)) (Some daily) < max_daily_requests cfg →
  count_on (today (now w)) (Some calls) < max_api_calls_per_day cfg →
  is_request_allowed cfg user_id w = (Ok (true, MsgRequestable), w).
Proof.
  intros Hh Hu Hd Ha Hn1 Hn2.
  unfold is_request_allowed, catch. unfold bind at 1.
  rewrite (check_daily_request_limit_count cfg w d user_id user_data daily) by done.
  cbv zeta. rewrite bool_decide_true by done. simpl.
  unfold bind at 1.
  rewrite (check_api_call_limit_count cfg w d user_id user_data calls) by done.
  cbv zeta. by rewrite bool_decide_true by done.
Qed.

End ResetFacts.

(** X7. [force_reset_user_limits] works in debug mode only. Outside debug
    mode it raises [RateLimitError] and touches nothing. In debug mode it
    sets today's two counters of the user to 0 and leaves the other days,
    the requests and the letters alone; with limits above 0 the user may
    request again. *)
Theorem force_reset_user_limits_debug_only cfg user_id w d user_data daily calls :
  healthy cfg w d → users d !! user_id = Some user_data →
  daily_requests (rate_limits user_data) = Some daily →
  api_calls (rate_limits user_data) = Some calls →
  let t := today (now w) in
  if debug_mode cfg
  then
    ∃ w' user_data',
      force_reset_user_limits cfg user_id w = (Ok tt, w')
      ∧ stored_user cfg w' user_id = Some user_data'
      ∧ count_on t (daily_requests (rate_limits user_data')) = 0
      ∧ count_on t (api_calls (rate_limits user_data')) = 0
      ∧ (∀ t', t' ≠ t →
           count_on t' (daily_requests (rate_limits user_data')) = count_on t' (Some daily)
           ∧ count_on t' (api_calls (rate_limits user_data')) = count_on t' (Some calls))
      ∧ requests user_data' = requests user_data
      ∧ letters user_data' = letters user_data
      ∧ (0 < max_daily_requests cfg → 0 < max_api_calls_per_day cfg →
         is_request_allowed cfg user_id w' = (Ok (true, MsgRequestable), w'))
  else
    ∃ cause,
      force_reset_user_limits cfg user_id w = (Raise (RateLimitError cause), w).
Proof.
  intros Hh Hu Hd Ha t. unfold force_reset_user_limits.
  destruct (debug_mode cfg); simpl; [|by eexists].
  unfold catch, bind.
  rewrite (get_user_data_healthy cfg w d user_id user_data) by done.
  unfold datetime_now. rewrite Hd, Ha.
  erewrite update_user_data_healthy by done. fold t.
  match goal with
  | |- context [commit (set_users (<[_ := ?u]> _) _) _] => set (ud' := u)
  end.
  set (d' := set_users (<[user_id := ud']> (users d)) d).
  assert (Hh' : healthy cfg (commit d' w) d') by apply healthy_commit, Hh.
  assert (Hu' : users d' !! user_id = Some ud') by (simpl; apply lookup_insert_eq).
  exists (commit d' w), ud'. split; [done|].
  split; [by rewrite (stored_user_healthy cfg _ d')|].
  split; [apply count_on_insert|]. split; [apply count_on_insert|].
  split.
  { intros t' Hne. subst ud'; simpl. by rewrite !count_on_insert_ne by done. }
  split; [done|]. split; [done|].
  intros Hm1 Hm2.
  apply (is_request_allowed_ok cfg _ d' user_id ud' _ _ Hh' Hu' eq_refl eq_refl);
    rewrite commit_now; fold t; by rewrite count_on_insert.
Qed.

Lemma force_reset_user_limits_debug_only_witness :
  healthy ex_cfg_debug ex_store ex_three_users
  ∧ users ex_three_users !! "u1" = Some (ex_user (ex_request "pending" 2))
  ∧ ∃ w' user_data',
      force_reset_user_limits ex_cfg_debug "u1" ex_store = (Ok tt, w')
      ∧ stored_user ex_cfg_debug w' "u1" = Some user_data'
      ∧ count_on "2025-01-01" (daily_requests (rate_limits user_data')) = 0
      ∧ count_on "2025-01-01" (api_calls (rate_limits user_data')) = 0.
Proof.
  assert (Hh : healthy ex_cfg_debug ex_store ex_three_users)
    by (split; vm_compute; reflexivity).
  assert (Hu : users ex_three_users !! "u1" = Some (ex_user (ex_request "pending" 2)))
    by (vm_compute; reflexivity).
  split; [exact Hh|]. split; [exact Hu|].
  destruct (force_reset_user_limits_debug_only ex_cfg_debug "u1" ex_store
              ex_three_users _ ∅ ∅ Hh Hu eq_refl eq_refl)
    as (w' & ud' & H1 & H2 & H3 & H4 & _).
  exists w', ud'.
  split; [exact H1|]. split; [exact H2|]. split; [exact H3|]. exact H4.
Defined.

(** ** The request manager *)

Lemma rstrip_idemp s : rstrip (rstrip s) = rstrip s.
Proof.
  induction s as [|a s IH]; [done|]. simpl.
  destruct (rstrip s) as [|b t] eqn:Hr.
  - destruct (py_isspace a) eqn:Ha; [done|]. simpl. by rewrite Ha.
  - simpl. simpl in IH. rewrite IH. done.
Qed.

Lemma lstrip_head s : match lstrip s with
                      | String a _ => py_isspace a = false
                      | EmptyString => True
                      end.
Proof.
  induction s as [|a s IH]; [done|]. simpl.
  destruct (py_isspace a) eqn:Ha; [done|]. done.
Qed.

Lemma lstrip_rstrip_lstrip s : lstrip (rstrip (lstrip s)) = rstrip (lstrip s).
Proof.
  pose proof (lstrip_head s) as Hh.
  destruct (lstrip s) as [|a t]; [done|]. simpl.
  destruct (rstrip t) as [|b u]; rewrite ?Hh; simpl; by rewrite ?Hh.
Qed.

Lemma strip_idemp s : strip (strip s) = strip s.
Proof. unfold strip. by rewrite lstrip_rstrip_lstrip, rstrip_idemp. Qed.

Section IntakeMore.
Variable cfg : Config.

Lemma validate_theme_bounds theme :
  validate_theme cfg theme = true →
  min_theme_length cfg ≤ Z.of_nat (String.length (strip theme)) ≤ max_theme_length cfg
  ∧ py_any bad_control (strip theme) = false.
Proof.
  unfold validate_theme. destruct theme as [|a s]; [done|].
  case_bool_decide as H1; [done|]. case_bool_decide as H2; [done|]. simpl.
  intros Hc%negb_true_iff. split; [lia | done].
Qed.

Lemma validate_theme_nonempty theme :
  theme ≠ "" →
  validate_theme cfg theme
  = (if bool_decide (Z.of_nat (String.length (strip theme)) < min_theme_length cfg)
        || bool_decide (max_theme_length cfg < Z.of_nat (String.length (strip theme)))
     then false else negb (py_any bad_control (strip theme))).
Proof. by destruct theme. Qed.

Lemma validate_theme_strip theme :
  1 ≤ min_theme_length cfg →
  validate_theme cfg theme = true → validate_theme cfg (strip theme) = true.
Proof.
  intros Hmin Hv. destruct (validate_theme_bounds theme Hv) as [Hlen Hc].
  rewrite validate_theme_nonempty.
  - rewrite strip_idemp.
    rewrite bool_decide_false by lia. rewrite bool_decide_false by lia. simpl.
    by rewrite Hc.
  - intros Hs. rewrite Hs in Hlen. simpl in Hlen. lia.
Qed.

(** What an accepted submission has checked and stored. *)
Lemma submit_request_accepted w user_id theme hour affection m w1 :
  faults w = [] →
  submit_request cfg user_id theme hour affection w = (Ok (true, m), w1) →
  validate_theme cfg theme = true ∧ hour ∈ valid_generation_hours
  ∧ m = MsgAccepted hour
  ∧ ∃ d1 user_data rid,
      healthy cfg w1 d1 ∧ env_of w1 = env_of w
      ∧ users d1 !! user_id = Some user_data
      ∧ requests user_data !! today (now w)
        = Some {| req_theme := Some (strip theme);
                  req_status := Some "pending";
                  req_requested_at := Some (isoformat (now w));
                  req_generation_hour := Some hour;
                  req_request_id := Some rid;
                  req_affection := Some affection;
                  req_processed_at := None;
                  req_error_message := None |}.
Proof.
  intros Hf. unfold submit_request, catch.
  destruct (validate_theme cfg theme) eqn:Hvt; simpl; [|done].
  unfold validate_generation_hour.
  case_bool_decide as Hvh; simpl; [|done].
  destruct (is_request_allowed_nofault cfg w user_id Hf)
    as [(b & m0 & wa & da & uda & Hall & Hha & Hua & Henv & Hid)
       | (_ & m0 & Hall)].
  2:{ unfold bind at 1. by rewrite Hall. }
  assert (Hnow : now wa = now w) by (by injection Henv).
  unfold bind at 1. rewrite Hall.
  destruct b; simpl; [|done].
  unfold bind at 1, datetime_now. unfold bind at 1.
  rewrite (_get_user_request_for_date_healthy cfg wa da user_id uda) by done.
  destruct (from_option request_truthy false (requests uda !! today (now wa)));
    [done|].
  unfold bind at 1. unfold bind at 1, uuid4.
  set (wb := set_uuid_counter (S (uuid_counter wa)) wa).
  assert (Hhb : healthy cfg wb da) by (destruct Hha; by split).
  unfold bind at 1.
  rewrite (get_user_data_healthy cfg wb da user_id uda) by done.
  unfold bind at 1.
  erewrite update_user_data_healthy by done.
  match goal with |- context [commit ?d wb] => set (dc := d) end.
  assert (Hhc : healthy cfg (commit dc wb) dc) by (apply healthy_commit, Hhb).
  assert (Huc : users dc !! user_id
                = Some (set_requests
                          (<[today (now wa) :=
                               {| req_theme := Some (strip theme);
                                  req_status := Some "pending";
                                  req_requested_at := Some (isoformat (now wa));
                                  req_generation_hour := Some hour;
                                  req_request_id := Some (pretty (uuid_counter wa));
                                  req_affection := Some affection;
                                  req_processed_at := None;
                                  req_error_message := None |}]> (requests uda)) uda)).
  { subst dc. simpl. apply lookup_insert_eq. }
  destruct (record_request_healthy cfg (commit dc wb) dc user_id _ Hhc Huc)
    as (udr & Hrec & Hreq & _).
  unfold bind at 1. rewrite Hrec. simpl.
  intros [= <- <-].
  split; [done|]. split; [done|]. split; [done|].
  eexists _, udr, _. split; [apply healthy_commit, Hhb|].
  split; [by rewrite !commit_env|].
  split; [simpl; apply lookup_insert_eq|].
  rewrite Hreq. simpl. rewrite <- Hnow. by rewrite lookup_insert_eq.
Qed.

Lemma get_user_request_status_healthy w d user_id user_data r theme status hour at_ :
  healthy cfg w d → users d !! user_id = Some user_data →
  requests user_data !! today (now w) = Some r →
  req_theme r = Some theme → req_status r = Some status →
  req_generation_hour r = Some hour → req_requested_at r = Some at_ →
  get_user_request_status cfg user_id None w
  = (Ok (inr {| has_request := true; st_date := today (now w);
                st_theme := Some theme; st_status := Some status;
                st_generation_hour := Some hour;
                st_requested_at := Some at_;
                st_processed_at := Some (req_processed_at r);
                st_error_message := Some (req_error_message r);
                can_request := false |}), w).
Proof.
  intros Hh Hu Hr H1 H2 H3 H4.
  unfold get_user_request_status, catch. unfold bind at 1. unfold bind at 1.
  unfold datetime_now, ret. unfold bind.
  rewrite (get_user_data_healthy cfg w d user_id user_data) by done.
  by rewrite Hr, H1, H2, H3, H4.
Qed.

End IntakeMore.

(** X8. What [submit_request] accepts is fit for the batch: the request
    stored for today holds the stripped theme, which passes
    [validate_theme] itself and has a length within the limits, and an
    hour that is one of the batch hours; the answer names that hour. *)
Theorem submit_request_stores_valid_request cfg user_id theme hour affection w m w1 :
  faults w = [] → 1 ≤ min_theme_length cfg →
  submit_request cfg user_id theme hour affection w = (Ok (true, m), w1) →
  ∃ r t,
    stored_request cfg w1 user_id (today (now w)) = Some r
    ∧ req_theme r = Some t ∧ t = strip theme
    ∧ validate_theme cfg t = true
    ∧ min_theme_length cfg ≤ Z.of_nat (String.length t) ≤ max_theme_length cfg
    ∧ req_generation_hour r = Some hour ∧ hour ∈ valid_generation_hours
    ∧ req_status r = Some "pending"
    ∧ m = MsgAccepted hour.
Proof.
  intros Hf Hmin Hsub.
  destruct (submit_request_accepted cfg w user_id theme hour affection m w1 Hf Hsub)
    as (Hvt & Hvh & Hm & d1 & ud & rid & Hh & _ & Hu & Hr).
  eexists _, (strip theme). split.
  { unfold stored_request, request_at. destruct Hh as [_ ->]. simpl.
    rewrite Hu. simpl. exact Hr. }
  split; [done|]. split; [done|].
  split; [by apply validate_theme_strip|].
  split; [by apply validate_theme_bounds|]. done.
Qed.

Lemma submit_request_stores_valid_request_witness :
  ∃ m w1,
    faults (ex_world ex_no_files [] []) = []
    ∧ 1 ≤ min_theme_length ex_cfg
    ∧ submit_request ex_cfg "u1" " spring memories " 2 None (ex_world ex_no_files [] [])
      = (Ok (true, m), w1)
    ∧ ∃ r, stored_request ex_cfg w1 "u1" "2025-01-01" = Some r
           ∧ req_theme r = Some "spring memories"
           ∧ validate_theme ex_cfg "spring memories" = true.
Proof.
  destruct (accepted_inv (submit_request ex_cfg "u1" " spring memories " 2 None
                            (ex_world ex_no_files [] [])))
    as (m & w1 & Hsub); [vm_compute; reflexivity|].
  assert (Hmin : 1 ≤ min_theme_length ex_cfg) by (vm_compute; discriminate).
  exists m, w1. split; [reflexivity|]. split; [exact Hmin|]. split; [exact Hsub|].
  destruct (submit_request_stores_valid_request ex_cfg "u1" " spring memories " 2 None
              (ex_world ex_no_files [] []) m w1 eq_refl Hmin Hsub)
    as (r & t & H1 & H2 & -> & H3 & _).
  exists r. split; [exact H1|]. split; [exact H2 | exact H3].
Defined.

(** X9. After an accepted submission [get_user_request_status] for today
    reports the request: [has_request] is true and [can_request] false,
    with the stripped theme, the hour, the status [pending] and no
    processing time or error yet; the query writes nothing. *)
Theorem submit_request_then_status cfg user_id theme hour affection w m w1 :
  faults w = [] →
  submit_request cfg user_id theme hour affection w = (Ok (true, m), w1) →
  ∃ st,
    get_user_request_status cfg user_id None w1 = (Ok (inr st), w1)
    ∧ has_request st = true ∧ can_request st = false
    ∧ st_date st = today (now w)
    ∧ st_theme st = Some (strip theme)
    ∧ st_status st = Some "pending"
    ∧ st_generation_hour st = Some hour
    ∧ st_requested_at st = Some (isoformat (now w))
    ∧ st_processed_at st = Some None
    ∧ st_error_message st = Some None.
Proof.
  intros Hf Hsub.
  destruct (submit_request_accepted cfg w user_id theme hour affection m w1 Hf Hsub)
    as (_ & _ & _ & d1 & ud & rid & Hh & Henv & Hu & Hr).
  assert (Hnow : now w1 = now w) by (by injection Henv).
  rewrite <- Hnow in Hr.
  eexists. split.
  { by apply (get_user_request_status_healthy cfg w1 d1 user_id ud _
                 (strip theme) "pending" hour (isoformat (now w1)) Hh Hu Hr). }
  simpl. by rewrite Hnow.
Qed.

Lemma submit_request_then_status_witness :
  ∃ m w1 st,
    faults (ex_world ex_no_files [] []) = []
    ∧ submit_request ex_cfg "u1" " spring memories " 2 None (ex_world ex_no_files [] [])
      = (Ok (true, m), w1)
    ∧ get_user_request_status ex_cfg "u1" None w1 = (Ok (inr st), w1)
    ∧ has_request st = true ∧ can_request st = false
    ∧ st_theme st = Some "spring memories".
Proof.
  destruct (accepted_inv (submit_request ex_cfg "u1" " spring memories " 2 None
                            (ex_world ex_no_files [] [])))
    as (m & w1 & Hsub); [vm_compute; reflexivity|].
  destruct (submit_request_then_status ex_cfg "u1" " spring memories " 2 None
              (ex_world ex_no_files [] []) m w1 eq_refl Hsub)
    as (st & H1 & H2 & H3 & _ & H4 & _).
  exists m, w1, st. split; [reflexivity|]. split; [exact Hsub|].
  split; [exact H1|]. split; [exact H2|]. split; [exact H3 | exact H4].
Defined.

(** X10. A request that [get_user_request_status] reports for today blocks
    every further submission of the user: whatever theme and hour are
    submitted, [submit_request] answers false and the store stays as it
    is. *)
Theorem reported_request_blocks_submit cfg user_id w st w' theme hour affection :
  faults w = [] →
  get_user_request_status cfg user_id None w = (Ok (inr st), w') →
  has_request st = true →
  can_request st = false
  ∧ ∃ m, submit_request cfg user_id theme hour affection w' = (Ok (false, m), w').
Proof.
  intros Hf Hst Hhas.
  unfold get_user_request_status, catch in Hst.
  unfold bind at 1 in Hst. unfold bind at 1 in Hst.
  unfold datetime_now, ret in Hst. unfold bind in Hst.
  destruct (get_user_data_nofault cfg w user_id Hf)
    as [(d & ud & w1 & Hget & Hh & Hu & Henv & _) | [_ Hget]];
    rewrite Hget in Hst; [|done].
  assert (Hnow : now w1 = now w) by (by injection Henv).
  destruct (requests ud !! today (now w)) as [r|] eqn:Hr.
  - destruct (req_theme r) as [th|] eqn:H1; [|done].
    destruct (req_status r) as [s|] eqn:H2; [|done].
    destruct (req_generation_hour r) as [h|] eqn:H3; [|done].
    destruct (req_requested_at r) as [a|] eqn:H4; [|done].
    injection Hst as <- <-. split; [done|].
    rewrite <- Hnow in Hr.
    apply (submit_request_rejects_duplicate cfg w1 d user_id ud r); [done..|].
    unfold request_truthy. rewrite H1. done.
  - injection Hst as <- <-. done.
Qed.

Lemma reported_request_blocks_submit_witness :
  ∃ st w',
    faults ex_store = []
    ∧ get_user_request_status ex_cfg "u1" None ex_store = (Ok (inr st), w')
    ∧ has_request st = true
    ∧ can_request st = false
    ∧ ∃ m, submit_request ex_cfg "u1" "another theme" 3 None w' = (Ok (false, m), w').
Proof.
  assert (Hst : get_user_request_status ex_cfg "u1" None ex_store
                = (Ok (inr {| has_request := true; st_date := "2025-01-01";
                              st_theme := Some "spring memories";
                              st_status := Some "pending";
                              st_generation_hour := Some 2;
                              st_requested_at := Some "2025-01-01T00:10:00";
                              st_processed_at := Some None;
                              st_error_message := Some None;
                              can_request := false |}), ex_store))
    by (vm_compute; reflexivity).
  eexists _, ex_store. split; [reflexivity|]. split; [exact Hst|].
  split; [reflexivity|].
  exact (reported_request_blocks_submit ex_cfg "u1" ex_store _ ex_store
           "another theme" 3 None eq_refl Hst eq_refl).
Defined.

(** ** Discovery of pending requests *)

Lemma scan_pending_hour us today_ hour l : ∀ acc res,
  scan_pending us today_ hour l acc = inr res →
  Forall (λ p, p_generation_hour p = hour) acc →
  Forall (λ p, p_generation_hour p = hour) res.
Proof.
  induction l as [|u l IH]; intros acc res; simpl.
  - by intros [= <-].
  - destruct (us !! u) as [ud|]; [|apply IH].
    unfold pending_entry.
    destruct (requests ud !! today_) as [r|]; [|apply IH].
    destruct (bool_decide _ && bool_decide _); [|apply IH].
    destruct (req_theme r); [|done].
    destruct (req_requested_at r); [|done].
    intros Hs Hacc. eapply IH; [done|].
    apply Forall_app. split; [done|]. by repeat constructor.
Qed.

Lemma discovered_hour d today_ hour :
  Forall (λ p, p_generation_hour p = hour) (discovered d today_ hour).
Proof.
  unfold discovered. case_bool_decide; [|done].
  destruct (scan_pending _ _ _ _ _) as [e|res] eqn:Hs; [done|].
  by eapply scan_pending_hour.
Qed.

Lemma discovered_valid_hour d today_ hour :
  discovered d today_ hour ≠ [] → hour ∈ valid_generation_hours.
Proof. unfold discovered. by case_bool_decide. Qed.

(** A pending request without a theme or a time of request stops the
    scan. *)
Lemma scan_pending_malformed us today_ hour l u ud r : ∀ acc,
  u ∈ l → us !! u = Some ud → requests ud !! today_ = Some r →
  pending_at hour r → req_theme r = None ∨ req_requested_at r = None →
  ∃ e, scan_pending us today_ hour l acc = inl e.
Proof.
  intros acc Hin Hu Hr [Hh Hs] Hbad. revert acc.
  induction l as [|u0 l IH]; intros acc; [by apply elem_of_nil in Hin|].
  simpl.
  assert (Hhere : ∃ e, pending_entry today_ hour u ud = inl e).
  { unfold pending_entry. rewrite Hr.
    rewrite !bool_decide_true by done. simpl.
    destruct Hbad as [-> | Hat]; [by eexists|].
    rewrite Hat. destruct (req_theme r); by eexists. }
  destruct (decide (u0 = u)) as [-> | Hne].
  - rewrite Hu. destruct Hhere as [e ->]. by eexists.
  - assert (Hin' : u ∈ l).
    { apply elem_of_cons in Hin as [-> | Hin]; done. }
    destruct (us !! u0) as [ud0|]; [|by apply IH].
    destruct (pending_entry today_ hour u0 ud0) as [e|[p|]]; [by eexists|by apply IH..].
Qed.

(** X11. What [get_pending_requests_by_hour] reports, when nothing fails:
    every entry stands for a request of today that is stored with status
    [pending] for that hour and with the reported theme, no user is
    reported twice, and a list that is not empty is for a batch hour and
    is complete. *)
Theorem get_pending_requests_by_hour_reports_pending cfg hour w pending w0 :
  faults w = [] →
  get_pending_requests_by_hour cfg hour w = (Ok pending, w0) →
  NoDup (p_user_id <$> pending)
  ∧ (∀ p, p ∈ pending →
       p_date p = today (now w) ∧ p_generation_hour p = hour
       ∧ ∃ r, stored_request cfg w0 (p_user_id p) (p_date p) = Some r
              ∧ req_status r = Some "pending"
              ∧ req_generation_hour r = Some hour
              ∧ req_theme r = Some (p_theme p))
  ∧ (pending ≠ [] →
       hour ∈ valid_generation_hours
       ∧ ∀ u r, stored_request cfg w0 u (today (now w)) = Some r →
                req_generation_hour r = Some hour → req_status r = Some "pending" →
                u ∈ p_user_id <$> pending).
Proof.
  intros Hf Hget.
  destruct (decide (pending = [])) as [-> | Hne].
  { split; [constructor|]. split; [|done]. intros p Hp. by apply elem_of_nil in Hp. }
  destruct (get_pending_requests_by_hour_nofault cfg hour w pending w0 Hf Hget Hne)
    as (d & Hh & Henv & ->).
  destruct (discovered_sound d (today (now w)) hour) as [Hnd Hall].
  pose proof (discovered_hour d (today (now w)) hour) as Hhour.
  rewrite Forall_forall in Hall. rewrite Forall_forall in Hhour.
  split; [done|]. split.
  - intros p Hp. destruct (Hall p Hp) as (Hdate & u & r & Hu & Hr & [Hgh Hst] & Hth).
    split; [done|]. split; [by apply Hhour|].
    exists r. unfold stored_request, request_at. destruct Hh as [_ ->]. simpl.
    rewrite Hu. simpl. by rewrite Hdate.
  - intros _. split; [by eapply discovered_valid_hour|].
    intros u r Hst Hgh Hpend.
    unfold stored_request, request_at in Hst. destruct Hh as [_ Hp].
    rewrite Hp in Hst. simpl in Hst.
    destruct (users d !! u) as [ud|] eqn:Hu; [|done]. simpl in Hst.
    by eapply (discovered_complete d _ hour u ud r).
Qed.

Lemma get_pending_requests_by_hour_reports_pending_witness :
  faults ex_store = []
  ∧ get_pending_requests_by_hour ex_cfg 2 ex_store
    = (Ok [ex_pending_request "u1"; ex_pending_request "u2"], ex_store)
  ∧ NoDup (p_user_id <$> [ex_pending_request "u1"; ex_pending_request "u2"])
  ∧ ∀ p, p ∈ [ex_pending_request "u1"; ex_pending_request "u2"] →
      p_date p = "2025-01-01" ∧ p_generation_hour p = 2.
Proof.
  assert (Hget : get_pending_requests_by_hour ex_cfg 2 ex_store
                 = (Ok [ex_pending_request "u1"; ex_pending_request "u2"], ex_store))
    by (vm_compute; reflexivity).
  split; [reflexivity|]. split; [exact Hget|].
  destruct (get_pending_requests_by_hour_reports_pending ex_cfg 2 ex_store _ ex_store
              eq_refl Hget) as (H1 & H2 & _).
  split; [exact H1|].
  intros p Hp. destruct (H2 p Hp) as (Ha & Hb & _). split; [exact Ha | exact Hb].
Defined.

(** X12. One malformed record hides a whole hour: if some user's request
    of today waits for the hour but lacks the key [theme] or
    [requested_at], the [KeyError] is swallowed, so that
    [get_pending_requests_by_hour] reports no request at all and the batch
    of that hour processes nothing, whatever else is pending. *)
Theorem malformed_request_hides_pending cfg hour w d user_id user_data r :
  healthy cfg w d →
  users d !! user_id = Some user_data →
  requests user_data !! today (now w) = Some r →
  req_generation_hour r = Some hour → req_status r = Some "pending" →
  req_theme r = None ∨ req_requested_at r = None →
  get_pending_requests_by_hour cfg hour w = (Ok [], w)
  ∧ process_pending_requests_for_hour cfg hour w
    = (Ok {| processed_count := 0; success_count := 0; failed_count := 0;
             errors := [] |}, w).
Proof.
  intros Hh Hu Hr Hgh Hst Hbad.
  assert (Hget : get_pending_requests_by_hour cfg hour w = (Ok [], w)).
  { rewrite (get_pending_requests_by_hour_healthy cfg w d hour Hh).
    f_equal. f_equal. unfold discovered. case_bool_decide; [|done].
    destruct (scan_pending_malformed (users d) (today (now w)) hour
                ((map_to_list (users d)).*1) user_id user_data r [])
      as [e ->]; [|done..].
    apply list_elem_of_fmap. exists (user_id, user_data).
    split; [done|]. by apply elem_of_map_to_list. }
  split; [done|].
  unfold process_pending_requests_for_hour, catch, bind. by rewrite Hget.
Qed.

Lemma malformed_request_hides_pending_witness :
  healthy ex_cfg ex_malformed_store ex_malformed_users
  ∧ users ex_malformed_users !! "u2" = Some (ex_user ex_request_no_theme)
  ∧ requests (ex_user ex_request_no_theme) !! "2025-01-01" = Some ex_request_no_theme
  ∧ get_pending_requests_by_hour ex_cfg 2 ex_malformed_store
    = (Ok [], ex_malformed_store).
Proof.
  assert (Hh : healthy ex_cfg ex_malformed_store ex_malformed_users)
    by (split; vm_compute; reflexivity).
  assert (Hu : users ex_malformed_users !! "u2" = Some (ex_user ex_request_no_theme))
    by (vm_compute; reflexivity).
  assert (Hr : requests (ex_user ex_request_no_theme) !! today (now ex_malformed_store)
               = Some ex_request_no_theme)
    by (vm_compute; reflexivity).
  split; [exact Hh|]. split; [exact Hu|]. split; [exact Hr|].
  exact (proj1 (malformed_request_hides_pending ex_cfg 2 ex_malformed_store
                  ex_malformed_users "u2" _ ex_request_no_theme
                  Hh Hu Hr eq_refl eq_refl (or_introl eq_refl))).
Defined.

(** X13. [get_all_pending_requests] on a store that can be read has one
    entry for each of the hours 2, 3 and 4, namely what
    [get_pending_requests_by_hour] reports for it, and no other entry; no
    user is listed under two hours. *)
Theorem get_all_pending_requests_by_hour cfg w d :
  healthy cfg w d →
  ∃ all_pending,
    get_all_pending_requests cfg w = (Ok all_pending, w)
    ∧ (∀ hour l, all_pending !! hour = Some l ↔
         hour ∈ valid_generation_hours
         ∧ get_pending_requests_by_hour cfg hour w = (Ok l, w))
    ∧ (∀ h1 h2 l1 l2 p1 p2,
         all_pending !! h1 = Some l1 → all_pending !! h2 = Some l2 →
         p1 ∈ l1 → p2 ∈ l2 → p_user_id p1 = p_user_id p2 → h1 = h2).
Proof.
  intros Hh.
  pose proof (λ hour, get_pending_requests_by_hour_healthy cfg w d hour Hh) as Hget.
  set (t := today (now w)) in *.
  exists (<[4 := discovered d t 4]>
            (<[3 := discovered d t 3]> (<[2 := discovered d t 2]> ∅))).
  assert (Hlook : ∀ hour l,
    (<[4 := discovered d t 4]>
       (<[3 := discovered d t 3]>
          (<[2 := discovered d t 2]> (∅ : gmap Z (list PendingRequest))))) !! hour
    = Some l ↔ hour ∈ valid_generation_hours ∧ l = discovered d t hour).
  { intros hour l. unfold valid_generation_hours.
    rewrite !lookup_insert_Some, lookup_empty, !elem_of_cons, elem_of_nil.
    split.
    - intros [[<- <-] | [? [[<- <-] | [? [[<- <-] | [? ?]]]]]]; try done; auto.
    - intros [[-> | [-> | [-> | []]]] ->]; auto 10. }
  split.
  { unfold get_all_pending_requests, catch, valid_generation_hours. simpl.
    unfold bind, ret. rewrite Hget. simpl. rewrite Hget. simpl. by rewrite Hget. }
  split.
  - intros hour l. rewrite Hlook, Hget. split.
    + by intros [? ->].
    + intros [? [= ->]]. done.
  - intros h1 h2 l1 l2 p1 p2 [_ ->]%Hlook [_ ->]%Hlook Hp1 Hp2 Heq.
    destruct (discovered_sound d t h1) as [_ Hall1].
    destruct (discovered_sound d t h2) as [_ Hall2].
    rewrite Forall_forall in Hall1. rewrite Forall_forall in Hall2.
    destruct (Hall1 p1 Hp1) as (_ & u1 & r1 & Hu1 & Hr1 & [Hg1 _] & _).
    destruct (Hall2 p2 Hp2) as (_ & u2 & r2 & Hu2 & Hr2 & [Hg2 _] & _).
    rewrite Heq in Hu1. rewrite Hu1 in Hu2. injection Hu2 as <-.
    rewrite Hr1 in Hr2. injection Hr2 as <-.
    rewrite Hg1 in Hg2. by injection Hg2.
Qed.

Lemma get_all_pending_requests_by_hour_witness :
  healthy ex_cfg ex_store ex_three_users
  ∧ ∃ all_pending,
      get_all_pending_requests ex_cfg ex_store = (Ok all_pending, ex_store)
      ∧ (∀ hour l, all_pending !! hour = Some l ↔
           hour ∈ valid_generation_hours
           ∧ get_pending_requests_by_hour ex_cfg hour ex_store = (Ok l, ex_store)).
Proof.
  assert (Hh : healthy ex_cfg ex_store ex_three_users)
    by (split; vm_compute; reflexivity).
  split; [exact Hh|].
  destruct (get_all_pending_requests_by_hour ex_cfg ex_store ex_three_users Hh)
    as (all_pending & H1 & H2 & _).
  exists all_pending. split; [exact H1 | exact H2].
Defined.

(** ** The user manager: the history *)

Lemma py_slice_from_last {A} (k : Z) (l : list A) :
  0 < k → k < Z.of_nat (length l) →
  Z.of_nat (length (py_slice_from (- k) l)) = k
  ∧ py_slice_from (- k) l `suffix_of` l
  ∧ last (py_slice_from (- k) l) = last l.
Proof.
  intros Hk Hlen. unfold py_slice_from.
  assert (Hneg : (- k <? 0) = true) by (apply Z.ltb_lt; lia).
  rewrite Hneg.
  set (n := Z.to_nat (Z.max 0 (Z.of_nat (length l) + - k))).
  assert (Hn : (n < length l)%nat) by (subst n; lia).
  split; [rewrite length_drop; subst n; lia|].
  split; [apply suffix_drop|].
  rewrite <- (take_drop n l) at 2. rewrite last_app.
  destruct (last (drop n l)) eqn:Hl; [done|].
  apply last_None in Hl. apply drop_nil_inv in Hl. lia.
Qed.

(** X14. [update_user_history] keeps the history bounded: with
    MAX_HISTORY_ENTRIES above 0, the stored history has at most that many
    entries after every call, it is a suffix of the old history followed
    by the new entry, and the new entry, stamped with the current time, is
    its last one. Letters, requests and counters are left alone. *)
Theorem update_user_history_bounds_history cfg user_id interaction w d user_data :
  healthy cfg w d → users d !! user_id = Some user_data →
  0 < max_history_entries cfg →
  ∃ w' user_data' hist entry,
    update_user_history cfg user_id interaction w = (Ok true, w')
    ∧ stored_user cfg w' user_id = Some user_data'
    ∧ history user_data' = Some hist
    ∧ Z.of_nat (length hist) ≤ max_history_entries cfg
    ∧ hist `suffix_of` (default [] (history user_data) ++ [entry])%list
    ∧ last hist = Some entry
    ∧ h_timestamp entry = isoformat (now w)
    ∧ h_type entry = default "unknown" (int_type interaction)
    ∧ letters user_data' = letters user_data
    ∧ requests user_data' = requests user_data
    ∧ rate_limits user_data' = rate_limits user_data.
Proof.
  intros Hh Hu Hmax. unfold update_user_history, catch, bind.
  rewrite (get_user_data_healthy cfg w d user_id user_data) by done.
  unfold datetime_now, uuid4.
  erewrite update_user_data_healthy by (by apply healthy_set_uuid).
  match goal with
  | |- context [commit (set_users (<[_ := ?u]> _) _) ?w0] =>
      set (ud' := u); set (w1 := w0)
  end.
  set (d' := set_users (<[user_id := ud']> (users d)) d).
  assert (Hh' : healthy cfg (commit d' w1) d').
  { apply healthy_commit. apply Hh. }
  set (entry := {| h_timestamp := isoformat (now w);
                   h_type := default "unknown" (int_type interaction);
                   h_action := default "" (int_action interaction);
                   h_session_id := default "" (int_session_id interaction);
                   h_entry_id := pretty (uuid_counter w) |}).
  set (hist0 := (default [] (history user_data) ++ [entry])%list).
  eexists (commit d' w1), ud', _, entry. split; [done|].
  split; [rewrite (stored_user_healthy cfg _ d') by done; simpl; apply lookup_insert_eq|].
  split; [done|].
  fold entry. fold hist0.
  case_bool_decide as Hlong.
  - destruct (py_slice_from_last (max_history_entries cfg) hist0 Hmax Hlong)
      as (Hlen & Hsuf & Hlast).
    split; [lia|]. split; [done|]. split; [|done].
    rewrite Hlast. apply last_snoc.
  - split; [lia|]. split; [done|]. split; [apply last_snoc | done].
Qed.

Lemma update_user_history_bounds_history_witness :
  healthy ex_cfg ex_store ex_three_users
  ∧ users ex_three_users !! "u1" = Some (ex_user (ex_request "pending" 2))
  ∧ 0 < max_history_entries ex_cfg
  ∧ ∃ w' user_data' hist,
      update_user_history ex_cfg "u1"
        {| int_type := Some "app_access"; int_action := None; int_session_id := None;
           int_date := None; int_theme := None; int_status := None;
           int_generated_at := None |} ex_store = (Ok true, w')
      ∧ stored_user ex_cfg w' "u1" = Some user_data'
      ∧ history user_data' = Some hist
      ∧ Z.of_nat (length hist) ≤ max_history_entries ex_cfg.
Proof.
  assert (Hh : healthy ex_cfg ex_store ex_three_users)
    by (split; vm_compute; reflexivity).
  assert (Hu : users ex_three_users !! "u1" = Some (ex_user (ex_request "pending" 2)))
    by (vm_compute; reflexivity).
  assert (Hm : 0 < max_history_entries ex_cfg) by reflexivity.
  split; [exact Hh|]. split; [exact Hu|]. split; [exact Hm|].
  destruct (update_user_history_bounds_history ex_cfg "u1"
              {| int_type := Some "app_access"; int_action := None;
                 int_session_id := None; int_date := None; int_theme := None;
                 int_status := None; int_generated_at := None |}
              ex_store ex_three_users _ Hh Hu Hm)
    as (w' & ud' & hist & entry & H1 & H2 & H3 & H4 & _).
  exists w', ud', hist.
  split; [exact H1|]. split; [exact H2|]. split; [exact H3 | exact H4].
Defined.

(** ** The batch scheduler *)

Section BatchMore.
Variable cfg : Config.

Lemma no_raise_record_batch_error b h s e m : no_raise (_record_batch_error cfg b h s e m).
Proof. apply no_raise_catch. intros ?. apply no_raise_ret. Qed.

Lemma no_raise_run_hourly_batch hour : no_raise (run_hourly_batch cfg hour).
Proof.
  unfold run_hourly_batch.
  apply no_raise_bind; [apply no_raise_datetime_now|]. intros start_time.
  destruct (negb _).
  - apply no_raise_bind; [apply no_raise_datetime_now|]. intros ?. apply no_raise_ret.
  - apply no_raise_catch. intros e.
    apply no_raise_bind; [apply no_raise_datetime_now|]. intros ?.
    apply no_raise_bind; [apply no_raise_record_batch_error|]. intros ?.
    apply no_raise_ret.
Qed.


End BatchMore.

(** X15. [run_hourly_batch] never raises: whatever fails inside, the caller
    gets a result object. Its key [success] is a boolean, a result with
    [success = False] carries the key [error], and for an hour that is no
    batch hour the call changes nothing at all. *)
Theorem run_hourly_batch_never_raises cfg hour w :
  (∀ e w', run_hourly_batch cfg hour w ≠ (Raise e, w'))
  ∧ (∀ res w', run_hourly_batch cfg hour w = (Ok res, w') →
       ∃ b, res !! "success" = Some (VBool b)
            ∧ (b = false → is_Some (res !! "error")))
  ∧ (hour ∉ available_hours →
       ∃ res, run_hourly_batch cfg hour w = (Ok res, w)
              ∧ res !! "success" = Some (VBool false)).
Proof.
  split; [apply no_raise_run_hourly_batch|]. split.
  - intros res w'. unfold run_hourly_batch, bind at 1, datetime_now.
    destruct (negb _).
    + unfold bind, ret. intros [= <- <-]. exists false.
      split; [by rewrite lookup_insert_eq|]. intros _.
      rewrite lookup_insert_ne by done. by rewrite lookup_insert_eq.
    + intros [Hok | (e & w1 & _ & Hh)]%catch_Ok_inv.
      * apply bind_Ok_inv in Hok as ([] & w1 & _ & Hok).
        apply bind_Ok_inv in Hok as (result & w2 & _ & Hok).
        apply bind_Ok_inv in Hok as (end_time & w3 & _ & Hok).
        apply bind_Ok_inv in Hok as ([] & w4 & _ & Hok).
        injection Hok as <- <-. exists true.
        split; [by rewrite lookup_insert_eq | done].
      * apply bind_Ok_inv in Hh as (end_time & w2 & _ & Hh).
        apply bind_Ok_inv in Hh as ([] & w3 & _ & Hh).
        injection Hh as <- <-. exists false.
        split; [by rewrite lookup_insert_eq|]. intros _.
        rewrite lookup_insert_ne by done. by rewrite lookup_insert_eq.
  - intros Hhour. unfold run_hourly_batch, bind, datetime_now, ret.
    rewrite bool_decide_false by done. simpl. eexists. split; [done|].
    by rewrite lookup_insert_eq.
Qed.



(** ** The fan-out: the semaphore *)

Lemma in_flight_insert js i old s :
  js !! i = Some old →
  (in_flight (<[i := s]> js) + (if is_started old then 1 else 0)
   = in_flight js + (if is_started s then 1 else 0))%nat.
Proof.
  intros Hi. assert (Hlt : (i < length js)%nat) by (by eapply lookup_lt_Some).
  rewrite insert_take_drop by done.
  rewrite <- (take_drop_middle js i old Hi) at 3.
  unfold in_flight. rewrite !filter_app, !filter_cons, !length_app.
  destruct (is_started old) eqn:Ho, (is_started s) eqn:Hs;
    repeat case_decide; try done; simpl; lia.
Qed.

(** X17. The semaphore bounds the generations in flight: however the event
    loop interleaves the jobs of a fan-out, at no point do more than
    MAX_CONCURRENT_GENERATIONS jobs hold the semaphore, and no job is
    added or lost. *)
Theorem semaphore_bounds_jobs_in_flight cfg reqs evs w js w' :
  0 ≤ max_concurrent_generations cfg →
  for_each evs (replicate (length reqs) NotStarted) (apply_event cfg reqs) w
  = (Ok js, w') →
  Z.of_nat (in_flight js) ≤ max_concurrent_generations cfg
  ∧ length js = length reqs.
Proof.
  intros Hmax Hrun.
  eapply (for_each_inv
            (λ js, Z.of_nat (in_flight js) ≤ max_concurrent_generations cfg
                   ∧ length js = length reqs)); [| |exact Hrun].
  - clear. intros js ev w js' w' [Hb Hl] Hev.
    split; [|by rewrite (apply_event_length cfg reqs js ev w js' w' Hev)].
    destruct ev as [i|i]; simpl in Hev.
    + destruct (js !! i) as [[|h|r]|] eqn:Hi; try (by injection Hev as <- <-).
      destruct (reqs !! i) as [p|]; [|by injection Hev as <- <-].
      case_bool_decide as Hroom; [|by injection Hev as <- <-].
      apply bind_Ok_inv in Hev as (s & w1 & _ & Hev). injection Hev as <- <-.
      pose proof (in_flight_insert js i NotStarted s Hi) as Hins. simpl in Hins.
      destruct (is_started s); lia.
    + destruct (js !! i) as [[|h|r]|] eqn:Hi; try (by injection Hev as <- <-).
      destruct (reqs !! i) as [p|]; [|by injection Hev as <- <-].
      apply bind_Ok_inv in Hev as (s & w1 & Hfin & Hev). injection Hev as <- <-.
      pose proof (in_flight_insert js i (Started h) s Hi) as Hins. simpl in Hins.
      assert (Hs : is_started s = false).
      { unfold task_finish, catch in Hfin.
        destruct (bind _ _ w) as [[a|e|] w2] eqn:Hb2; [|by injection Hfin as <- | done].
        apply bind_Ok_inv in Hb2 as (r & w3 & _ & Hb2).
        injection Hb2 as <- <-. by injection Hfin as <-. }
      rewrite Hs in Hins. lia.
  - split; [|apply length_replicate].
    rewrite in_flight_none; [lia|].
    intros i h Hi. apply lookup_replicate in Hi as [? _]. done.
Qed.

Lemma semaphore_bounds_jobs_in_flight_witness :
  ∃ js w',
    0 ≤ max_concurrent_generations ex_cfg
    ∧ for_each [EvStart 1; EvStart 0; EvFinish 1]
        (replicate (length [ex_pending_request "u1"; ex_pending_request "u2"]) NotStarted)
        (apply_event ex_cfg [ex_pending_request "u1"; ex_pending_request "u2"])
        ex_batch_world
      = (Ok js, w')
    ∧ Z.of_nat (in_flight js) ≤ max_concurrent_generations ex_cfg.
Proof.
  destruct (returns_inv
              (for_each [EvStart 1; EvStart 0; EvFinish 1]
                 (replicate (length [ex_pending_request "u1"; ex_pending_request "u2"])
                    NotStarted)
                 (apply_event ex_cfg [ex_pending_request "u1"; ex_pending_request "u2"])
                 ex_batch_world))
    as (js & w' & Hrun); [vm_compute; reflexivity|].
  assert (Hm : 0 ≤ max_concurrent_generations ex_cfg) by (vm_compute; discriminate).
  exists js, w'. split; [exact Hm|]. split; [exact Hrun|].
  exact (proj1 (semaphore_bounds_jobs_in_flight ex_cfg _ _ ex_batch_world js w' Hm Hrun)).
Defined.

(** ** The system record is out of reach of the user operations *)

Section Frame.
Variable cfg : Config.
Variable Q : World → Prop.

Lemma keeps_ret {A} (a : A) : keeps Q (ret a).
Proof. by intros w o w' HQ [= <- <-]. Qed.

Lemma keeps_raise {A} e : keeps Q (@raise A e).
Proof. by intros w o w' HQ [= <- <-]. Qed.

Lemma keeps_hang {A} : keeps Q (@hang A).
Proof. by intros w o w' HQ [= <- <-]. Qed.

Lemma keeps_datetime_now : keeps Q datetime_now.
Proof. by intros w o w' HQ [= <- <-]. Qed.

Lemma keeps_get_world : keeps Q get_world.
Proof. by intros w o w' HQ [= <- <-]. Qed.

Lemma keeps_bind {A B} (m : M A) (k : A → M B) :
  keeps Q m → (∀ a, keeps Q (k a)) → keeps Q (bind m k).
Proof.
  intros Hm Hk w o w' HQ. unfold bind.
  destruct (m w) as [[a|e|] w1] eqn:Hmw.
  - apply (Hk a). by eapply Hm.
  - intros [= <- <-]. by eapply Hm.
  - intros [= <- <-]. by eapply Hm.
Qed.

Lemma keeps_catch {A} (m : M A) h :
  keeps Q m → (∀ e, keeps Q (h e)) → keeps Q (catch m h).
Proof.
  intros Hm Hh w o w' HQ. unfold catch.
  destruct (m w) as [[a|e|] w1] eqn:Hmw.
  - intros [= <- <-]. by eapply Hm.
  - apply (Hh e). by eapply Hm.
  - intros [= <- <-]. by eapply Hm.
Qed.

Lemma keeps_for_each {A B} (body : B → A → M B) l : ∀ acc,
  (∀ acc x, keeps Q (body acc x)) → keeps Q (for_each l acc body).
Proof.
  induction l as [|x l IH]; intros acc Hbody; simpl; [apply keeps_ret|].
  apply keeps_bind; [apply Hbody|]. intros acc'. by apply IH.
Qed.

End Frame.

Ltac keeps_step :=
  first
    [ assumption
    | apply keeps_ret | apply keeps_raise | apply keeps_hang
    | apply keeps_datetime_now | apply keeps_get_world
    | solve [auto with keeps]
    | apply keeps_bind; [|intros ?; cbv beta]
    | apply keeps_catch; [|intros ?; cbv beta]
    | apply keeps_for_each; intros ? ?; cbv beta
    | match goal with
      | |- keeps _ (match ?x with _ => _ end) => destruct x
      end ].

Ltac keeps_go := repeat keeps_step.

Create HintDb keeps.

Section SystemFrame.
Variable cfg : Config.
Variable s : SystemRecord.

Lemma system_safe_ext w w' :
  fs w' = fs w → now w' = now w → faults w' = faults w →
  system_safe cfg s w → system_safe cfg s w'.
Proof.
  intros Hfs Hnow Hfl [Hr (d & Hp & Hs)]. split; [by apply (renames_ok_ext w)|].
  exists d. by rewrite (persisted_ext cfg w w' Hfs Hnow).
Qed.

Lemma keeps_uuid4 : keeps (system_safe cfg s) uuid4.
Proof. intros w o w' HQ [= <- <-]. by eapply system_safe_ext. Qed.

Lemma load_data_system w o w' :
  system_safe cfg s w → load_data cfg w = (o, w') →
  system_safe cfg s w' ∧ ∀ d, o = Ok d → persisted cfg w' = Some d ∧ now w' = now w.
Proof.
  intros [Hr (d & Hp & Hs)] Hload.
  destruct (load_data_cases cfg w d Hp) as (w1 & Hfs & Hnow & Hr1 & [Hok | [e He]]).
  - rewrite Hok in Hload. injection Hload as <- <-.
    assert (Hp1 : persisted cfg w1 = Some d) by (by rewrite (persisted_ext cfg w w1)).
    split; [split; [auto|by exists d]|].
    by intros d' [= <-].
  - rewrite He in Hload. injection Hload as <- <-.
    assert (Hp1 : persisted cfg w1 = Some d) by (by rewrite (persisted_ext cfg w w1)).
    split; [split; [auto|by exists d]|]. done.
Qed.

Lemma keeps_load_data : keeps (system_safe cfg s) (load_data cfg).
Proof. intros w o w' HQ Hload. by destruct (load_data_system w o w' HQ Hload). Qed.

Lemma save_users_system us w o w' d :
  renames_ok w → persisted cfg w = Some d → system d = s →
  save_data cfg (set_users us d) w = (o, w') → system_safe cfg s w'.
Proof.
  intros Hr Hp Hs Hsave.
  destruct (save_data_cases cfg w (set_users us d) Hr)
    as (w1 & Hnow & Hr1 & [[Hok Hp1] | (e & He & Hp1)]).
  - rewrite Hok in Hsave. injection Hsave as <- <-. split; [done|]. by eexists.
  - rewrite He in Hsave. injection Hsave as <- <-. split; [done|].
    exists d. by rewrite Hp1.
Qed.

Lemma keeps_update_user_data user_id user_data :
  keeps (system_safe cfg s) (update_user_data cfg user_id user_data).
Proof.
  intros w o w' HQ. unfold update_user_data, bind.
  destruct (load_data cfg w) as [[d|e|] w1] eqn:Hload;
    destruct (load_data_system w _ w1 HQ Hload) as [HQ1 Hd].
  - destruct (Hd d eq_refl) as [Hp1 _]. destruct HQ1 as [Hr1 (d' & Hp' & Hs')].
    rewrite Hp1 in Hp'. injection Hp' as <-.
    intros Hsave. by eapply save_users_system.
  - by intros [= <- <-].
  - by intros [= <- <-].
Qed.

Lemma keeps_get_user_data user_id : keeps (system_safe cfg s) (get_user_data cfg user_id).
Proof.
  intros w o w' HQ. unfold get_user_data. unfold bind at 1.
  destruct (load_data cfg w) as [[d|e|] w1] eqn:Hload;
    destruct (load_data_system w _ w1 HQ Hload) as [HQ1 Hd].
  - destruct (Hd d eq_refl) as [Hp1 _]. destruct HQ1 as [Hr1 (d' & Hp' & Hs')].
    rewrite Hp1 in Hp'. injection Hp' as <-.
    destruct (users d !! user_id) as [ud|].
    + intros [= <- <-]. split; [done|]. by exists d.
    + unfold bind at 1, datetime_now. unfold bind.
      destruct (save_data cfg _ w1) as [[[]|e|] w2] eqn:Hsave;
        intros [= <- <-]; by eapply save_users_system.
  - by intros [= <- <-].
  - by intros [= <- <-].
Qed.

#[local] Hint Resolve keeps_uuid4 keeps_load_data keeps_update_user_data
  keeps_get_user_data : keeps.

Lemma keeps_get_all_users : keeps (system_safe cfg s) (get_all_users cfg).
Proof. unfold get_all_users. keeps_go. Qed.

Lemma keeps_check_daily_request_limit u :
  keeps (system_safe cfg s) (check_daily_request_limit cfg u).
Proof. unfold check_daily_request_limit. keeps_go. Qed.

Lemma keeps_check_api_call_limit u :
  keeps (system_safe cfg s) (check_api_call_limit cfg u).
Proof. unfold check_api_call_limit. keeps_go. Qed.

#[local] Hint Resolve keeps_get_all_users keeps_check_daily_request_limit
  keeps_check_api_call_limit : keeps.

Lemma keeps_is_request_allowed u : keeps (system_safe cfg s) (is_request_allowed cfg u).
Proof. unfold is_request_allowed, _calculate_remaining_time. keeps_go. Qed.

Lemma keeps_record_request u : keeps (system_safe cfg s) (record_request cfg u).
Proof. unfold record_request. keeps_go. Qed.

Lemma keeps_record_api_call u t : keeps (system_safe cfg s) (record_api_call cfg u t).
Proof. unfold record_api_call. keeps_go. Qed.

Lemma keeps_get_user_request_for_date u date :
  keeps (system_safe cfg s) (_get_user_request_for_date cfg u date).
Proof. unfold _get_user_request_for_date. keeps_go. Qed.

#[local] Hint Resolve keeps_is_request_allowed keeps_record_request
  keeps_get_user_request_for_date : keeps.

Lemma keeps_submit_request u theme hour affection :
  keeps (system_safe cfg s) (submit_request cfg u theme hour affection).
Proof. unfold submit_request. keeps_go. Qed.

Lemma keeps_mark_request_processed u date status :
  keeps (system_safe cfg s) (mark_request_processed cfg u date status).
Proof. unfold mark_request_processed. keeps_go. Qed.

Lemma keeps_mark_request_failed u date msg :
  keeps (system_safe cfg s) (mark_request_failed cfg u date msg).
Proof. unfold mark_request_failed. keeps_go. Qed.

Lemma keeps_get_pending_requests_by_hour hour :
  keeps (system_safe cfg s) (get_pending_requests_by_hour cfg hour).
Proof. unfold get_pending_requests_by_hour. keeps_go. Qed.

Lemma keeps_get_user_profile u : keeps (system_safe cfg s) (get_user_profile cfg u).
Proof. unfold get_user_profile. keeps_go. Qed.

Lemma keeps_update_user_history u i : keeps (system_safe cfg s) (update_user_history cfg u i).
Proof. unfold update_user_history. keeps_go. Qed.

Lemma keeps_save_generated_letter u date theme content md :
  keeps (system_safe cfg s) (_save_generated_letter cfg u date theme content md).
Proof. unfold _save_generated_letter. keeps_go. Qed.

#[local] Hint Resolve keeps_mark_request_processed keeps_mark_request_failed
  keeps_get_pending_requests_by_hour keeps_get_user_profile
  keeps_update_user_history keeps_save_generated_letter : keeps.

Lemma keeps_job_failed p e : keeps (system_safe cfg s) (job_failed cfg p e).
Proof. unfold job_failed. keeps_go. Qed.

#[local] Hint Resolve keeps_job_failed : keeps.

Lemma keeps_job_start p : keeps (system_safe cfg s) (job_start cfg p).
Proof. unfold job_start. keeps_go. Qed.

Lemma keeps_job_finish p h : keeps (system_safe cfg s) (job_finish cfg p h).
Proof. unfold job_finish. keeps_go. Qed.

#[local] Hint Resolve keeps_job_start keeps_job_finish : keeps.

Lemma keeps_apply_event reqs js ev : keeps (system_safe cfg s) (apply_event cfg reqs js ev).
Proof. unfold apply_event, task_start, task_finish. keeps_go. Qed.

#[local] Hint Resolve keeps_apply_event : keeps.

Lemma keeps_gather reqs : keeps (system_safe cfg s) (gather cfg reqs).
Proof. unfold gather, finish_started, start_rest. keeps_go. Qed.

#[local] Hint Resolve keeps_gather : keeps.

Lemma keeps_process_pending hour :
  keeps (system_safe cfg s) (process_pending_requests_for_hour cfg hour).
Proof. unfold process_pending_requests_for_hour. keeps_go. Qed.

End SystemFrame.

(** X18. The system record is out of reach of the user operations:
    whatever open, read or write fails, as long as no rename fails, and
    however they end, a submission, the marking of a request, the
    recording of a request or of an API call and the processing of the
    pending requests of an hour leave the batch runs, the time of the last
    backup and the creation time in the stored document as they are. *)
Theorem user_operations_keep_system_record cfg s w :
  renames_ok w →
  system_is cfg s w →
  (∀ user_id theme hour affection o w',
     submit_request cfg user_id theme hour affection w = (o, w') → system_is cfg s w')
  ∧ (∀ user_id date status o w',
       mark_request_processed cfg user_id date status w = (o, w') → system_is cfg s w')
  ∧ (∀ user_id date msg o w',
       mark_request_failed cfg user_id date msg w = (o, w') → system_is cfg s w')
  ∧ (∀ user_id o w', record_request cfg user_id w = (o, w') → system_is cfg s w')
  ∧ (∀ user_id api_type o w',
       record_api_call cfg user_id api_type w = (o, w') → system_is cfg s w')
  ∧ (∀ hour o w',
       process_pending_requests_for_hour cfg hour w = (o, w') → system_is cfg s w').
Proof.
  intros Hr Hs. assert (HQ : system_safe cfg s w) by done.
  split; [intros u theme hour a o w' H;
          by destruct (keeps_submit_request cfg s u theme hour a w o w' HQ H)|].
  split; [intros u date st o w' H;
          by destruct (keeps_mark_request_processed cfg s u date st w o w' HQ H)|].
  split; [intros u date msg o w' H;
          by destruct (keeps_mark_request_failed cfg s u date msg w o w' HQ H)|].
  split; [intros u o w' H; by destruct (keeps_record_request cfg s u w o w' HQ H)|].
  split; [intros u t o w' H; by destruct (keeps_record_api_call cfg s u t w o w' HQ H)|].
  intros hour o w' H. by destruct (keeps_process_pending cfg s hour w o w' HQ H).
Qed.

(** The store of [ex_three_users] under a fault script whose third and
    fifth entries fail. *)
Lemma user_operations_keep_system_record_witness :
  renames_ok (set_faults [ex_ok; ex_ok; ex_io_fails; ex_ok; ex_io_fails] ex_batch_world)
  ∧ system_is ex_cfg (system ex_default)
      (set_faults [ex_ok; ex_ok; ex_io_fails; ex_ok; ex_io_fails] ex_batch_world)
  ∧ ∀ o w',
      process_pending_requests_for_hour ex_cfg 2
        (set_faults [ex_ok; ex_ok; ex_io_fails; ex_ok; ex_io_fails] ex_batch_world)
      = (o, w') →
      system_is ex_cfg (system ex_default) w'.
Proof.
  assert (Hr : renames_ok
                 (set_faults [ex_ok; ex_ok; ex_io_fails; ex_ok; ex_io_fails]
                    ex_batch_world)) by (repeat constructor).
  assert (HQ : system_is ex_cfg (system ex_default)
                 (set_faults [ex_ok; ex_ok; ex_io_fails; ex_ok; ex_io_fails]
                    ex_batch_world)).
  { exists ex_three_users. split; vm_compute; reflexivity. }
  split; [exact Hr|]. split; [exact HQ|].
  destruct (user_operations_keep_system_record ex_cfg (system ex_default)
              _ Hr HQ) as (_ & _ & _ & _ & _ & H).
  exact (H 2).
Defined.

(** ** The record of a batch run *)

Section RunRecord.
Variable cfg : Config.

Lemma _record_batch_start_healthy batch_id hour start_time w d :
  healthy cfg w d →
  let run := {| br_hour := hour; br_start_time := isoformat start_time;
                br_status := BatchRunning; br_end_time := None;
                br_execution_time := None; br_processed_count := None;
                br_success_count := None; br_failed_count := None;
                br_error_count := None; br_error := None |} in
  let d' := set_system (set_batch_runs (<[batch_id := run]> (batch_runs (system d)))
                          (system d)) d in
  _record_batch_start cfg batch_id hour start_time w = (Ok tt, commit d' w).
Proof.
  intros Hh. unfold _record_batch_start, catch, bind.
  rewrite (get_system_info_healthy cfg w d Hh).
  by erewrite update_system_info_healthy by done.
Qed.

Lemma _record_batch_completion_run batch_id hour start_time end_time result w d run :
  healthy cfg w d → batch_runs (system d) !! batch_id = Some run →
  let run' := {| br_hour := br_hour run; br_start_time := br_start_time run;
                 br_status := BatchCompleted;
                 br_end_time := Some (isoformat end_time);
                 br_execution_time :=
                   Some (second_of_day end_time - second_of_day start_time);
                 br_processed_count := Some (processed_count result);
                 br_success_count := Some (success_count result);
                 br_failed_count := Some (failed_count result);
                 br_error_count := Some (Z.of_nat (length (errors result)));
                 br_error := br_error run |} in
  let d' := set_system (set_batch_runs (<[batch_id := run']> (batch_runs (system d)))
                          (system d)) d in
  _record_batch_completion cfg batch_id hour start_time end_time result w
  = (Ok tt, commit d' w).
Proof.
  intros Hh Hrun. unfold _record_batch_completion, catch, bind.
  rewrite (get_system_info_healthy cfg w d Hh). rewrite Hrun.
  by erewrite update_system_info_healthy by done.
Qed.

End RunRecord.

(** X19. The stored record of a batch run agrees with the result that
    [run_hourly_batch] returns: after a run for a batch hour on a store
    where nothing fails, the document holds under the returned [batch_id] a
    run of that hour with status [completed] and with the returned counts;
    the records of the other runs and the rest of the system record are as
    before. *)
Theorem run_hourly_batch_records_run cfg hour w d :
  healthy cfg w d → 0 < max_concurrent_generations cfg → hour ∈ available_hours →
  ∃ res w' d' run result,
    run_hourly_batch cfg hour w = (Ok res, w')
    ∧ healthy cfg w' d'
    ∧ res !! "batch_id" = Some (VStr (stamp (now w) +:+ "_" +:+ pretty hour))
    ∧ batch_runs (system d') !! (stamp (now w) +:+ "_" +:+ pretty hour) = Some run
    ∧ br_status run = BatchCompleted ∧ br_hour run = hour
    ∧ br_start_time run = isoformat (now w)
    ∧ res !! "processed_count" = Some (VInt (processed_count result))
    ∧ br_processed_count run = Some (processed_count result)
    ∧ res !! "success_count" = Some (VInt (success_count result))
    ∧ br_success_count run = Some (success_count result)
    ∧ res !! "failed_count" = Some (VInt (failed_count result))
    ∧ br_failed_count run = Some (failed_count result)
    ∧ res !! "errors" = Some (VErrors (errors result))
    ∧ br_error_count run = Some (Z.of_nat (length (errors result)))
    ∧ (∀ b, b ≠ stamp (now w) +:+ "_" +:+ pretty hour →
            batch_runs (system d') !! b = batch_runs (system d) !! b)
    ∧ last_backup (system d') = last_backup (system d)
    ∧ created_at (system d') = created_at (system d).
Proof.
  intros Hh Hc Hhour. unfold run_hourly_batch, bind at 1, datetime_now.
  rewrite bool_decide_eq_true_2 by done. simpl. unfold catch.
  set (bid := stamp (now w) +:+ "_" +:+ pretty hour).
  pose proof (_record_batch_start_healthy cfg bid hour (now w) w d Hh) as Hstart.
  cbv zeta in Hstart.
  match type of Hstart with _ = (_, commit ?d0 _) => set (db := d0) in * end.
  assert (Hhb : healthy cfg (commit db w) db) by apply healthy_commit, Hh.
  unfold bind at 1. rewrite Hstart.
  destruct (process_pending_healthy cfg hour (commit db w) db Hc Hhb)
    as (results & wc & dc & Hrun & Hhc & Henvc & _).
  match type of Hrun with _ = (Ok ?r, _) => set (result := r) in * end.
  assert (Hsys : system dc = system db).
  { destruct (keeps_process_pending cfg (system db) hour (commit db w) (Ok result) wc)
      as (_ & dc' & Hp & Hs); [|done|].
    { split; [|by exists db; split; [apply Hhb|]].
      unfold renames_ok. destruct Hhb as [-> _]. constructor. }
    destruct Hhc as [_ Hpc]. rewrite Hpc in Hp. by injection Hp as <-. }
  assert (Hnowc : now wc = now w) by (by injection Henvc).
  unfold bind at 1. rewrite Hrun.
  unfold bind at 1, datetime_now. cbv beta iota.
  assert (Hlook : batch_runs (system dc) !! bid
                  = Some {| br_hour := hour; br_start_time := isoformat (now w);
                            br_status := BatchRunning; br_end_time := None;
                            br_execution_time := None; br_processed_count := None;
                            br_success_count := None; br_failed_count := None;
                            br_error_count := None; br_error := None |}).
  { rewrite Hsys. subst db. simpl. apply lookup_insert_eq. }
  pose proof (_record_batch_completion_run cfg bid hour (now w) (now wc) result
                wc dc _ Hhc Hlook) as Hcompl.
  cbv zeta in Hcompl.
  match type of Hcompl with _ = (_, commit ?d0 _) => set (d1 := d0) in * end.
  unfold bind at 1. rewrite Hcompl. unfold ret.
  eexists _, (commit d1 wc), d1, _, result. split; [done|].
  split; [apply healthy_commit, Hhc|].
  clearbody result.
  split; [by rewrite lookup_insert_ne, lookup_insert_eq|].
  split; [subst d1; simpl; apply lookup_insert_eq|].
  simpl.
  split; [done|]. split; [done|]. split; [done|].
  split; [by rewrite !lookup_insert_ne, lookup_insert_eq by done|].
  split; [done|].
  split; [by rewrite !lookup_insert_ne, lookup_insert_eq by done|].
  split; [done|].
  split; [by rewrite !lookup_insert_ne, lookup_insert_eq by done|].
  split; [done|].
  split; [by rewrite !lookup_insert_ne, lookup_insert_eq by done|].
  split; [done|].
  split.
  { intros b Hb. rewrite lookup_insert_ne by done. rewrite Hsys. subst db. simpl.
    by rewrite lookup_insert_ne. }
  by rewrite Hsys.
Qed.

Lemma run_hourly_batch_records_run_witness :
  healthy ex_cfg ex_batch_world ex_three_users
  ∧ 0 < max_concurrent_generations ex_cfg
  ∧ 2 ∈ available_hours
  ∧ ∃ res w' d' run,
      run_hourly_batch ex_cfg 2 ex_batch_world = (Ok res, w')
      ∧ healthy ex_cfg w' d'
      ∧ res !! "batch_id" = Some (VStr "20250101_020000_2")
      ∧ batch_runs (system d') !! "20250101_020000_2" = Some run
      ∧ br_status run = BatchCompleted ∧ br_hour run = 2.
Proof.
  assert (Hh : healthy ex_cfg ex_batch_world ex_three_users)
    by (split; vm_compute; reflexivity).
  assert (Hc : 0 < max_concurrent_generations ex_cfg) by reflexivity.
  assert (Hhour : 2 ∈ available_hours) by (unfold available_hours; apply list_elem_of_here).
  split; [exact Hh|]. split; [exact Hc|]. split; [exact Hhour|].
  destruct (run_hourly_batch_records_run ex_cfg 2 ex_batch_world ex_three_users
              Hh Hc Hhour)
    as (res & w' & d' & run & result & H1 & H2 & H3 & H4 & H5 & H6 & _).
  exists res, w', d', run.
  split; [exact H1|]. split; [exact H2|]. split; [exact H3|]. split; [exact H4|].
  split; [exact H5 | exact H6].
Defined.

(** ** The background processor: one batch per hour and day *)

Section HourlyCheckFacts.
Variable cfg : Config.
Variable cb : Callbacks.

Lemma no_raise_call_guarded c : no_raise (call_guarded c).
Proof.
  destruct c as [f|]; simpl; [|apply no_raise_ret].
  apply no_raise_catch. intros ?. apply no_raise_ret.
Qed.

Lemma executed_on_true lt hour date :
  executed_on lt hour date = true → lt !! hour = Some (Some date) ∧ date ≠ "".
Proof.
  unfold executed_on. destruct (lt !! hour) as [[t|]|]; [|done..].
  intros [Hne Heq]%andb_true_iff. apply String.eqb_eq in Heq as ->.
  split; [done|]. intros ->. done.
Qed.

Lemma executed_on_insert lt hour date :
  date ≠ "" → executed_on (<[hour := Some date]> lt) hour date = true.
Proof.
  intros Hne. unfold executed_on. rewrite lookup_insert_eq.
  rewrite String.eqb_refl, andb_true_r. apply negb_true_iff.
  by apply String.eqb_neq.
Qed.

Lemma _check_and_run_batch_skip lt hour date w :
  executed_on lt hour date = true →
  _check_and_run_batch cfg cb lt hour date w = (Ok lt, w).
Proof. intros He. unfold _check_and_run_batch, catch. by rewrite He. Qed.

End HourlyCheckFacts.

(** X20. [_check_and_run_batch] runs the batch of an hour at most once per
    date: after a call for [(hour, date)] has returned, the hour is logged
    under that date, the log of the other hours is untouched, and every
    further call for the same hour and date returns at once, without
    running a batch and without touching the store. *)
Theorem _check_and_run_batch_once cfg cb last_execution_times hour date w lt' w' :
  date ≠ "" →
  _check_and_run_batch cfg cb last_execution_times hour date w = (Ok lt', w') →
  lt' !! hour = Some (Some date)
  ∧ (∀ h, h ≠ hour → lt' !! h = last_execution_times !! h)
  ∧ _check_and_run_batch cfg cb lt' hour date w' = (Ok lt', w').
Proof.
  intros Hdate Hrun. unfold _check_and_run_batch in Hrun.
  apply catch_Ok_inv in Hrun as [Hok | (e & w1 & Hraise & _)].
  - destruct (executed_on last_execution_times hour date) eqn:Hex.
    + injection Hok as <- <-.
      split; [by apply executed_on_true in Hex as [? _]|]. split; [done|].
      by apply _check_and_run_batch_skip.
    + apply bind_Ok_inv in Hok as (result & w1 & _ & Hok).
      apply bind_Ok_inv in Hok as ([] & w2 & _ & Hok).
      injection Hok as <- <-.
      split; [apply lookup_insert_eq|].
      split; [intros h Hh; by rewrite lookup_insert_ne|].
      apply _check_and_run_batch_skip. by apply executed_on_insert.
  - exfalso. revert Hraise.
    destruct (executed_on last_execution_times hour date); [done|].
    apply no_raise_bind; [apply no_raise_run_hourly_batch|]. intros result.
    apply no_raise_bind; [apply no_raise_call_guarded|]. intros ?.
    apply no_raise_ret.
Qed.

Lemma _check_and_run_batch_once_witness :
  ∃ lt' w',
    "2025-01-01" ≠ ""
    ∧ _check_and_run_batch ex_cfg ex_callbacks ex_never_run 2 "2025-01-01" ex_batch_world
      = (Ok lt', w')
    ∧ lt' !! 2 = Some (Some "2025-01-01")
    ∧ _check_and_run_batch ex_cfg ex_callbacks lt' 2 "2025-01-01" w' = (Ok lt', w').
Proof.
  destruct (returns_inv (_check_and_run_batch ex_cfg ex_callbacks ex_never_run 2
                           "2025-01-01" ex_batch_world))
    as (lt' & w' & Hrun); [vm_compute; reflexivity|].
  assert (Hd : "2025-01-01" ≠ "") by discriminate.
  exists lt', w'. split; [exact Hd|]. split; [exact Hrun|].
  destruct (_check_and_run_batch_once ex_cfg ex_callbacks ex_never_run 2 "2025-01-01"
              ex_batch_world lt' w' Hd Hrun) as (H1 & _ & H2).
  split; [exact H1 | exact H2].
Defined.

(** X21. [force_run_batch] refuses an hour that is no target hour without
    running anything; for a target hour it returns the result of
    [run_hourly_batch], never the dict of its [except] clause, and logs
    the hour under the current date, so that the regular check of that
    hour and date does not run the batch again. *)
Theorem force_run_batch_logs_hour cfg cb last_execution_times hour w r lt' w' :
  force_run_batch cfg last_execution_times hour w = (Ok (r, lt'), w') →
  (∀ e, r ≠ ForcedError e)
  ∧ (hour ∉ target_hours →
       r = ForcedInvalidHour hour target_hours
       ∧ lt' = last_execution_times ∧ w' = w)
  ∧ (hour ∈ target_hours →
       (∃ result, r = ForcedResult result
                  ∧ run_hourly_batch cfg hour w = (Ok result, w'))
       ∧ (today (now w') ≠ "" →
          _check_and_run_batch cfg cb lt' hour (today (now w')) w' = (Ok lt', w'))).
Proof.
  intros Hrun. unfold force_run_batch in Hrun.
  apply catch_Ok_inv in Hrun as [Hok | (e & w1 & Hraise & _)].
  - case_bool_decide as Hhour; simpl in Hok.
    + apply bind_Ok_inv in Hok as (result & w1 & Hbatch & Hok).
      injection Hok as <- <- <-.
      split; [done|]. split; [done|]. intros _.
      split; [by exists result|]. intros Hdate.
      apply _check_and_run_batch_skip. by apply executed_on_insert.
    + injection Hok as <- <- <-. split; [done|]. split; done.
  - exfalso. revert Hraise.
    destruct (negb _); [done|].
    apply no_raise_bind; [apply no_raise_run_hourly_batch|]. intros result.
    apply no_raise_bind; [apply no_raise_datetime_now|]. intros ?.
    apply no_raise_ret.
Qed.

Lemma force_run_batch_logs_hour_witness :
  ∃ r lt' w',
    force_run_batch ex_cfg ex_never_run 2 ex_batch_world = (Ok (r, lt'), w')
    ∧ (∀ e, r ≠ ForcedError e)
    ∧ (2 ∈ target_hours → today (now w') ≠ "" →
       _check_and_run_batch ex_cfg ex_callbacks lt' 2 (today (now w')) w' = (Ok lt', w')).
Proof.
  destruct (returns_inv (force_run_batch ex_cfg ex_never_run 2 ex_batch_world))
    as ([r lt'] & w' & Hrun); [vm_compute; reflexivity|].
  exists r, lt', w'. split; [exact Hrun|].
  destruct (force_run_batch_logs_hour ex_cfg ex_callbacks ex_never_run 2 ex_batch_world
              r lt' w' Hrun) as (H1 & _ & H2).
  split; [exact H1|]. intros Hh. exact (proj2 (H2 Hh)).
Defined.

(** ** The integration object *)

(** X22. The integration object is marked initialized only while its
    processor runs: [initialize] and [shutdown] keep that, whatever the
    platform does; [initialize] answers true exactly when the object is
    initialized afterwards, and [shutdown] answers true exactly when it is
    not; [initialize] on an initialized object and [shutdown] on one that
    is not initialized change nothing. *)
Theorem integration_initialized_while_running s :
  initialized_runs s →
  (∀ env, initialized_runs (initialize env s).2
          ∧ ((initialize env s).1 = is_initialized (initialize env s).2))
  ∧ (∀ env, initialized_runs (shutdown env s).2
            ∧ ((shutdown env s).1 = negb (is_initialized (shutdown env s).2)))
  ∧ (is_initialized s = true → ∀ env, initialize env s = (true, s))
  ∧ (is_initialized s = false → ∀ env, shutdown env s = (true, s)).
Proof.
  intros Hs. destruct s as [obp [|]].
  - destruct (Hs eq_refl) as (bp & Hbp & Hrun & Hen). simpl in Hbp. subst obp.
    destruct bp as [en run sev th]. simpl in Hrun, Hen. subst en run.
    split; [intros env; split; [exact Hs | done]|].
    split; [|by split].
    intros [alive jr alive']. unfold shutdown, stop_background_processing. simpl.
    destruct th as [[started]|]; simpl.
    + destruct started, alive; simpl; try (split; [by intros [=]|done]).
      destruct jr; simpl.
      * split; [|done]. intros _. eexists. by split.
      * destruct alive'; simpl; [|split; [by intros [=]|done]].
        split; [|done]. intros _. eexists. by split.
    + split; [by intros [=]|done].
  - split.
    { intros [raises en [tr sr]]. unfold initialize, start_background_processing. simpl.
      destruct raises; simpl; [by split|].
      destruct en; simpl; [|by split].
      destruct tr; simpl; [by split|].
      destruct sr; simpl; [by split|].
      split; [|done]. intros _. eexists. by split. }
    split; [|by split].
    intros env. split; [exact Hs | done].
Qed.

Lemma integration_initialized_while_running_witness :
  initialized_runs {| background_processor := Some (ex_runner true);
                      is_initialized := true |}
  ∧ ∀ env, initialize env {| background_processor := Some (ex_runner true);
                             is_initialized := true |}
           = (true, {| background_processor := Some (ex_runner true);
                       is_initialized := true |}).
Proof.
  assert (Hs : initialized_runs {| background_processor := Some (ex_runner true);
                                   is_initialized := true |}).
  { intros _. exists (ex_runner true). split; [reflexivity|]. split; reflexivity. }
  split; [exact Hs|].
  destruct (integration_initialized_while_running _ Hs) as (_ & _ & H & _).
  exact (H eq_refl).
Defined.

(** ** Housekeeping: deleting what is older than the cutoff *)

Lemma delete_before_lookup {A} cutoff_str (m : gmap string A) k :
  delete_before cutoff_str m !! k = if str_lt k cutoff_str then None else m !! k.
Proof.
  unfold delete_before. destruct (str_lt k cutoff_str) eqn:Hk.
  - apply map_lookup_filter_None. right. intros x _. simpl. by rewrite Hk.
  - destruct (m !! k) as [x|] eqn:Hm.
    + by apply map_lookup_filter_Some.
    + apply map_lookup_filter_None. by left.
Qed.

Lemma count_before_nonneg {A} cutoff_str (m : gmap string A) :
  0 ≤ count_before cutoff_str m.
Proof. unfold count_before. lia. Qed.

Lemma count_before_zero {A} cutoff_str (m : gmap string A) :
  count_before cutoff_str m = 0 ↔ none_before cutoff_str m.
Proof.
  unfold count_before, none_before.
  rewrite <- Nat2Z.inj_0, Nat2Z.inj_iff, map_size_empty_iff, map_empty.
  split.
  - intros Hnone k [x Hx].
    specialize (Hnone k). apply map_lookup_filter_None in Hnone as [Hn | Hn];
      [congruence|].
    specialize (Hn x Hx). simpl in Hn. by destruct (str_lt k cutoff_str).
  - intros Hall k. apply map_lookup_filter_None.
    destruct (m !! k) as [x|] eqn:Hx; [|by left]. right.
    intros y _. simpl. rewrite Hall; [done|]. by exists x.
Qed.

Lemma delete_before_none {A} cutoff_str (m : gmap string A) :
  none_before cutoff_str m → delete_before cutoff_str m = m.
Proof.
  intros Hnone. apply map_eq. intros k. rewrite delete_before_lookup.
  destruct (m !! k) as [x|] eqn:Hx.
  - rewrite Hnone; [done|]. by exists x.
  - by destruct (str_lt k cutoff_str).
Qed.

Lemma delete_before_none_before {A} cutoff_str (m : gmap string A) :
  none_before cutoff_str (delete_before cutoff_str m).
Proof.
  intros k [x Hx]. rewrite delete_before_lookup in Hx.
  by destruct (str_lt k cutoff_str).
Qed.

Lemma py_sum_nonneg l : Forall (λ x, 0 ≤ x) l → 0 ≤ py_sum l.
Proof. induction 1 as [|x l Hx _ IH]; simpl; lia. Qed.

Lemma py_sum_zero l :
  Forall (λ x, 0 ≤ x) l → py_sum l = 0 → Forall (λ x, x = 0) l.
Proof.
  induction 1 as [|x l Hx Hl IH]; simpl; [done|].
  intros Hsum. pose proof (py_sum_nonneg l Hl).
  constructor; [lia|]. apply IH. lia.
Qed.

Lemma py_sum_positive l x :
  Forall (λ x, 0 ≤ x) l → x ∈ l → 0 < x → 0 < py_sum l.
Proof.
  intros Hl Hin Hx. induction Hl as [|y l Hy Hl IH]; [by apply elem_of_nil in Hin|].
  simpl. pose proof (py_sum_nonneg l Hl).
  apply elem_of_cons in Hin as [-> | Hin]; [lia|]. specialize (IH Hin). lia.
Qed.

Section CleanupFacts.
Variable cfg : Config.
Variable days_ago : Clock → Z → string.

Lemma old_letters_nonneg cutoff_str (us : gmap string UserData) :
  Forall (λ x, 0 ≤ x)
    ((λ kv : string * UserData, count_before cutoff_str (letters kv.2))
       <$> map_to_list us).
Proof.
  apply Forall_forall. intros x [kv [-> _]]%list_elem_of_fmap.
  apply count_before_nonneg.
Qed.

Lemma cleanup_old_data_healthy days w d :
  healthy cfg w d →
  let cutoff_str := days_ago (now w) days in
  let deleted_count :=
    py_sum ((λ kv : string * UserData, count_before cutoff_str (letters kv.2))
              <$> map_to_list (users d)) in
  cleanup_old_data cfg days_ago days w
  = (Ok deleted_count,
     if bool_decide (0 < deleted_count)
     then commit (set_users (cleanup_user cutoff_str <$> users d) d) w
     else w).
Proof.
  intros Hh. unfold cleanup_old_data, catch. unfold bind at 1, datetime_now.
  unfold bind at 1. rewrite (load_data_healthy cfg w d Hh). cbv zeta.
  case_bool_decide; [|done].
  unfold bind. by rewrite save_data_ok by apply Hh.
Qed.

End CleanupFacts.

(** X23. [AsyncStorageManager.cleanup_old_data] counts letters only, and
    saves only when it has counted one: as long as no stored letter is
    older than the cutoff, the call returns 0 and writes nothing, so that
    requests and counters older than the cutoff stay in the store. *)
Theorem cleanup_old_data_saves_for_letters_only cfg days_ago days w d :
  healthy cfg w d →
  (∀ u user_data, users d !! u = Some user_data →
     none_before (days_ago (now w) days) (letters user_data)) →
  cleanup_old_data cfg days_ago days w = (Ok 0, w)
  ∧ ∀ u date, stored_request cfg w u date = request_at d u date.
Proof.
  intros Hh Hnone.
  split; [|intros u date; unfold stored_request; by destruct Hh as [_ ->]].
  rewrite (cleanup_old_data_healthy cfg days_ago days w d Hh). cbv zeta.
  assert (Hz : py_sum ((λ kv : string * UserData,
                          count_before (days_ago (now w) days) (letters kv.2))
                         <$> map_to_list (users d)) = 0).
  { assert (Hall : Forall (λ x, x = 0)
                     ((λ kv : string * UserData,
                         count_before (days_ago (now w) days) (letters kv.2))
                        <$> map_to_list (users d))).
    { apply Forall_forall. intros x [[u ud] [-> Hin]]%list_elem_of_fmap.
      apply elem_of_map_to_list in Hin. simpl.
      apply count_before_zero. by eapply Hnone. }
    clear -Hall. induction Hall as [|x l -> _ IH]; simpl; [done | lia]. }
  rewrite Hz. by rewrite bool_decide_false by lia.
Qed.

Lemma cleanup_old_data_saves_for_letters_only_witness :
  healthy ex_cfg ex_old_request_store ex_old_request_doc
  ∧ (∀ u user_data, users ex_old_request_doc !! u = Some user_data →
       none_before (ex_days_ago (now ex_old_request_store) 90) (letters user_data))
  ∧ cleanup_old_data ex_cfg ex_days_ago 90 ex_old_request_store
    = (Ok 0, ex_old_request_store)
  ∧ str_lt "2024-06-01" (ex_days_ago (now ex_old_request_store) 90) = true
  ∧ stored_request ex_cfg ex_old_request_store "u1" "2024-06-01"
    = Some (ex_request "completed" 2).
Proof.
  assert (Hh : healthy ex_cfg ex_old_request_store ex_old_request_doc)
    by (split; vm_compute; reflexivity).
  assert (Hnone : ∀ u user_data, users ex_old_request_doc !! u = Some user_data →
            none_before (ex_days_ago (now ex_old_request_store) 90) (letters user_data)).
  { intros u ud Hu k [x Hx]. exfalso. revert Hx.
    assert (Hl : letters ud = ∅).
    { unfold ex_old_request_doc, ex_doc in Hu. simpl in Hu.
      apply lookup_singleton_Some in Hu as [_ <-]. done. }
    by rewrite Hl, lookup_empty. }
  split; [exact Hh|]. split; [exact Hnone|].
  destruct (cleanup_old_data_saves_for_letters_only ex_cfg ex_days_ago 90
              ex_old_request_store ex_old_request_doc Hh Hnone) as [H1 H2].
  split; [exact H1|]. split; [reflexivity|].
  rewrite H2. vm_compute. reflexivity.
Defined.

(** X24. Once a stored letter is older than the cutoff,
    [AsyncStorageManager.cleanup_old_data] returns the number of such
    letters and saves the cleaned document: in every user record the
    letters, requests and counters dated before the cutoff are gone and
    all the others are as before; profiles, histories, the set of users
    and the system record are untouched. *)
Theorem cleanup_old_data_deletes_before_cutoff cfg days_ago days w d u0 user_data0 k0 :
  healthy cfg w d →
  users d !! u0 = Some user_data0 → is_Some (letters user_data0 !! k0) →
  str_lt k0 (days_ago (now w) days) = true →
  let cutoff_str := days_ago (now w) days in
  ∃ n w' d',
    cleanup_old_data cfg days_ago days w = (Ok n, w') ∧ healthy cfg w' d'
    ∧ 0 < n
    ∧ n = py_sum ((λ kv : string * UserData, count_before cutoff_str (letters kv.2))
                    <$> map_to_list (users d))
    ∧ system d' = system d
    ∧ ∀ u, match users d !! u with
           | None => users d' !! u = None
           | Some user_data =>
               ∃ user_data', users d' !! u = Some user_data'
                 ∧ kept_from cutoff_str (letters user_data') (letters user_data)
                 ∧ kept_from cutoff_str (requests user_data') (requests user_data)
                 ∧ kept_from cutoff_str (default ∅ (daily_requests (rate_limits user_data')))
                        (default ∅ (daily_requests (rate_limits user_data)))
                 ∧ kept_from cutoff_str (default ∅ (api_calls (rate_limits user_data')))
                        (default ∅ (api_calls (rate_limits user_data)))
                 ∧ profile user_data' = profile user_data
                 ∧ history user_data' = history user_data
           end.
Proof.
  intros Hh Hu0 Hk0 Hold cutoff_str.
  pose proof (cleanup_old_data_healthy cfg days_ago days w d Hh) as Hrun.
  cbv zeta in Hrun. fold cutoff_str in Hrun.
  set (n := py_sum _) in Hrun.
  assert (Hn : 0 < n).
  { apply (py_sum_positive _ (count_before cutoff_str (letters user_data0)));
      [apply old_letters_nonneg| |].
    - apply list_elem_of_fmap. exists (u0, user_data0). split; [done|].
      by apply elem_of_map_to_list.
    - pose proof (count_before_nonneg cutoff_str (letters user_data0)).
      destruct (decide (count_before cutoff_str (letters user_data0) = 0)) as [Hz|];
        [|lia].
      apply count_before_zero in Hz. specialize (Hz k0 Hk0).
      unfold cutoff_str in Hz. congruence. }
  rewrite bool_decide_true in Hrun by done.
  eexists n, _, _. split; [exact Hrun|].
  split; [apply healthy_commit, Hh|]. split; [done|]. split; [done|].
  split; [done|].
  intros u. simpl. rewrite lookup_fmap.
  destruct (users d !! u) as [ud|]; simpl; [|done].
  eexists. split; [done|]. simpl.
  split; [intros k; apply delete_before_lookup|].
  split; [intros k; apply delete_before_lookup|].
  split.
  { intros k. destruct (daily_requests (rate_limits ud)); simpl;
      [apply delete_before_lookup|]. rewrite !lookup_empty. by destruct (str_lt k cutoff_str). }
  split; [|done].
  intros k. destruct (api_calls (rate_limits ud)); simpl;
    [apply delete_before_lookup|]. rewrite !lookup_empty. by destruct (str_lt k cutoff_str).
Qed.

Lemma cleanup_old_data_deletes_before_cutoff_witness :
  healthy ex_cfg ex_letters_store ex_letters_doc
  ∧ users ex_letters_doc !! "u1" = Some ex_user_letters
  ∧ is_Some (letters ex_user_letters !! "2024-06-01")
  ∧ str_lt "2024-06-01" (ex_days_ago (now ex_letters_store) 90) = true
  ∧ ∃ n w' d',
      cleanup_old_data ex_cfg ex_days_ago 90 ex_letters_store = (Ok n, w')
      ∧ healthy ex_cfg w' d' ∧ 0 < n.
Proof.
  assert (Hh : healthy ex_cfg ex_letters_store ex_letters_doc)
    by (split; vm_compute; reflexivity).
  assert (Hu : users ex_letters_doc !! "u1" = Some ex_user_letters)
    by (vm_compute; reflexivity).
  assert (Hk : is_Some (letters ex_user_letters !! "2024-06-01"))
    by (eexists; vm_compute; reflexivity).
  assert (Ho : str_lt "2024-06-01" (ex_days_ago (now ex_letters_store) 90) = true)
    by reflexivity.
  split; [exact Hh|]. split; [exact Hu|]. split; [exact Hk|]. split; [exact Ho|].
  destruct (cleanup_old_data_deletes_before_cutoff ex_cfg ex_days_ago 90
              ex_letters_store ex_letters_doc "u1" ex_user_letters "2024-06-01"
              Hh Hu Hk Ho) as (n & w' & d' & H1 & H2 & H3 & _).
  exists n, w', d'. split; [exact H1|]. split; [exact H2 | exact H3].
Defined.

(** ** Loops that rewrite the user records one by one *)

Lemma swept_nil f us : swept f [] us = us.
Proof.
  apply map_eq. intros k. unfold swept. rewrite map_lookup_imap.
  by destruct (us !! k).
Qed.

Lemma swept_snoc f visited us k v :
  us !! k = Some v →
  <[k := f v]> (swept f visited us) = swept f (visited ++ [k]) us.
Proof.
  intros Hk. apply map_eq. intros k'. unfold swept.
  destruct (decide (k' = k)) as [-> | Hne].
  - rewrite lookup_insert_eq, map_lookup_imap, Hk. simpl.
    rewrite bool_decide_true; [done|]. apply elem_of_app. right. by left.
  - rewrite lookup_insert_ne by done. rewrite !map_lookup_imap.
    destruct (us !! k') as [v'|]; simpl; [|done].
    f_equal. rewrite (bool_decide_ext (k' ∈ (visited ++ [k])%list) (k' ∈ visited)); [done|].
    rewrite elem_of_app, list_elem_of_singleton. tauto.
Qed.

Lemma swept_all f us :
  swept f ((map_to_list us).*1) us = f <$> us.
Proof.
  apply map_eq. intros k. unfold swept. rewrite map_lookup_imap, lookup_fmap.
  destruct (us !! k) as [v|] eqn:Hk; simpl; [|done].
  rewrite bool_decide_true; [done|].
  apply list_elem_of_fmap. exists (k, v). split; [done|]. by apply elem_of_map_to_list.
Qed.

Lemma set_users_same d : set_users (users d) d = d.
Proof. by destruct d. Qed.

Section SweepFacts.
Variable cfg : Config.

(** A loop over the users whose body, on a store that can be read, adds
    [g] of the user's record to the count and leaves [f] of the record in
    the store. *)
Lemma sweep_loop (f : UserData → UserData) (g : UserData → Z)
    (P : UserData → Prop) (body : Z → string → M Z) (d0 : Doc) :
  (∀ user_data, 0 ≤ g user_data) →
  (∀ acc x w dd user_data,
     0 ≤ acc → healthy cfg w dd → users dd !! x = Some user_data → P user_data →
     ∃ w', body acc x w = (Ok (acc + g user_data), w')
           ∧ healthy cfg w' (set_users (<[x := f user_data]> (users dd)) dd)) →
  ∀ kvs visited acc w,
    NoDup (visited ++ kvs.*1) →
    (∀ k v, (k, v) ∈ kvs → users d0 !! k = Some v ∧ P v) →
    0 ≤ acc →
    healthy cfg w (set_users (swept f visited (users d0)) d0) →
    ∃ w', for_each (kvs.*1) acc body w
          = (Ok (acc + py_sum ((λ kv, g kv.2) <$> kvs)), w')
          ∧ healthy cfg w'
              (set_users (swept f (visited ++ kvs.*1) (users d0)) d0).
Proof.
  intros Hg Hbody kvs. induction kvs as [|[k v] kvs IH]; intros visited acc w Hnd Hin Hacc Hh.
  - simpl. exists w. rewrite Z.add_0_r, app_nil_r. done.
  - rewrite fmap_cons in Hnd. rewrite fmap_cons. cbn [fst] in *.
    destruct (Hin k v) as [Hk HP]; [by left|].
    assert (Hkv : k ∉ visited).
    { intros Hv. apply NoDup_app in Hnd as (_ & Hdisj & _).
      apply (Hdisj k Hv). by left. }
    destruct (Hbody acc k w _ v Hacc Hh) as (w1 & Hb & Hh1); [|done|].
    { cbn [users set_users]. unfold swept. rewrite map_lookup_imap, Hk.
      cbn [mbind option_bind]. by rewrite bool_decide_false. }
    cbn [users set_users] in Hh1. rewrite swept_snoc in Hh1 by done.
    assert (Hset : set_users (swept f (visited ++ [k]) (users d0))
                     (set_users (swept f visited (users d0)) d0)
                   = set_users (swept f (visited ++ [k]) (users d0)) d0) by done.
    rewrite Hset in Hh1.
    destruct (IH (visited ++ [k])%list (acc + g v) w1) as (w2 & Hrest & Hh2).
    + by rewrite <- app_assoc.
    + intros k' v' Hin'. apply Hin. by right.
    + specialize (Hg v). lia.
    + done.
    + exists w2.
      change (for_each (k :: kvs.*1) acc body w)
        with ((let! acc' := body acc k in for_each (kvs.*1) acc' body) w).
      unfold bind. rewrite Hb, Hrest.
      rewrite <- app_assoc in Hh2. split; [|done]. f_equal. f_equal.
      rewrite fmap_cons. unfold py_sum. simpl. lia.
Qed.

(** The loop over all users of the stored document. *)
Lemma sweep_all_users (f : UserData → UserData) (g : UserData → Z)
    (P : UserData → Prop) (body : Z → string → M Z) w d :
  (∀ user_data, 0 ≤ g user_data) →
  (∀ acc x w dd user_data,
     0 ≤ acc → healthy cfg w dd → users dd !! x = Some user_data → P user_data →
     ∃ w', body acc x w = (Ok (acc + g user_data), w')
           ∧ healthy cfg w' (set_users (<[x := f user_data]> (users dd)) dd)) →
  healthy cfg w d →
  (∀ u user_data, users d !! u = Some user_data → P user_data) →
  ∃ w', for_each ((map_to_list (users d)).*1) 0 body w
        = (Ok (py_sum ((λ kv, g kv.2) <$> map_to_list (users d))), w')
        ∧ healthy cfg w' (set_users (f <$> users d) d).
Proof.
  intros Hg Hbody Hh HP.
  destruct (sweep_loop f g P body d Hg Hbody (map_to_list (users d)) [] 0 w)
    as (w' & Hrun & Hh').
  - simpl. apply NoDup_fst_map_to_list.
  - intros k v Hin%elem_of_map_to_list. split; [done|]. by eapply HP.
  - done.
  - by rewrite swept_nil, set_users_same.
  - exists w'. simpl in *. by rewrite swept_all in Hh'.
Qed.

Lemma set_requests_same user_data : set_requests (requests user_data) user_data = user_data.
Proof. by destruct user_data. Qed.

Lemma healthy_insert_same w dd x user_data :
  healthy cfg w dd → users dd !! x = Some user_data →
  healthy cfg w (set_users (<[x := user_data]> (users dd)) dd).
Proof. intros Hh Hx. by rewrite insert_id, set_users_same. Qed.

End SweepFacts.

(** X25. [cleanup_old_requests] on a store where nothing fails deletes, in
    every user record, exactly the requests dated before the cutoff and
    returns their number; the requests from the cutoff on, the letters,
    the counters, the profiles, the set of users and the system record
    are as before. *)
Theorem cleanup_old_requests_deletes_before_cutoff cfg days_ago days w d :
  healthy cfg w d →
  let cutoff_str := days_ago (now w) days in
  ∃ w' d',
    cleanup_old_requests cfg days_ago days w
    = (Ok (py_sum ((λ kv : string * UserData, count_before cutoff_str (requests kv.2))
                     <$> map_to_list (users d))), w')
    ∧ healthy cfg w' d'
    ∧ system d' = system d
    ∧ ∀ u, match users d !! u with
           | None => users d' !! u = None
           | Some user_data =>
               ∃ user_data', users d' !! u = Some user_data'
                 ∧ kept_from cutoff_str (requests user_data') (requests user_data)
                 ∧ letters user_data' = letters user_data
                 ∧ rate_limits user_data' = rate_limits user_data
                 ∧ profile user_data' = profile user_data
                 ∧ history user_data' = history user_data
           end.
Proof.
  intros Hh cutoff_str.
  unfold cleanup_old_requests, catch. unfold bind at 1, datetime_now.
  unfold bind at 1. rewrite (get_all_users_healthy cfg w d Hh). fold cutoff_str.
  destruct (sweep_all_users cfg (drop_old_requests cutoff_str)
              (λ ud, count_before cutoff_str (requests ud)) (λ _, True)
              (λ deleted_count user_id,
                 let! user_data := get_user_data cfg user_id in
                 let n := count_before cutoff_str (requests user_data) in
                 if bool_decide (0 < n)
                 then
                   update_user_data cfg user_id
                     (set_requests (delete_before cutoff_str (requests user_data))
                        user_data);;
                   ret (deleted_count + n)
                 else ret deleted_count) w d)
    as (w' & Hrun & Hh'); [| |done|done|].
  - intros ud. apply count_before_nonneg.
  - clear Hh. intros acc x w0 dd ud Hacc Hh Hx _. unfold bind at 1.
    rewrite (get_user_data_healthy cfg w0 dd x ud Hh Hx). cbv zeta.
    case_bool_decide as Hn.
    + unfold bind. rewrite (update_user_data_healthy cfg w0 dd x _ Hh).
      eexists. split; [done|]. apply healthy_commit, Hh.
    + exists w0. pose proof (count_before_nonneg cutoff_str (requests ud)).
      assert (Hz : count_before cutoff_str (requests ud) = 0) by lia.
      rewrite Hz, Z.add_0_r. split; [done|].
      apply count_before_zero in Hz.
      unfold drop_old_requests. rewrite (delete_before_none _ _ Hz), set_requests_same.
      by apply healthy_insert_same.
  - cbv zeta in Hrun |- *. rewrite Hrun. eexists w', _. split; [done|]. split; [done|]. split; [done|].
    intros u. simpl. rewrite lookup_fmap.
    destruct (users d !! u) as [ud|]; simpl; [|done].
    eexists. split; [done|]. simpl. split; [|done].
    intros k. apply delete_before_lookup.
Qed.

Lemma cleanup_old_requests_deletes_before_cutoff_witness :
  healthy ex_cfg ex_letters_store ex_letters_doc
  ∧ ∃ w' d',
      cleanup_old_requests ex_cfg ex_days_ago 90 ex_letters_store = (Ok 1, w')
      ∧ healthy ex_cfg w' d'
      ∧ system d' = system ex_letters_doc.
Proof.
  assert (Hh : healthy ex_cfg ex_letters_store ex_letters_doc)
    by (split; vm_compute; reflexivity).
  split; [exact Hh|].
  destruct (cleanup_old_requests_deletes_before_cutoff ex_cfg ex_days_ago 90
              ex_letters_store ex_letters_doc Hh) as (w' & d' & H1 & H2 & H3 & _).
  exists w', d'. split; [|split; [exact H2 | exact H3]].
  rewrite H1. f_equal.
Defined.

(** X26. [reset_daily_counters] on a store where nothing fails and every
    user record holds its two dicts of counters deletes exactly the
    counters of both kinds dated more than 7 days back and returns their
    number; the counters of the last 7 days, the requests, the letters,
    the profiles, the set of users and the system record are as before. *)
Theorem reset_daily_counters_deletes_before_cutoff cfg days_ago w d :
  healthy cfg w d →
  (∀ u user_data, users d !! u = Some user_data → has_counters user_data) →
  let cutoff_str := days_ago (now w) 7 in
  ∃ w' d',
    reset_daily_counters cfg days_ago w
    = (Ok (py_sum ((λ kv : string * UserData,
                      count_before cutoff_str
                        (default ∅ (daily_requests (rate_limits kv.2)))
                      + count_before cutoff_str
                          (default ∅ (api_calls (rate_limits kv.2))))
                     <$> map_to_list (users d))), w')
    ∧ healthy cfg w' d'
    ∧ system d' = system d
    ∧ ∀ u, match users d !! u with
           | None => users d' !! u = None
           | Some user_data =>
               ∃ user_data', users d' !! u = Some user_data'
                 ∧ has_counters user_data'
                 ∧ kept_from cutoff_str
                     (default ∅ (daily_requests (rate_limits user_data')))
                     (default ∅ (daily_requests (rate_limits user_data)))
                 ∧ kept_from cutoff_str
                     (default ∅ (api_calls (rate_limits user_data')))
                     (default ∅ (api_calls (rate_limits user_data)))
                 ∧ requests user_data' = requests user_data
                 ∧ letters user_data' = letters user_data
                 ∧ profile user_data' = profile user_data
                 ∧ history user_data' = history user_data
           end.
Proof.
  intros Hh Hall cutoff_str.
  unfold reset_daily_counters, catch. unfold bind at 1, datetime_now.
  unfold bind at 1. rewrite (get_all_users_healthy cfg w d Hh). fold cutoff_str.
  destruct (sweep_all_users cfg (drop_old_counters cutoff_str)
              (λ ud, count_before cutoff_str (default ∅ (daily_requests (rate_limits ud)))
                     + count_before cutoff_str (default ∅ (api_calls (rate_limits ud))))
              has_counters
              (λ reset_count user_id,
                 let! user_data := get_user_data cfg user_id in
                 match daily_requests (rate_limits user_data) with
                 | None => raise (KeyError "daily_requests")
                 | Some daily =>
                     let reset_count := reset_count + count_before cutoff_str daily in
                     match api_calls (rate_limits user_data) with
                     | None => raise (KeyError "api_calls")
                     | Some calls =>
                         let reset_count :=
                           reset_count + count_before cutoff_str calls in
                         if bool_decide (0 < reset_count)
                         then
                           update_user_data cfg user_id
                             (set_rate_limits
                                {| daily_requests :=
                                     Some (delete_before cutoff_str daily);
                                   api_calls :=
                                     Some (delete_before cutoff_str calls) |}
                                user_data);;
                           ret reset_count
                         else ret reset_count
                     end
                 end) w d)
    as (w' & Hrun & Hh'); [| |done|done|].
  - intros ud.
    pose proof (count_before_nonneg cutoff_str
                  (default ∅ (daily_requests (rate_limits ud)))).
    pose proof (count_before_nonneg cutoff_str
                  (default ∅ (api_calls (rate_limits ud)))). lia.
  - clear Hh Hall. intros acc x w0 dd ud Hacc Hh Hx [[daily Hd] [calls Hc]].
    unfold bind at 1.
    rewrite (get_user_data_healthy cfg w0 dd x ud Hh Hx). rewrite Hd, Hc. cbv zeta.
    simpl.
    pose proof (count_before_nonneg cutoff_str daily).
    pose proof (count_before_nonneg cutoff_str calls).
    case_bool_decide as Hn.
    + unfold bind. rewrite (update_user_data_healthy cfg w0 dd x _ Hh).
      eexists. split; [unfold ret; f_equal; f_equal; lia|].
      unfold drop_old_counters. rewrite Hd, Hc. simpl. apply healthy_commit, Hh.
    + exists w0. split; [unfold ret; f_equal; f_equal; lia|].
      assert (Hz1 : count_before cutoff_str daily = 0) by lia.
      assert (Hz2 : count_before cutoff_str calls = 0) by lia.
      apply count_before_zero in Hz1. apply count_before_zero in Hz2.
      unfold drop_old_counters. rewrite Hd, Hc. simpl.
      rewrite (delete_before_none _ _ Hz1), (delete_before_none _ _ Hz2).
      replace (set_rate_limits _ ud) with ud.
      { by apply healthy_insert_same. }
      destruct ud as [p l r [dr ac] h]. simpl in *. by subst.
  - cbv zeta in Hrun |- *. rewrite Hrun. eexists w', _. split; [done|]. split; [done|]. split; [done|].
    intros u. simpl. rewrite lookup_fmap.
    destruct (users d !! u) as [ud|] eqn:Hu; simpl; [|done].
    destruct (Hall u ud Hu) as [[daily Hd] [calls Hc]].
    eexists. split; [done|]. simpl. rewrite Hd, Hc. simpl.
    split.
    { unfold has_counters, drop_old_counters. simpl. rewrite Hd, Hc.
      split; eexists; reflexivity. }
    split; [intros k; apply delete_before_lookup|].
    split; [intros k; apply delete_before_lookup|]. done.
Qed.

Lemma reset_daily_counters_deletes_before_cutoff_witness :
  healthy ex_cfg ex_store ex_three_users
  ∧ (∀ u user_data, users ex_three_users !! u = Some user_data →
       has_counters user_data)
  ∧ ∃ w' d',
      reset_daily_counters ex_cfg ex_days_ago ex_store = (Ok 0, w')
      ∧ healthy ex_cfg w' d'
      ∧ system d' = system ex_three_users.
Proof.
  assert (Hh : healthy ex_cfg ex_store ex_three_users)
    by (split; vm_compute; reflexivity).
  assert (Hall : ∀ u user_data, users ex_three_users !! u = Some user_data →
                                has_counters user_data).
  { intros u ud Hu. unfold ex_three_users, ex_doc in Hu. simpl in Hu.
    rewrite !lookup_insert_Some, lookup_empty in Hu.
    destruct Hu as [[_ <-] | [_ [[_ <-] | [_ [[_ <-] | [_ ?]]]]]]; [..|done];
      split; eexists; reflexivity. }
  split; [exact Hh|]. split; [exact Hall|].
  destruct (reset_daily_counters_deletes_before_cutoff ex_cfg ex_days_ago ex_store
              ex_three_users Hh Hall) as (w' & d' & H1 & H2 & H3 & _).
  exists w', d'. split; [|split; [exact H2 | exact H3]].
  rewrite H1. f_equal.
Defined.

(** ** The statistics of the day *)

Lemma for_each_count {A B} (P : Z → B → Prop) (body : B → A → M B) l :
  (∀ n acc x w r w', P n acc → body acc x w = (Ok r, w') → P (n + 1) r) →
  ∀ n acc w r w',
    P n acc → for_each l acc body w = (Ok r, w') → P (n + Z.of_nat (length l)) r.
Proof.
  intros Hbody. induction l as [|x l IH]; intros n acc w r w' Hacc; simpl.
  - intros [= <- <-]. by rewrite Z.add_0_r.
  - intros (acc' & w1 & Hx & Hrest)%bind_Ok_inv.
    replace (n + Z.of_nat (S (length l)))
      with (n + 1 + Z.of_nat (length l)) by lia.
    eapply IH; [|done]. eauto.
Qed.

Lemma count_request_consistent n request stats :
  consistent_statistics n stats →
  consistent_statistics (n + 1) (count_request request stats).
Proof.
  intros (Hp & Hc & Hf & Hsum & Hn & h2 & h3 & h4 & Hmap & H2 & H3 & H4 & Hh).
  unfold consistent_statistics, count_request. cbn -[String.eqb Z.add].
  split_and!.
  - destruct (String.eqb _ "pending"); lia.
  - destruct (String.eqb _ "pending"); [lia|].
    destruct (String.eqb _ "completed"); lia.
  - destruct (String.eqb _ "pending"); [lia|].
    destruct (String.eqb _ "completed"); [lia|].
    destruct (String.eqb _ "failed"); lia.
  - destruct (String.eqb _ "pending"); [lia|].
    destruct (String.eqb _ "completed"); [lia|].
    destruct (String.eqb _ "failed"); lia.
  - lia.
  - destruct (req_generation_hour request) as [hour|];
      [|exists h2, h3, h4; split_and!; [done|lia..]].
    rewrite Hmap.
    destruct (decide (hour = 2)) as [->|N2].
    { rewrite lookup_insert_eq. exists (h2 + 1), h3, h4.
      split_and!; [by rewrite insert_insert_eq|lia..]. }
    rewrite (lookup_insert_ne _ 2 hour) by done.
    destruct (decide (hour = 3)) as [->|N3].
    { rewrite lookup_insert_eq. exists h2, (h3 + 1), h4.
      split_and!; [|lia..].
      rewrite (insert_insert_ne _ 3 2) by done. rewrite insert_insert_eq.
      by rewrite (insert_insert_ne _ 2 3) by done. }
    rewrite (lookup_insert_ne _ 3 hour) by done.
    destruct (decide (hour = 4)) as [->|N4].
    { rewrite lookup_insert_eq. exists h2, h3, (h4 + 1).
      split_and!; [|lia..].
      rewrite (insert_insert_ne _ 4 2) by done.
      rewrite (insert_insert_ne _ 4 3) by done. rewrite insert_insert_eq.
      rewrite (insert_insert_ne _ 3 4) by done.
      by rewrite (insert_insert_ne _ 2 4) by done. }
    rewrite (lookup_insert_ne _ 4 hour) by done. rewrite lookup_empty.
    exists h2, h3, h4. split_and!; [done|lia..].
Qed.

Lemma consistent_statistics_mono n stats :
  consistent_statistics n stats → consistent_statistics (n + 1) stats.
Proof.
  intros (Hp & Hc & Hf & Hsum & Hn & Hmap). split_and!; [done..|lia|done].
Qed.

(** X27. Statistics that [get_request_statistics] returns fit together,
    whatever the store did meanwhile: no counter is negative, the pending,
    completed and failed requests together are at most [today_requests],
    which is at most [total_users], and [requests_by_hour] has exactly the
    hours 2, 3 and 4, whose counts together are at most [today_requests]. *)
Theorem get_request_statistics_consistent cfg w stats w' :
  get_request_statistics cfg w = (Ok (inr stats), w') →
  consistent_statistics (total_users stats) stats.
Proof.
  intros Hrun. unfold get_request_statistics in Hrun.
  apply catch_Ok_inv in Hrun as [Hrun | (e & w1 & _ & Hh)]; [|by inversion Hh].
  apply bind_Ok_inv in Hrun as (all_users & w1 & _ & Hrun).
  apply bind_Ok_inv in Hrun as (c & w2 & _ & Hrun). cbv zeta in Hrun.
  apply bind_Ok_inv in Hrun as (stats' & w3 & Hloop & Hret).
  injection Hret as <- _.
  apply (for_each_count
           (λ n st, consistent_statistics n st
                    ∧ total_users st = Z.of_nat (length all_users))) with (n := 0)
    in Hloop.
  - destruct Hloop as [Hc Ht]. by rewrite Ht.
  - intros n acc x wa r wb [Hc Ht] Hbody.
    apply bind_Ok_inv in Hbody as (user_data & wc & _ & Hbody).
    destruct (requests user_data !! today c) as [request|];
      injection Hbody as <- _.
    + split; [by apply count_request_consistent|done].
    + split; [by apply consistent_statistics_mono|done].
  - split; [|done]. unfold consistent_statistics. simpl.
    split_and!; [lia..|].
    exists 0, 0, 0. split_and!; [|lia..]. done.
Qed.

Lemma get_request_statistics_consistent_witness :
  ∃ stats w',
    get_request_statistics ex_cfg ex_store = (Ok (inr stats), w')
    ∧ consistent_statistics (total_users stats) stats.
Proof.
  destruct (get_request_statistics ex_cfg ex_store) as [[[e|stats]|e|] w'] eqn:Hrun;
    [vm_compute in Hrun; discriminate Hrun| |
     vm_compute in Hrun; discriminate Hrun..].
  exists stats, w'. split; [reflexivity|].
  exact (get_request_statistics_consistent ex_cfg ex_store stats w' Hrun).
Defined.
